(** * spec_form: the questionnaire wizard, its validator, draft storage
      and output generator

    A shallow embedding of the TypeScript sources
    ([utils/validation.ts], [utils/storage.ts], [hooks/useWizardState.ts],
    [hooks/useOutputGeneration.ts], [types/wizard.ts], [types/storage.ts],
    the hooks over [localStorage] and [debounce] of [utils/index.ts])
    and the properties of the specification checked against it, followed
    by further properties of the same functions.

    Conventions.
    - A JavaScript string is the list of its UTF-16 code units
      ([jsstring]); [length] is [String.prototype.length]. Identifiers
      that the program only compares (question ids, storage keys, error
      codes, message keys) are Rocq strings.
    - A [number] that the program computes with as a number only in
      integers (a time in milliseconds, a size, a count, a layer) is an
      integer [Z]. The steps of the wizard, the numeric answers and the
      confidence of the PII detector are binary64 values ([number]):
      rationals, [NaN] and the infinities.
    - A JavaScript object used as a dictionary is a [gmap];
      [localStorage] is an association list in the order of its keys.
    - A function that can throw returns a [Result]; the time and the
      generated id are arguments.
    - The browser's part is kept symbolic. The text of
      [JSON.stringify] and the SHA-256 digest are the fields of the
      class [Platform], about which nothing is assumed; a stored string
      is represented by what [JSON.parse] and the schema make of it,
      and an ISO-8601 date string by its instant. Regular expressions
      are run by a backtracking matcher for the fragment the program
      uses.
    - [async] functions are run to completion: the program has a single
      thread and awaits every call. Each action of the hook runs in a
      render that has seen the previous one.
    - A timer is an event of its own, which the browser runs no earlier
      than it is due. *)

From Stdlib Require Import ZArith QArith Qminmax Qround Qreduction Lqa.
From Stdlib Require Import Ascii String List Bool Lia.
From Stdlib Require Import Sorted.
From stdpp Require Import gmap strings list fin_maps.

Local Open Scope Z_scope.
Local Open Scope list_scope.

(* ===================================================================== *)
(** * JavaScript strings *)
(* ===================================================================== *)

Abbreviation jsstring := (list Z).

Module JsString.

(** Decoding of a UTF-8 literal of this file into UTF-16 code units. *)
Definition byte_val (a : ascii) : Z := Z.of_N (N_of_ascii a).

Definition cont (b : Z) : Z := Z.land b 63.

Definition utf16_of_code_point (cp : Z) : list Z :=
  if cp <? 65536 then [cp]
  else
    let c := cp - 65536 in
    [55296 + Z.shiftr c 10; 56320 + Z.land c 1023].

Fixpoint decode (bs : list Z) : list Z :=
  match bs with
  | [] => []
  | b :: rest =>
      if b <? 128 then b :: decode rest
      else if b <? 224 then
        match rest with
        | b1 :: rest1 =>
            (Z.shiftl (Z.land b 31) 6 + cont b1) :: decode rest1
        | _ => [65533]
        end
      else if b <? 240 then
        match rest with
        | b1 :: b2 :: rest2 =>
            (Z.shiftl (Z.land b 15) 12 + Z.shiftl (cont b1) 6 + cont b2)
              :: decode rest2
        | _ => [65533]
        end
      else
        match rest with
        | b1 :: b2 :: b3 :: rest3 =>
            utf16_of_code_point
              (Z.shiftl (Z.land b 7) 18 + Z.shiftl (cont b1) 12
               + Z.shiftl (cont b2) 6 + cont b3) ++ decode rest3
        | _ => [65533]
        end
  end.

Fixpoint bytes (s : string) : list Z :=
  match s with
  | EmptyString => []
  | String a s' => byte_val a :: bytes s'
  end.

Definition js (s : string) : jsstring := decode (bytes s).

(** [WhiteSpace] and [LineTerminator] of ECMAScript: what [trim] strips
    and what the regular expression class [\s] contains. *)
Definition is_space (c : Z) : bool :=
  (c =? 9) || (c =? 10) || (c =? 11) || (c =? 12) || (c =? 13)
  || (c =? 32) || (c =? 160) || (c =? 5760)
  || ((8192 <=? c) && (c <=? 8202))
  || (c =? 8232) || (c =? 8233) || (c =? 8239) || (c =? 8287)
  || (c =? 12288) || (c =? 65279).

Fixpoint trimStart (s : jsstring) : jsstring :=
  match s with
  | [] => []
  | c :: s' => if is_space c then trimStart s' else s
  end.

Definition trim (s : jsstring) : jsstring :=
  rev (trimStart (rev (trimStart s))).

(** [s.slice(0, n)] for [0 <= n]. *)
Definition slice0 (n : nat) (s : jsstring) : jsstring := firstn n s.

Fixpoint eqb (s t : jsstring) : bool :=
  match s, t with
  | [], [] => true
  | c :: s', d :: t' => (c =? d) && eqb s' t'
  | _, _ => false
  end.

Fixpoint startsWith (p s : jsstring) : bool :=
  match p, s with
  | [], _ => true
  | c :: p', d :: s' => (c =? d) && startsWith p' s'
  | _ :: _, [] => false
  end.

(** [s.includes(t)] *)
Fixpoint includes (t s : jsstring) : bool :=
  startsWith t s ||
  match s with
  | [] => false
  | _ :: s' => includes t s'
  end.

(** [parts.join(sep)] *)
Fixpoint join (sep : jsstring) (parts : list jsstring) : jsstring :=
  match parts with
  | [] => []
  | [p] => p
  | p :: ps => p ++ sep ++ join sep ps
  end.

(** Decimal rendering of an integer, as [String(n)] gives it. *)
Fixpoint digits_pos (fuel : nat) (n : Z) (acc : jsstring) : jsstring :=
  match fuel with
  | O => acc
  | S f =>
      let acc' := (48 + n mod 10) :: acc in
      if n <? 10 then acc' else digits_pos f (n / 10) acc'
  end.

Definition of_Z (n : Z) : jsstring :=
  if n <? 0 then 45 :: digits_pos (Z.to_nat (Z.log2 (- n)) + 1) (- n) []
  else digits_pos (Z.to_nat (Z.log2 n) + 1) n [].

End JsString.

Import JsString.

(* ===================================================================== *)
(** * JavaScript numbers

    A [number] of the program is a binary64 value: a rational, [NaN] or
    an infinity. The four operations round the exact result to the
    nearest binary64 value, ties to even ([round64]), as the language
    does; orders and equalities are exact, and false on [NaN]. A literal
    such as [0.3] is the binary64 value nearest to it. The sign of zero
    is not kept: the program never divides by a number it has
    computed. *)
(* ===================================================================== *)

Inductive number :=
| Finite (q : Q)
| NaN
| Infinity (negative : bool).

(** An integer as a number. *)
Definition Int (n : Z) : number := Finite (inject_Z n).
Coercion Int : Z >-> number.

Module JsNumber.

(** [a < b], [a <= b], [a === b] *)
Definition ltb (a b : number) : bool :=
  match a, b with
  | Finite x, Finite y => negb (Qle_bool y x)
  | Finite _, Infinity negative => negb negative
  | Infinity negative, Finite _ => negative
  | Infinity na, Infinity nb => na && negb nb
  | _, _ => false
  end.

Definition leb (a b : number) : bool :=
  match a, b with
  | Finite x, Finite y => Qle_bool x y
  | Finite _, Infinity negative => negb negative
  | Infinity negative, Finite _ => negative
  | Infinity na, Infinity nb => na || negb nb
  | _, _ => false
  end.

Definition eqb (a b : number) : bool :=
  match a, b with
  | Finite x, Finite y => Qeq_bool x y
  | Infinity na, Infinity nb => Bool.eqb na nb
  | _, _ => false
  end.

Definition isNaN (a : number) : bool :=
  match a with
  | NaN => true
  | _ => false
  end.

Definition isFinite (a : number) : bool :=
  match a with
  | Finite _ => true
  | _ => false
  end.

(** Truthiness: 0 and [NaN] are falsy. *)
Definition truthy (a : number) : bool :=
  match a with
  | Finite x => negb (Qeq_bool x 0)
  | NaN => false
  | Infinity _ => true
  end.

Definition opp (a : number) : number :=
  match a with
  | Finite x => Finite (- x)
  | NaN => NaN
  | Infinity negative => Infinity (negb negative)
  end.

(** The integer nearest to [a / b], the even one of two; [0 <= a] and
    [0 < b]. *)
Definition nearest_even (a b : Z) : Z :=
  let q := a / b in
  let r := a mod b in
  if 2 * r <? b then q
  else if b <? 2 * r then q + 1
  else if Z.even q then q else q + 1.

(** [2^e <= a / b] *)
Definition pow2_le (e a b : Z) : bool :=
  if 0 <=? e then b * 2 ^ e <=? a else b <=? a * 2 ^ (- e).

(** The binary exponent of [a / b]: the [e] with
    [2^e <= a / b < 2^(e+1)]. *)
Definition exponent (a b : Z) : Z :=
  let e0 := Z.log2 a - Z.log2 b in
  if pow2_le e0 a b then e0 else e0 - 1.

(** The binary64 value nearest to [a / b], for positive [a] and [b]:
    53 significant bits, in units of [2^(e-52)], where the exponent [e]
    is at least -1022 (below, the values are subnormal); from [2^1024]
    on the result is [Infinity]. *)
Definition round64_pos (a b : Z) : number :=
  let e := Z.max (exponent a b) (-1022) in
  if e <=? 52 then
    Finite (Qred (nearest_even (a * 2 ^ (52 - e)) b # Z.to_pos (2 ^ (52 - e))))
  else
    let v := nearest_even a (b * 2 ^ (e - 52)) * 2 ^ (e - 52) in
    if 2 ^ 1024 <=? v then Infinity false else Finite (inject_Z v).

Definition round64 (q : Q) : number :=
  let q := Qred q in
  match Qnum q with
  | Z0 => Finite 0
  | Zpos a => round64_pos (Zpos a) (Zpos (Qden q))
  | Zneg a => opp (round64_pos (Zpos a) (Zpos (Qden q)))
  end.

Definition add (a b : number) : number :=
  match a, b with
  | Finite x, Finite y => round64 (x + y)
  | Finite _, Infinity negative | Infinity negative, Finite _ =>
      Infinity negative
  | Infinity na, Infinity nb => if Bool.eqb na nb then Infinity na else NaN
  | _, _ => NaN
  end.

Definition sub (a b : number) : number := add a (opp b).

Definition is_negative (x : Q) : bool := negb (Qle_bool 0 x).

Definition mul (a b : number) : number :=
  match a, b with
  | Finite x, Finite y => round64 (x * y)
  | Finite x, Infinity n | Infinity n, Finite x =>
      if Qeq_bool x 0 then NaN else Infinity (xorb n (is_negative x))
  | Infinity na, Infinity nb => Infinity (xorb na nb)
  | _, _ => NaN
  end.

Definition div (a b : number) : number :=
  match a, b with
  | Finite x, Finite y =>
      if Qeq_bool y 0 then
        if Qeq_bool x 0 then NaN else Infinity (is_negative x)
      else round64 (x / y)
  | Finite _, Infinity _ => Finite 0
  | Infinity n, Finite y => Infinity (xorb n (is_negative y))
  | _, _ => NaN
  end.

(** [Math.round]: the nearest integer, the larger one of two. *)
Definition Math_round (a : number) : number :=
  match a with
  | Finite x => Int (Qfloor (x + (1 # 2)))
  | other => other
  end.

Definition Math_min (a b : number) : number :=
  match a, b with
  | NaN, _ | _, NaN => NaN
  | _, _ => if leb a b then a else b
  end.

(** [Number.prototype.toString]: the digits are the shortest decimal
    that rounds to the number ([k] digits [s], with the decimal point
    after the first [n]), in exponent notation from [1e21] on and
    below [1e-6]. *)
Definition pow10_le (n a b : Z) : bool :=
  if 0 <=? n then b * 10 ^ n <=? a else b <=? a * 10 ^ (- n).

Fixpoint decimal_exponent (fuel : nat) (k a b : Z) : Z :=
  match fuel with
  | O => k
  | S fuel' =>
      if pow10_le (k + 1) a b then decimal_exponent fuel' (k + 1) a b else k
  end.

Definition scaled10 (s e : Z) : Q :=
  if 0 <=? e then inject_Z (s * 10 ^ e) else s # Z.to_pos (10 ^ (- e)).

Fixpoint shortest (fuel : nat) (k n a b : Z) (x : number) : Z * Z * Z :=
  match fuel with
  | O => (0, n, k)
  | S fuel' =>
      let e := n - k in
      let s := if 0 <=? e then nearest_even a (b * 10 ^ e)
               else nearest_even (a * 10 ^ (- e)) b in
      let '(s, n') := if s =? 10 ^ k then (10 ^ (k - 1), n + 1) else (s, n) in
      if eqb (round64 (scaled10 s (n' - k))) x then (s, n', k)
      else shortest fuel' (k + 1) n a b x
  end.

Definition zeros (n : Z) : jsstring := repeat 48 (Z.to_nat n).

Definition toString_pos (a b : Z) : jsstring :=
  let l := Z.log2 a - Z.log2 b in
  let n := decimal_exponent 6 ((l - 1) * 30103 / 100000 - 1) a b + 1 in
  let '(s, n, k) := shortest 17 1 n a b (Finite (a # Z.to_pos b)) in
  let digits := of_Z s in
  if (k <=? n) && (n <=? 21) then digits ++ zeros (n - k)
  else if (0 <? n) && (n <=? 21) then
    firstn (Z.to_nat n) digits ++ 46 :: skipn (Z.to_nat n) digits
  else if (-6 <? n) && (n <=? 0) then 48 :: 46 :: zeros (- n) ++ digits
  else
    let mantissa :=
      match digits with
      | d :: rest => d :: (if k =? 1 then [] else 46 :: rest)
      | [] => []
      end in
    mantissa ++ 101 :: (if 0 <=? n - 1 then 43 else 45) :: of_Z (Z.abs (n - 1)).

Definition toString (x : number) : jsstring :=
  match x with
  | Finite q =>
      match round64 q with
      | Finite d =>
          match Qnum d with
          | Z0 => [48]
          | Zpos a => toString_pos (Zpos a) (Zpos (Qden d))
          | Zneg a => 45 :: toString_pos (Zpos a) (Zpos (Qden d))
          end
      | NaN => js "NaN"
      | Infinity negative =>
          if negative then js "-Infinity" else js "Infinity"
      end
  | NaN => js "NaN"
  | Infinity negative => if negative then js "-Infinity" else js "Infinity"
  end.

(** A decimal literal of the program: the binary64 value nearest to
    it. *)
Definition literal (q : Q) : number := round64 q.

End JsNumber.

Declare Scope num_scope.
Delimit Scope num_scope with num.
Bind Scope num_scope with number.

Notation "a <? b" := (JsNumber.ltb a b) : num_scope.
Notation "a <=? b" := (JsNumber.leb a b) : num_scope.
Notation "a =? b" := (JsNumber.eqb a b) : num_scope.
Notation "a < b" := (JsNumber.ltb a b = true) : num_scope.
Notation "a <= b" := (JsNumber.leb a b = true) : num_scope.
Notation "a <= b <= c" :=
  (JsNumber.leb a b = true /\ JsNumber.leb b c = true) : num_scope.
Notation "a + b" := (JsNumber.add a b) : num_scope.
Notation "a - b" := (JsNumber.sub a b) : num_scope.
Notation "a * b" := (JsNumber.mul a b) : num_scope.
Notation "a / b" := (JsNumber.div a b) : num_scope.

(* ===================================================================== *)
(** * Regular expressions

    The fragment of ECMAScript regular expressions that the patterns of
    the program use, with the backtracking semantics of the language:
    greedy quantifiers, the first alternative first. *)
(* ===================================================================== *)

Module Regex.

Inductive regex : Type :=
| Empty
| Class (p : Z -> bool)
| Seq (r1 r2 : regex)
| Alt (r1 r2 : regex)
| Rep (lo : nat) (hi : option nat) (r : regex)
| WordBoundary.

Definition is_digit (c : Z) : bool := (48 <=? c) && (c <=? 57).
Definition is_upper (c : Z) : bool := (65 <=? c) && (c <=? 90).
Definition is_lower (c : Z) : bool := (97 <=? c) && (c <=? 122).
Definition is_word (c : Z) : bool :=
  is_upper c || is_lower c || is_digit c || (c =? 95).

Definition char_at (s : jsstring) (i : nat) : option Z := nth_error s i.

Definition word_at (s : jsstring) (i : nat) : bool :=
  match char_at s i with
  | Some c => is_word c
  | None => false
  end.

(** [\b]: exactly one of the two neighbours is a word character. *)
Definition at_word_boundary (s : jsstring) (i : nat) : bool :=
  let before := match i with O => false | S j => word_at s j end in
  xorb before (word_at s i).

Definition below (n : nat) (hi : option nat) : bool :=
  match hi with
  | None => true
  | Some h => (n <? h)%nat
  end.

(** [RepeatMatcher] of the language definition for a greedy quantifier
    [{min,max}]: one more iteration of [body] first, the continuation
    [k] when that fails and no iteration is owed. Once none is owed, an
    iteration that consumes nothing is rejected. *)
Fixpoint rep_loop (body : nat -> (nat -> option nat) -> option nat)
    (fuel min : nat) (max : option nat) (k : nat -> option nat) (i : nat)
    {struct fuel} : option nat :=
  match fuel with
  | O => None
  | S fuel' =>
      if negb (below 0 max) then k i
      else
        let d := fun j =>
          if (min =? 0)%nat && (j =? i)%nat then None
          else rep_loop body fuel' (Nat.pred min) (option_map Nat.pred max) k j in
        if negb (min =? 0)%nat then body i d
        else
          match body i d with
          | Some e => Some e
          | None => k i
          end
  end.

(** [rmatch r s i k]: match [r] at index [i] of [s], then continue with
    [k] at the index reached; the first success wins. *)
Fixpoint rmatch (r : regex) (s : jsstring) (i : nat)
    (k : nat -> option nat) {struct r} : option nat :=
  match r with
  | Empty => k i
  | Class p =>
      match char_at s i with
      | Some c => if p c then k (S i) else None
      | None => None
      end
  | Seq r1 r2 => rmatch r1 s i (fun j => rmatch r2 s j k)
  | Alt r1 r2 =>
      match rmatch r1 s i k with
      | Some e => Some e
      | None => rmatch r2 s i k
      end
  | Rep lo hi r' => rep_loop (rmatch r' s) (lo + S (length s)) lo hi k i
  | WordBoundary => if at_word_boundary s i then k i else None
  end.

(** The least number of code units a match of [r] spans. *)
Fixpoint minlen (r : regex) : nat :=
  match r with
  | Empty => 0
  | Class _ => 1
  | Seq r1 r2 => minlen r1 + minlen r2
  | Alt r1 r2 => Nat.min (minlen r1) (minlen r2)
  | Rep lo _ r' => lo * minlen r'
  | WordBoundary => 0
  end.

(** The bounds of every quantifier are in order, as the syntax of the
    language demands. *)
Fixpoint well_formed (r : regex) : bool :=
  match r with
  | Seq r1 r2 | Alt r1 r2 => well_formed r1 && well_formed r2
  | Rep lo hi r' =>
      match hi with
      | Some h => (lo <=? h)%nat
      | None => true
      end && well_formed r'
  | _ => true
  end.

(** What it means for [r] to match [s] from index [i] to index [j],
    apart from any matching procedure. *)
Inductive Matches (s : jsstring) : regex -> nat -> nat -> Prop :=
| M_Empty i : Matches s Empty i i
| M_Class p i c :
    char_at s i = Some c -> p c = true -> Matches s (Class p) i (S i)
| M_Seq r1 r2 i j k :
    Matches s r1 i j -> Matches s r2 j k -> Matches s (Seq r1 r2) i k
| M_AltL r1 r2 i j : Matches s r1 i j -> Matches s (Alt r1 r2) i j
| M_AltR r1 r2 i j : Matches s r2 i j -> Matches s (Alt r1 r2) i j
| M_RepDone hi r i : Matches s (Rep 0 hi r) i i
| M_RepMore lo hi r i j k :
    below 0 hi = true ->
    Matches s r i j ->
    Matches s (Rep (Nat.pred lo) (option_map Nat.pred hi) r) j k ->
    Matches s (Rep lo hi r) i k
| M_WordBoundary i :
    at_word_boundary s i = true -> Matches s WordBoundary i i.

(** [hi] allows what [hi'] allows. *)
Definition looser (hi hi' : option nat) : Prop :=
  match hi', hi with
  | None, _ => True
  | Some b', Some b => (b <= b')%nat
  | Some _, None => False
  end.

(** A match of [r] in [s] from index [i] to index [e]. *)
Definition match_at (r : regex) (s : jsstring) (i : nat) : option nat :=
  rmatch r s i Some.

(** The leftmost match starting at [i] or later. *)
Fixpoint search (r : regex) (s : jsstring) (fuel i : nat)
    : option (nat * nat) :=
  match fuel with
  | O => None
  | S fuel' =>
      match match_at r s i with
      | Some e => Some (i, e)
      | None => search r s fuel' (S i)
      end
  end.

(** [pattern.exec(text)] for a pattern with the [g] flag: the search
    starts at [lastIndex]; a match moves [lastIndex] to its end, a
    failure resets it to 0. The result is the match and the new
    [lastIndex]. *)
Definition exec (r : regex) (s : jsstring) (lastIndex : nat)
    : option (nat * nat) * nat :=
  match search r s (S (length s) - lastIndex) lastIndex with
  | Some (b, e) => (Some (b, e), e)
  | None => (None, O)
  end.

(** [pattern.test(text)] for a pattern without the [g] flag. *)
Definition test (r : regex) (s : jsstring) : bool :=
  match search r s (S (length s)) O with
  | Some _ => true
  | None => false
  end.

(** [r] matches somewhere in [s]. *)
Definition occurs (r : regex) (s : jsstring) : Prop :=
  exists i e, (i <= length s)%nat /\ Matches s r i e.

(** Pattern builders. *)
Definition lit (c : Z) : regex := Class (Z.eqb c).
Definition digit : regex := Class is_digit.
Definition times (n : nat) (r : regex) : regex := Rep n (Some n) r.
Definition between (lo hi : nat) (r : regex) : regex := Rep lo (Some hi) r.
Definition plus (r : regex) : regex := Rep 1 None r.
Definition at_least (n : nat) (r : regex) : regex := Rep n None r.
Definition opt (r : regex) : regex := Rep 0 (Some 1%nat) r.

Fixpoint seqs (rs : list regex) : regex :=
  match rs with
  | [] => Empty
  | [r] => r
  | r :: rs' => Seq r (seqs rs')
  end.

End Regex.

Import Regex.

(* ===================================================================== *)
(** * PII detection ([utils/validation.ts]) *)
(* ===================================================================== *)

Module PII.

Definition one_of (cs : list Z) (c : Z) : bool := existsb (Z.eqb c) cs.

(** [[A-Za-z0-9._%+-]] *)
Definition email_local (c : Z) : bool :=
  is_upper c || is_lower c || is_digit c || one_of [46; 95; 37; 43; 45] c.
(** [[A-Za-z0-9.-]] *)
Definition email_domain (c : Z) : bool :=
  is_upper c || is_lower c || is_digit c || one_of [46; 45] c.
(** [[A-Z|a-z]]: the bar is a member of the class. *)
Definition email_tld (c : Z) : bool :=
  is_upper c || (c =? 124) || is_lower c.
(** [[-\s]] *)
Definition dash_or_space (c : Z) : bool := (c =? 45) || is_space c.

Definition sep : regex := opt (Class dash_or_space).
Definition dash : regex := lit 45.

(** [/\b[A-Za-z0-9._%+-]+@[A-Za-z0-9.-]+\.[A-Z|a-z]{2,}\b/g] *)
Definition email : regex :=
  seqs [WordBoundary; plus (Class email_local); lit 64;
        plus (Class email_domain); lit 46; at_least 2 (Class email_tld);
        WordBoundary].
(** [/(\+81|0)\d{1,4}[-\s]?\d{1,4}[-\s]?\d{4}/g] *)
Definition phone : regex :=
  seqs [Alt (seqs [lit 43; lit 56; lit 49]) (lit 48);
        between 1 4 digit; sep; between 1 4 digit; sep; times 4 digit].
(** [/\d{3}-\d{4}-\d{4}/g] *)
Definition phoneAlt : regex :=
  seqs [times 3 digit; dash; times 4 digit; dash; times 4 digit].
(** [/(〒|\u3012)\d{3}[-\s]?\d{4}/g]; both alternatives are U+3012. *)
Definition address : regex :=
  seqs [Alt (lit 12306) (lit 12306); times 3 digit; sep; times 4 digit].
(** [/\b\d{4}[-\s]?\d{4}[-\s]?\d{4}[-\s]?\d{4}\b/g] *)
Definition creditCard : regex :=
  seqs [WordBoundary; times 4 digit; sep; times 4 digit; sep;
        times 4 digit; sep; times 4 digit; WordBoundary].
(** [/\d{4}-\d{2}-\d{4}/g] *)
Definition socialSecurityJP : regex :=
  seqs [times 4 digit; dash; times 2 digit; dash; times 4 digit].
(** [/\d{12}/g] *)
Definition personalNumber : regex := times 12 digit.

(** [Object.entries(PII_PATTERNS)], in declaration order. *)
Definition PII_PATTERNS : list (string * regex) :=
  [("email", email); ("phone", phone); ("phoneAlt", phoneAlt);
   ("address", address); ("creditCard", creditCard);
   ("socialSecurityJP", socialSecurityJP);
   ("personalNumber", personalNumber)]%string.

Inductive PiiType := Email | Phone | Address | CreditCard | PersonalId.

Definition PiiType_eqb (a b : PiiType) : bool :=
  match a, b with
  | Email, Email | Phone, Phone | Address, Address
  | CreditCard, CreditCard | PersonalId, PersonalId => true
  | _, _ => false
  end.

Record Location := {
  loc_type : string;
  loc_start : nat;
  loc_end : nat;
  loc_value : jsstring;
}.

Record Detection := {
  hasPII : bool;
  types : list PiiType;
  confidence : number;
  locations : list Location;
}.

(** [name.includes(part)] on identifiers. *)
Fixpoint name_includes (part name : string) : bool :=
  String.prefix part name ||
  match name with
  | EmptyString => false
  | String _ rest => name_includes part rest
  end.

(** The chain of [if (type === ...) types.add(...)] of the loop body. *)
Definition category (type : string) : PiiType :=
  if String.eqb type "email" then Email
  else if name_includes "phone" type then Phone
  else if String.eqb type "address" then Address
  else if String.eqb type "creditCard" then CreditCard
  else PersonalId.

(** [Set.prototype.add]: insertion order, no duplicate. *)
Definition set_add (t : PiiType) (ts : list PiiType) : list PiiType :=
  if existsb (PiiType_eqb t) ts then ts else ts ++ [t].

(** [while ((match = pattern.exec(text)) !== null) ...]: the matches
    found, from the pattern's [lastIndex] on. [None] when the loop has
    not ended within [fuel] calls of [exec]. *)
Fixpoint execAll (fuel : nat) (r : regex) (text : jsstring)
    (lastIndex : nat) : option (list (nat * nat)) :=
  match fuel with
  | O => None
  | S fuel' =>
      match exec r text lastIndex with
      | (Some m, lastIndex') =>
          option_map (cons m) (execAll fuel' r text lastIndex')
      | (None, _) => Some []
      end
  end.

Definition substring (text : jsstring) (b e : nat) : jsstring :=
  firstn (e - b) (skipn b text).

Definition record_match (type : string) (text : jsstring)
    (acc : list Location * list PiiType) (m : nat * nat)
    : list Location * list PiiType :=
  (fst acc ++ [{| loc_type := type; loc_start := fst m; loc_end := snd m;
                  loc_value := substring text (fst m) (snd m) |}],
   set_add (category type) (snd acc)).

(** One pass of [Object.entries(PII_PATTERNS).forEach]. Every pattern
    is a module constant whose [lastIndex] is 0 when [detectPII] is
    entered: the loop below only ends on a failed [exec], which resets
    it, and nothing else in the program runs these patterns
    ([AnswerValidator.validateEmail] has no caller). *)
Fixpoint scan (fuel : nat) (patterns : list (string * regex))
    (text : jsstring) (acc : list Location * list PiiType)
    : option (list Location * list PiiType) :=
  match patterns with
  | [] => Some acc
  | (type, pattern) :: rest =>
      match execAll fuel pattern text O with
      | Some ms => scan fuel rest text (fold_left (record_match type text) ms acc)
      | None => None
      end
  end.

(** The matches of one pattern and the number of matches of all. *)
Definition matches_of (r : regex) (text : jsstring) : list (nat * nat) :=
  match execAll (S (length text)) r text O with
  | Some ms => ms
  | None => []
  end.

Definition matchCount (text : jsstring) : nat :=
  list_sum (map (fun p => length (matches_of (snd p) text)) PII_PATTERNS).

(** [Math.min(locations.length * 0.3, 1)] *)
Definition score (n : nat) : number :=
  JsNumber.Math_min (Int (Z.of_nat n) * JsNumber.literal (3 # 10))%num 1.

(** The matches that the loop over [exec] is to find for a pattern
    from the index [from] on: the first start at which the pattern
    matches, with the end that the matcher reaches there, then the
    same from that end; after the last of them the pattern matches
    nowhere. *)
Inductive Scan (r : regex) (text : jsstring) : nat -> list (nat * nat) -> Prop :=
| Scan_end from :
    (forall j e, (from <= j <= length text)%nat -> ~ Matches text r j e) ->
    Scan r text from []
| Scan_match from b e rest :
    (from <= b <= length text)%nat ->
    (forall j e', (from <= j < b)%nat -> ~ Matches text r j e') ->
    match_at r text b = Some e ->
    Scan r text e rest ->
    Scan r text from ((b, e) :: rest).

(** The locations reported for the matches of the patterns, one list
    of matches for each pattern. *)
Definition located (text : jsstring) (patterns : list (string * regex))
    (found : list (list (nat * nat))) : list Location :=
  concat
    (zip_with
       (fun p ms =>
          map (fun m => {| loc_type := fst p; loc_start := fst m;
                           loc_end := snd m;
                           loc_value := substring text (fst m) (snd m) |})
            ms)
       patterns found).

(** The confidence for a number of locations: 0.3, 0.6,
    0.8999999999999999 and then 1. *)
Definition confidence_of (n : nat) : number :=
  match n with
  | 0%nat => 0
  | 1%nat => Finite (5404319552844595 # 18014398509481984)
  | 2%nat => Finite (5404319552844595 # 9007199254740992)
  | 3%nat => Finite (2026619832316723 # 2251799813685248)
  | _ => 1
  end.

Definition detectPII_fuel (fuel : nat) (text : jsstring) : option Detection :=
  match scan fuel PII_PATTERNS text ([], []) with
  | Some (locs, tys) =>
      let has := (0 <? length locs)%nat in
      Some {| hasPII := has;
              types := tys;
              confidence := if has then score (length locs) else 0;
              locations := locs |}
  | None => None
  end.

Definition detectPII (text : jsstring) : option Detection :=
  detectPII_fuel (S (length text)) text.

End PII.

(* ===================================================================== *)
(** * Core types ([types/wizard.ts]) *)
(* ===================================================================== *)

(** A value of type [unknown], as a record answer can hold under a
    key: the values that [JSON.stringify] tells apart. *)
#[warnings="-register-all"]
Inductive Unknown :=
| UUndefined
| UNull
| UBoolean (b : bool)
| UNumber (n : number)
| UString (s : jsstring)
| UArray (items : list Unknown)
| UObject (fields : list (string * Unknown)).

(** [AnswerValue]: string, number, boolean, string array or record;
    and [null], which is what [JSON.parse] reads where a number that is
    not finite was saved. *)
Inductive AnswerValue :=
| VString (s : jsstring)
| VNumber (n : number)
| VBoolean (b : bool)
| VArray (items : list jsstring)
| VRecord (fields : list (string * Unknown))
| VNull.

Record ValidationError := {
  field : string;
  message : string;
  code : string;
}.

Inductive QuestionType :=
| ShortText | LongText | SingleChoice | MultipleChoice | Numeric.

Record ChoiceOption := {
  value : jsstring;
  labelKey : string;
  optDescriptionKey : option string;
}.

Record QuestionDefinition := {
  id : string;
  layer : Z;
  step : number;
  type : QuestionType;
  required : bool;
  titleKey : string;
  descriptionKey : option string;
  placeholderKey : option string;
  helpTextKey : option string;
  minLength : option Z;
  maxLength : option Z;
  pattern : option regex;
  options : option (list ChoiceOption);
  dependsOn : option (list string);
  showIf : option (gmap string AnswerValue -> bool);
}.

(** A [Date] object, or what [JSON.stringify] leaves of it: its ISO-8601
    string. The text of a date string is kept symbolic: [ISO ms] is the
    string that [new Date(ms).toISOString()] returns, [Unparsable] any
    string that [new Date] turns into an invalid date. *)
Inductive DateString :=
| ISO (ms : Z)
| Unparsable (text : jsstring).

Inductive DateValue :=
| DateObject (ms : Z)
| DateText (s : DateString).

(** [WizardState]; [ws_id] is its [id] and [stateErrors] its
    [validationErrors], which the hook keeps in a cell of its own. *)
Record WizardState := {
  ws_id : string;
  currentStep : number;
  currentLayer : Z;
  answers : gmap string AnswerValue;
  startedAt : DateValue;
  lastModified : DateValue;
  isComplete : bool;
  draftSaved : bool;
  stateErrors : gmap string (list string);
}.

(** Exceptions of the program. *)
Inductive Exn :=
| TypeError
| ConstitutionalViolationError (requirement : string)
| StorageError (code : string)
| DraftError (wizard : string) (operation : string)
| Error (msg : string).

Inductive Result (A : Type) :=
| Ok (a : A)
| Throw (e : Exn).
Arguments Ok {A} a.
Arguments Throw {A} e.

(** [object[key] = value] on an object that began as [{}]. A [gmap]
    holds the own properties of an object, which are what
    [Object.keys], [Object.entries] and a spread read. The assignment
    makes an own property of every key but [__proto__]: that key is
    the accessor of [Object.prototype], and assigning to it changes
    the prototype of the object, or nothing, and makes no own
    property. (A computed key in an object literal, as in
    [{ ...prev, [id]: value }], makes an own property of every key.) *)
Definition own_key (key : string) : bool := negb (String.eqb key "__proto__").

Definition assign {V : Type} (key : string) (v : V) (object : gmap string V)
    : gmap string V :=
  if own_key key then <[key := v]> object else object.

(* ===================================================================== *)
(** * Validation ([utils/validation.ts]) *)
(* ===================================================================== *)

Module ConstitutionalValidator.

(** [layerRanges[currentLayer]]; [undefined] for any other key. *)
Definition layerRanges (currentLayer : Z) : option (Z * Z) :=
  if currentLayer =? 1 then Some (1, 5)
  else if currentLayer =? 2 then Some (6, 10)
  else if currentLayer =? 3 then Some (11, 15)
  else None.

(** Destructuring [undefined] throws a [TypeError]. *)
Definition validateLayerProgression (currentStep : number) (currentLayer : Z)
    : Result bool :=
  match layerRanges currentLayer with
  | Some (min, max) =>
      Ok ((Int min <=? currentStep) && (currentStep <=? Int max))%num
  | None => Throw TypeError
  end.

Definition validateAutoSaveInterval (intervalMs : Z) : bool :=
  intervalMs =? 2000.

Definition validateOutputGenerationTime (startTime endTime : Z) : bool :=
  endTime - startTime <=? 5000.

End ConstitutionalValidator.

Module AnswerValidator.

Definition validateRequired (value : option AnswerValue) : bool :=
  match value with
  | None => false
  | Some (VString s) => (0 <? length (trim s))%nat
  | Some (VArray items) => (0 <? length items)%nat
  | Some (VNumber n) => negb (JsNumber.isNaN n)
  | Some (VBoolean _) => true
  | Some (VRecord fields) => (0 <? length fields)%nat
  | Some VNull => false
  end.

Definition validateLength (value : jsstring) (min max : option Z) : bool :=
  let len := Z.of_nat (length (trim value)) in
  let below_min := match min with Some m => len <? m | None => false end in
  let above_max := match max with Some M => M <? len | None => false end in
  if below_min then false
  else if above_max then false
  else true.

Definition validatePattern (value : jsstring) (pattern : regex) : bool :=
  Regex.test pattern value.

(** [!isNaN(parseFloat(value))]: after leading white space and an
    optional sign, a digit, a dot and a digit, or [Infinity]. *)
Definition parses_as_number (value : jsstring) : bool :=
  let s := trimStart value in
  let s := match s with
           | c :: s' => if (c =? 43) || (c =? 45) then s' else s
           | [] => s
           end in
  match s with
  | c :: rest =>
      is_digit c
      || ((c =? 46) && match rest with d :: _ => is_digit d | [] => false end)
      || startsWith (js "Infinity") s
  | [] => false
  end.

Definition validateNumeric (value : AnswerValue) : bool :=
  match value with
  | VNumber n => negb (JsNumber.isNaN n)
  | VString s => parses_as_number s
  | _ => false
  end.

Definition contains (options : list jsstring) (v : jsstring) : bool :=
  existsb (JsString.eqb v) options.

Definition validateChoice (value : AnswerValue) (options : list jsstring)
    : bool :=
  match value with
  | VString s => contains options s
  | VArray items => forallb (contains options) items
  | _ => false
  end.

End AnswerValidator.

(** [String(value)] *)
Definition String_of (value : AnswerValue) : jsstring :=
  match value with
  | VString s => s
  | VNumber n => JsNumber.toString n
  | VBoolean true => js "true"
  | VBoolean false => js "false"
  | VArray items => join (js ",") items
  | VRecord _ => js "[object Object]"
  | VNull => js "null"
  end.

(** Truthiness of an optional number: [undefined] and 0 are falsy. *)
Definition truthy_num (n : option Z) : bool :=
  match n with
  | Some z => negb (z =? 0)
  | None => false
  end.

Module QuestionValidator.

Import AnswerValidator.

Definition err (q : QuestionDefinition) (msg code : string) : ValidationError :=
  {| field := id q; message := msg; code := code |}.

Definition lengthErrors (q : QuestionDefinition) (stringValue : jsstring)
    : list ValidationError :=
  if truthy_num (minLength q) || truthy_num (maxLength q) then
    if negb (validateLength stringValue (minLength q) (maxLength q)) then
      [err q (if truthy_num (minLength q) then "validation.minLength"
              else "validation.maxLength") "LENGTH"]
    else []
  else [].

Definition patternErrors (q : QuestionDefinition) (value : AnswerValue)
    : list ValidationError :=
  match pattern q, value with
  | Some p, VString s =>
      if negb (validatePattern s p) then [err q "validation.pattern" "PATTERN"]
      else []
  | _, _ => []
  end.

Definition typeErrors (q : QuestionDefinition) (v : AnswerValue)
    : list ValidationError :=
  match type q with
  | Numeric =>
      if negb (validateNumeric v) then [err q "validation.numeric" "TYPE"]
      else []
  | SingleChoice | MultipleChoice =>
      match options q with
      | Some opts =>
          let optionValues := map value opts in
          if negb (validateChoice v optionValues)
          then [err q "validation.invalidChoice" "CHOICE"]
          else []
      | None => []
      end
  | _ => []
  end.

Definition dependencyErrors (q : QuestionDefinition)
    (allAnswers : option (gmap string AnswerValue)) : list ValidationError :=
  match dependsOn q, allAnswers with
  | Some deps, Some all =>
      let missingDependencies :=
        List.filter (fun depId => negb (validateRequired (all !! depId))) deps in
      if (0 <? length missingDependencies)%nat
      then [err q "validation.dependencyNotMet" "DEPENDENCY"]
      else []
  | _, _ => []
  end.

Definition hidden (q : QuestionDefinition)
    (allAnswers : option (gmap string AnswerValue)) : bool :=
  match showIf q, allAnswers with
  | Some visible, Some all => negb (visible all)
  | _, _ => false
  end.

Definition validateAnswer (q : QuestionDefinition) (v : option AnswerValue)
    (allAnswers : option (gmap string AnswerValue)) : list ValidationError :=
  let errors :=
    if required q && negb (validateRequired v)
    then [err q "validation.required" "REQUIRED"] else [] in
  (* Skip further validation if no value *)
  if negb (validateRequired v) then errors
  else
    match v with
    | None => errors
    | Some val =>
        let stringValue := String_of val in
        let errors := errors ++ lengthErrors q stringValue in
        let errors := errors ++ patternErrors q val in
        let errors := errors ++ typeErrors q val in
        let errors := errors ++ dependencyErrors q allAnswers in
        (* Conditional display validation *)
        if hidden q allAnswers then [] else errors
    end.

Definition validateAllAnswers (questions : list QuestionDefinition)
    (answers : gmap string AnswerValue) : gmap string (list ValidationError) :=
  fold_left
    (fun allErrors q =>
       let errors := validateAnswer q (answers !! id q) (Some answers) in
       if (0 <? length errors)%nat then assign (id q) errors allErrors
       else allErrors)
    questions ∅.

End QuestionValidator.

(* ===================================================================== *)
(** * Draft storage ([types/storage.ts], [utils/storage.ts]) *)
(* ===================================================================== *)

Record DraftMeta := {
  savedAt : DateString;
  expiresAt : DateString;
  checksum : option string;
  encrypted : bool;
  compressionUsed : bool;
}.

(** [DraftStorageSchema]: [data] is [z.any()], read back as a
    [WizardState] by the program ([draft.data as WizardState]). *)
Record DraftStorage := {
  version : string;
  wizardId : string;
  data : WizardState;
  metadata : DraftMeta;
}.

(** What the browser contributes: the text that [JSON.stringify] yields
    for a state and for a draft, and SHA-256 rendered as
    ['sha256-' + hex]. Nothing is assumed about them. *)
Class Platform := {
  JSON_text : WizardState -> jsstring;
  draft_text : DraftStorage -> jsstring;
  sha256 : jsstring -> string;
}.

(** A string held by [localStorage]: the JSON text of a draft that
    passes [DraftStorageSchema], represented by the draft that
    [JSON.parse] and the schema make of it, or any other string. *)
Inductive StoredText :=
| DraftJson (d : DraftStorage)
| Other (text : jsstring).

(** [localStorage], in the order of [localStorage.key(i)]. *)
Abbreviation Storage := (list (string * StoredText)).

Module LocalStorage.

Fixpoint getItem (key : string) (st : Storage) : option StoredText :=
  match st with
  | [] => None
  | (k, v) :: rest => if String.eqb k key then Some v else getItem key rest
  end.

Fixpoint setItem (key : string) (v : StoredText) (st : Storage) : Storage :=
  match st with
  | [] => [(key, v)]
  | (k, old) :: rest =>
      if String.eqb k key then (k, v) :: rest
      else (k, old) :: setItem key v rest
  end.

Definition removeItem (key : string) (st : Storage) : Storage :=
  List.filter (fun kv => negb (String.eqb (fst kv) key)) st.

Definition key (i : nat) (st : Storage) : option string :=
  option_map fst (nth_error st i).

End LocalStorage.

Module StorageConstants.
Definition DRAFT_PREFIX : string := "wizard-draft-".
Definition DRAFT_RETENTION_HOURS : Z := 24.
End StorageConstants.

(** [new Date(s).getTime()]; [None] is [NaN]. *)
Definition Date_parse (s : DateString) : option Z :=
  match s with
  | ISO ms => Some ms
  | Unparsable _ => None
  end.

(** [now > d] and [now <= d] on dates; both are false on an invalid
    date. *)
Definition date_gt (now : Z) (d : option Z) : bool :=
  match d with Some t => t <? now | None => false end.
Definition date_le (now : Z) (d : option Z) : bool :=
  match d with Some t => now <=? t | None => false end.

(** [toJSON]: what [JSON.stringify] writes for a state and
    [JSON.parse] reads back. A [Date] becomes its ISO string; a number
    that is not finite becomes [null]; in an array [undefined] becomes
    [null], and in an object a key whose value is [undefined] is left
    out. *)
Definition toJSON_date (d : DateValue) : DateValue :=
  match d with
  | DateObject ms => DateText (ISO ms)
  | DateText s => DateText s
  end.

(** [None]: the value is left out. *)
Fixpoint toJSON_unknown (v : Unknown) : option Unknown :=
  match v with
  | UUndefined => None
  | UNumber n => Some (if JsNumber.isFinite n then UNumber n else UNull)
  | UArray items =>
      Some (UArray
              ((fix elements (l : list Unknown) : list Unknown :=
                  match l with
                  | [] => []
                  | x :: rest =>
                      match toJSON_unknown x with
                      | Some x' => x'
                      | None => UNull
                      end :: elements rest
                  end) items))
  | UObject fields =>
      Some (UObject
              ((fix properties (l : list (string * Unknown))
                  : list (string * Unknown) :=
                  match l with
                  | [] => []
                  | (k, x) :: rest =>
                      match toJSON_unknown x with
                      | Some x' => (k, x') :: properties rest
                      | None => properties rest
                      end
                  end) fields))
  | other => Some other
  end.

Definition toJSON_fields (fields : list (string * Unknown))
    : list (string * Unknown) :=
  match toJSON_unknown (UObject fields) with
  | Some (UObject fields') => fields'
  | _ => []
  end.

Definition toJSON_answer (v : AnswerValue) : AnswerValue :=
  match v with
  | VNumber n => if JsNumber.isFinite n then VNumber n else VNull
  | VRecord fields => VRecord (toJSON_fields fields)
  | other => other
  end.

(** The step of a state read from a draft is read in [>=], [<=] and
    [||] only, where [null] counts as 0: the model holds 0 for the
    [null] that JSON writes for a step that is not finite. *)
Definition toJSON_step (step : number) : number :=
  if JsNumber.isFinite step then step else 0.

Definition toJSON (s : WizardState) : WizardState :=
  {| ws_id := ws_id s;
     currentStep := toJSON_step (currentStep s);
     currentLayer := currentLayer s;
     answers := toJSON_answer <$> answers s;
     startedAt := toJSON_date (startedAt s);
     lastModified := toJSON_date (lastModified s);
     isComplete := isComplete s;
     draftSaved := draftSaved s;
     stateErrors := stateErrors s |}.

(** [JSON.stringify(wizardState)] *)
Definition JSON_stringify `{Platform} (s : WizardState) : jsstring :=
  JSON_text (toJSON s).

Definition stored_chars `{Platform} (v : StoredText) : jsstring :=
  match v with
  | DraftJson d => draft_text d
  | Other text => text
  end.

(** [new Blob([text]).size]: the length of the UTF-8 encoding. *)
Fixpoint utf8_size (text : jsstring) : Z :=
  match text with
  | [] => 0
  | c :: rest =>
      if c <? 128 then 1 + utf8_size rest
      else if c <? 2048 then 2 + utf8_size rest
      else if (55296 <=? c) && (c <=? 56319) then
        match rest with
        | d :: rest' =>
            if (56320 <=? d) && (d <=? 57343) then 4 + utf8_size rest'
            else 3 + utf8_size rest
        | [] => 3
        end
      else 3 + utf8_size rest
  end.

(** [PIIDetector.detectPII(text).hasPII] *)
Definition hasPII_in (text : jsstring) : bool :=
  match PII.detectPII text with
  | Some d => PII.hasPII d
  | None => false
  end.

Module DataIntegrity.

Definition calculateChecksum `{Platform} (text : jsstring) : string :=
  sha256 text.

Definition verifyChecksum `{Platform} (text : jsstring)
    (expectedChecksum : string) : bool :=
  String.eqb (calculateChecksum text) expectedChecksum.

End DataIntegrity.

(** [DraftMetadata], an entry of [listDrafts]. *)
Module DraftMetadata.
Record t := {
  wizardId : string;
  savedAt : option Z;
  expiresAt : option Z;
  currentStep : number;
  answersCount : nat;
  containsPII : bool;
  size : Z;
  checksum : option string;
}.
End DraftMetadata.

(** A draft key and the id it carries:
    [key.startsWith(DRAFT_PREFIX)], [key.replace(DRAFT_PREFIX, '')]. *)
Definition is_draft_key (key : string) : bool :=
  String.prefix StorageConstants.DRAFT_PREFIX key.

Definition id_of_key (key : string) : string :=
  String.substring (String.length StorageConstants.DRAFT_PREFIX)
    (String.length key - String.length StorageConstants.DRAFT_PREFIX) key.

(** A stored string is truthy unless empty; the JSON text of a draft
    is never empty. *)
Definition truthy_text (v : StoredText) : bool :=
  match v with
  | DraftJson _ => true
  | Other text => (0 <? length text)%nat
  end.

(** [DraftStorageManager.cleanupExpiredDraftsSync]: the expired and the
    unreadable drafts are collected first, then removed. *)
Definition keysToRemove `{Platform} (now : Z) (st : Storage) : list string :=
  flat_map
    (fun kv =>
       if is_draft_key (fst kv) && truthy_text (snd kv) then
         match snd kv with
         | DraftJson draft =>
             if date_gt now (Date_parse (expiresAt (metadata draft)))
             then [fst kv] else []
         | Other _ => [fst kv]
         end
       else [])
    st.

Definition cleanupExpiredDraftsSync `{Platform} (now : Z) (st : Storage)
    : nat * Storage :=
  let keys := keysToRemove now st in
  (length keys, fold_left (fun st key => LocalStorage.removeItem key st) keys st).

Module StorageQuotaManager.

Definition total : Z := 5 * 1024 * 1024.

(** [getUsage().used]: the lengths of the non-empty keys and of their
    non-empty values. *)
Definition used `{Platform} (st : Storage) : Z :=
  fold_left
    (fun used kv =>
       if (0 <? String.length (fst kv))%nat && truthy_text (snd kv)
       then used + Z.of_nat (String.length (fst kv))
                 + Z.of_nat (length (stored_chars (snd kv)))
       else used)
    st 0.

Definition checkQuota `{Platform} (sizeInBytes : Z) (st : Storage) : bool :=
  used st + sizeInBytes <? total.

(** Only [success] is read by the caller. *)
Definition handleQuotaExceeded `{Platform} (now : Z) (st : Storage)
    : bool * Storage :=
  let (cleanedCount, st') := cleanupExpiredDraftsSync now st in
  if (0 <? cleanedCount)%nat then (true, st') else (false, st').

End StorageQuotaManager.

Definition draft_key (wizardId : string) : string :=
  StorageConstants.DRAFT_PREFIX +:+ wizardId.

Definition truthy_string (s : option string) : option string :=
  match s with
  | Some EmptyString => None
  | other => other
  end.

Module DraftStorageManager.

Import DataIntegrity.

Definition retention_ms : Z :=
  StorageConstants.DRAFT_RETENTION_HOURS * 60 * 60 * 1000.

(** The draft that [saveDraft] writes; [data] is as [JSON.parse] will
    read it. *)
Definition draft_of `{Platform} (now : Z) (wizardId : string)
    (wizardState : WizardState) : DraftStorage :=
  let expiresAt := now + retention_ms in
  let stateString := JSON_stringify wizardState in
  let encrypted := hasPII_in stateString in
  let checksum := calculateChecksum stateString in
  {| version := "1.0";
     wizardId := wizardId;
     data := toJSON wizardState;
     metadata := {| savedAt := ISO now;
                    expiresAt := ISO expiresAt;
                    checksum := Some checksum;
                    encrypted := encrypted;
                    compressionUsed := false |} |}.

Definition saveDraft `{Platform} (now : Z) (wizardId : string)
    (wizardState : WizardState) (st : Storage) : Result bool * Storage :=
  let dataToStore := DraftJson (draft_of now wizardId wizardState) in
  let sizeInBytes := utf8_size (stored_chars dataToStore) in
  let key := draft_key wizardId in
  if negb (StorageQuotaManager.checkQuota sizeInBytes st) then
    let (success, st') := StorageQuotaManager.handleQuotaExceeded now st in
    if negb success then (Throw (StorageError "QUOTA_EXCEEDED"), st')
    else (Ok true, LocalStorage.setItem key dataToStore st')
  else (Ok true, LocalStorage.setItem key dataToStore st).

Definition loadDraft `{Platform} (now : Z) (wizardId : string) (st : Storage)
    : Result (option WizardState) * Storage :=
  let key := draft_key wizardId in
  match LocalStorage.getItem key st with
  | None => (Ok None, st)
  | Some stored =>
      if negb (truthy_text stored) then (Ok None, st)
      else
        match stored with
        | Other _ => (Throw (DraftError wizardId "load"), st)
        | DraftJson draft =>
            (* Check expiration *)
            if date_gt now (Date_parse (expiresAt (metadata draft))) then
              (Ok None, LocalStorage.removeItem key st)
            else
              (* Verify checksum *)
              let dataString := JSON_stringify (data draft) in
              match truthy_string (checksum (metadata draft)) with
              | Some expected =>
                  if negb (verifyChecksum dataString expected)
                  then (Throw (StorageError "CORRUPTION_DETECTED"), st)
                  else (Ok (Some (data draft)), st)
              | None => (Ok (Some (data draft)), st)
              end
        end
  end.

Definition metadata_of `{Platform} (key : string) (stored : StoredText)
    (draft : DraftStorage) : DraftMetadata.t :=
  {| DraftMetadata.wizardId := id_of_key key;
     DraftMetadata.savedAt := Date_parse (savedAt (metadata draft));
     DraftMetadata.expiresAt := Date_parse (expiresAt (metadata draft));
     DraftMetadata.currentStep :=
       (if JsNumber.truthy (currentStep (data draft))
        then currentStep (data draft) else 1);
     DraftMetadata.answersCount := size (answers (data draft));
     DraftMetadata.containsPII := hasPII_in (JSON_stringify (data draft));
     DraftMetadata.size := utf8_size (stored_chars stored);
     DraftMetadata.checksum := checksum (metadata draft) |}.

(** [for (let i = 0; i < localStorage.length; i++)], the storage being
    changed by the body. The loop runs at most as many times as the
    storage has entries when it starts, which is the [fuel]. *)
Fixpoint listDrafts_loop `{Platform} (now : Z) (fuel i : nat) (st : Storage)
    (drafts : list DraftMetadata.t) : list DraftMetadata.t * Storage :=
  match fuel with
  | O => (drafts, st)
  | S fuel' =>
      if (i <? length st)%nat then
        match LocalStorage.key i st with
        | Some key =>
            if is_draft_key key then
              match LocalStorage.getItem key st with
              | Some stored =>
                  if truthy_text stored then
                    match stored with
                    | DraftJson draft =>
                        if date_le now (Date_parse (expiresAt (metadata draft)))
                        then listDrafts_loop now fuel' (S i) st
                               (drafts ++ [metadata_of key stored draft])
                        else (* Remove expired draft *)
                          listDrafts_loop now fuel' (S i)
                            (LocalStorage.removeItem key st) drafts
                    | Other _ =>
                        listDrafts_loop now fuel' (S i)
                          (LocalStorage.removeItem key st) drafts
                    end
                  else listDrafts_loop now fuel' (S i) st drafts
              | None => listDrafts_loop now fuel' (S i) st drafts
              end
            else listDrafts_loop now fuel' (S i) st drafts
        | None => listDrafts_loop now fuel' (S i) st drafts
        end
      else (drafts, st)
  end.

(** [b.savedAt.getTime() - a.savedAt.getTime() <= 0]; a [NaN]
    difference counts as 0. *)
Definition not_after (a b : DraftMetadata.t) : bool :=
  match DraftMetadata.savedAt a, DraftMetadata.savedAt b with
  | Some ta, Some tb => tb <=? ta
  | _, _ => true
  end.

Fixpoint insert_by_savedAt (a : DraftMetadata.t) (l : list DraftMetadata.t)
    : list DraftMetadata.t :=
  match l with
  | [] => [a]
  | b :: rest => if not_after a b then a :: l else b :: insert_by_savedAt a rest
  end.

(** [drafts.sort((a, b) => b.savedAt.getTime() - a.savedAt.getTime())],
    a stable sort. *)
Definition sort_by_savedAt (l : list DraftMetadata.t) : list DraftMetadata.t :=
  fold_right insert_by_savedAt [] l.

Definition listDrafts `{Platform} (now : Z) (st : Storage)
    : list DraftMetadata.t * Storage :=
  let (drafts, st') := listDrafts_loop now (length st) O st [] in
  (sort_by_savedAt drafts, st').

Definition hasDraft `{Platform} (now : Z) (wizardId : string) (st : Storage)
    : Result bool * Storage :=
  match loadDraft now wizardId st with
  | (Ok draft, st') => (Ok (match draft with Some _ => true | None => false end), st')
  | (Throw e, st') => (Throw e, st')
  end.

Definition deleteDraft (wizardId : string) (st : Storage) : bool * Storage :=
  (true, LocalStorage.removeItem (draft_key wizardId) st).

End DraftStorageManager.

(* ===================================================================== *)
(** * The wizard state machine ([hooks/useWizardState.ts]) *)
(* ===================================================================== *)

Record UseWizardStateOptions := {
  autoSave : bool;
  autoSaveInterval : Z;
  enableDrafts : bool;
  questions : list QuestionDefinition;
}.

(** The defaults of the hook's parameters. *)
Definition default_options (questions : list QuestionDefinition)
    : UseWizardStateOptions :=
  {| autoSave := true; autoSaveInterval := 2000; enableDrafts := true;
     questions := questions |}.

(** The [useState] cells of the hook. *)
Record Hook := {
  wizardState : WizardState;
  validationErrors : gmap string (list ValidationError);
  isLoading : bool;
  isDraftSaving : bool;
  lastSavedAt : option DateValue;
  hasDraft : bool;
}.

Module useWizardState.

Definition set_wizardState (h : Hook) (s : WizardState) : Hook :=
  {| wizardState := s;
     validationErrors := validationErrors h;
     isLoading := isLoading h;
     isDraftSaving := isDraftSaving h;
     lastSavedAt := lastSavedAt h;
     hasDraft := hasDraft h |}.

Definition set_validationErrors (h : Hook)
    (e : gmap string (list ValidationError)) : Hook :=
  {| wizardState := wizardState h;
     validationErrors := e;
     isLoading := isLoading h;
     isDraftSaving := isDraftSaving h;
     lastSavedAt := lastSavedAt h;
     hasDraft := hasDraft h |}.

Definition set_hasDraft (h : Hook) (b : bool) : Hook :=
  {| wizardState := wizardState h;
     validationErrors := validationErrors h;
     isLoading := isLoading h;
     isDraftSaving := isDraftSaving h;
     lastSavedAt := lastSavedAt h;
     hasDraft := b |}.

Definition set_isLoading (h : Hook) (b : bool) : Hook :=
  {| wizardState := wizardState h;
     validationErrors := validationErrors h;
     isLoading := b;
     isDraftSaving := isDraftSaving h;
     lastSavedAt := lastSavedAt h;
     hasDraft := hasDraft h |}.

Definition set_isDraftSaving (h : Hook) (b : bool) : Hook :=
  {| wizardState := wizardState h;
     validationErrors := validationErrors h;
     isLoading := isLoading h;
     isDraftSaving := b;
     lastSavedAt := lastSavedAt h;
     hasDraft := hasDraft h |}.

(** [setLastSavedAt(new Date()); setWizardState(prev => ({ ...prev,
    draftSaved: true }))] *)
Definition mark_saved (now : Z) (h : Hook) : Hook :=
  let s := wizardState h in
  {| wizardState :=
       {| ws_id := ws_id s; currentStep := currentStep s;
          currentLayer := currentLayer s; answers := answers s;
          startedAt := startedAt s; lastModified := lastModified s;
          isComplete := isComplete s; draftSaved := true;
          stateErrors := stateErrors s |};
     validationErrors := validationErrors h;
     isLoading := isLoading h;
     isDraftSaving := false;
     lastSavedAt := Some (DateObject now);
     hasDraft := hasDraft h |}.

Definition fresh_state (newId : string) (now : Z) : WizardState :=
  {| ws_id := newId;
     currentStep := 1;
     currentLayer := 1;
     answers := ∅;
     startedAt := DateObject now;
     lastModified := DateObject now;
     isComplete := false;
     draftSaved := false;
     stateErrors := ∅ |}.

(** The state of the first render; [newId] is what
    [UUIDGenerator.generate()] returns. *)
Definition init (newId : string) (now : Z) : Hook :=
  {| wizardState := fresh_state newId now;
     validationErrors := ∅;
     isLoading := false;
     isDraftSaving := false;
     lastSavedAt := None;
     hasDraft := false |}.

Definition validateConstitutionalCompliance (o : UseWizardStateOptions)
    (state : WizardState) : Result unit :=
  match ConstitutionalValidator.validateLayerProgression
          (currentStep state) (currentLayer state) with
  | Throw e => Throw e
  | Ok false => Throw (ConstitutionalViolationError "layerProgression")
  | Ok true =>
      if autoSave o
         && negb (ConstitutionalValidator.validateAutoSaveInterval
                    (autoSaveInterval o))
      then Throw (ConstitutionalViolationError "autoSaveInterval")
      else Ok tt
  end.

(** Layer calculation based on step *)
Definition getLayerFromStep (step : number) : Z :=
  if (step <=? 5)%num then 1
  else if (step <=? 10)%num then 2
  else 3.

(** [{ ...prev, currentStep, currentLayer, lastModified: new Date(),
    draftSaved: false }] *)
Definition moved (prev : WizardState) (newStep : number) (newLayer now : Z)
    : WizardState :=
  {| ws_id := ws_id prev;
     currentStep := newStep;
     currentLayer := newLayer;
     answers := answers prev;
     startedAt := startedAt prev;
     lastModified := DateObject now;
     isComplete := isComplete prev;
     draftSaved := false;
     stateErrors := stateErrors prev |}.

Definition setAnswer (o : UseWizardStateOptions) (now : Z)
    (questionId : string) (v : AnswerValue) (h : Hook) : Result Hook :=
  let prev := wizardState h in
  let newState :=
    {| ws_id := ws_id prev;
       currentStep := currentStep prev;
       currentLayer := currentLayer prev;
       answers := <[questionId := v]> (answers prev);
       startedAt := startedAt prev;
       lastModified := DateObject now;
       isComplete := isComplete prev;
       draftSaved := false;
       stateErrors := stateErrors prev |} in
  match validateConstitutionalCompliance o newState with
  | Throw e => Throw e
  | Ok _ =>
      let h' := set_wizardState h newState in
      (* Validate the specific answer, against the answers of the
         render in which the callback was made *)
      match List.find (fun q => String.eqb (id q) questionId) (questions o) with
      | Some question =>
          let errors :=
            QuestionValidator.validateAnswer question (Some v)
              (Some (answers prev)) in
          Ok (set_validationErrors h'
                (<[questionId := errors]> (validationErrors h)))
      | None => Ok h'
      end
  end.

Definition currentQuestion (o : UseWizardStateOptions) (s : WizardState)
    : option QuestionDefinition :=
  List.find (fun q => (step q =? currentStep s)%num) (questions o).

Definition nextStep (o : UseWizardStateOptions) (now : Z) (h : Hook)
    : Result (bool * Hook) :=
  let s := wizardState h in
  match currentQuestion o s with
  | None => Ok (false, h)
  | Some q =>
      (* Validate current step *)
      let errors :=
        QuestionValidator.validateAnswer q (answers s !! id q)
          (Some (answers s)) in
      if (0 <? length errors)%nat then
        Ok (false, set_validationErrors h
                     (<[id q := errors]> (validationErrors h)))
      else if (15 <=? currentStep s)%num then Ok (false, h)
      else
        let newStep := (currentStep s + 1)%num in
        let newLayer := getLayerFromStep newStep in
        let newState := moved s newStep newLayer now in
        match validateConstitutionalCompliance o newState with
        | Throw e => Throw e
        | Ok _ => Ok (true, set_wizardState h newState)
        end
  end.

Definition previousStep (now : Z) (h : Hook) : bool * Hook :=
  let s := wizardState h in
  if (currentStep s <=? 1)%num then (false, h)
  else
    let newStep := (currentStep s - 1)%num in
    let newLayer := getLayerFromStep newStep in
    (true, set_wizardState h (moved s newStep newLayer now)).

Definition goToStep (o : UseWizardStateOptions) (now : Z) (step : number)
    (h : Hook) : Result (bool * Hook) :=
  if (step <? 1)%num || (15 <? step)%num then Ok (false, h)
  else
    let newLayer := getLayerFromStep step in
    let newState := moved (wizardState h) step newLayer now in
    match validateConstitutionalCompliance o newState with
    | Throw e => Throw e
    | Ok _ => Ok (true, set_wizardState h newState)
    end.

(** Manual save; an exception of the storage manager is caught. *)
Definition saveDraft `{Platform} (o : UseWizardStateOptions) (now : Z)
    (h : Hook) (st : Storage) : bool * Hook * Storage :=
  if negb (enableDrafts o) then (false, h, st)
  else
    match DraftStorageManager.saveDraft now (ws_id (wizardState h))
            (wizardState h) st with
    | (Ok true, st') => (true, mark_saved now h, st')
    | (_, st') => (false, set_isDraftSaving h false, st')
    end.

(** The debounced auto-save, when its timer fires. *)
Definition autoSaveFire `{Platform} (o : UseWizardStateOptions) (now : Z)
    (h : Hook) (st : Storage) : Hook * Storage :=
  if negb (enableDrafts o) || negb (autoSave o) then (h, st)
  else
    match DraftStorageManager.saveDraft now (ws_id (wizardState h))
            (wizardState h) st with
    | (Ok true, st') => (mark_saved now h, st')
    | (_, st') => (set_isDraftSaving h false, st')
    end.

Definition loadDraft `{Platform} (o : UseWizardStateOptions) (now : Z)
    (wizardId : string) (h : Hook) (st : Storage) : bool * Hook * Storage :=
  if negb (enableDrafts o) then (false, h, st)
  else
    match DraftStorageManager.loadDraft now wizardId st with
    | (Ok (Some draftState), st') =>
        (* Validate constitutional compliance of loaded state *)
        match validateConstitutionalCompliance o draftState with
        | Throw _ => (false, set_isLoading h false, st')
        | Ok _ =>
            (true,
             {| wizardState := draftState;
                validationErrors := validationErrors h;
                isLoading := false;
                isDraftSaving := isDraftSaving h;
                lastSavedAt := Some (lastModified draftState);
                hasDraft := true |},
             st')
        end
    | (_, st') => (false, set_isLoading h false, st')
    end.

(** Reset wizard to initial state *)
Definition reset (newId : string) (now : Z) (h : Hook) : Hook :=
  {| wizardState := fresh_state newId now;
     validationErrors := ∅;
     isLoading := isLoading h;
     isDraftSaving := isDraftSaving h;
     lastSavedAt := None;
     hasDraft := false |}.

Definition complete (o : UseWizardStateOptions) (now : Z) (h : Hook)
    : bool * Hook :=
  let s := wizardState h in
  let allErrors := QuestionValidator.validateAllAnswers (questions o) (answers s) in
  if (0 <? size allErrors)%nat then (false, set_validationErrors h allErrors)
  else
    (true,
     set_wizardState h
       {| ws_id := ws_id s; currentStep := currentStep s;
          currentLayer := currentLayer s; answers := answers s;
          startedAt := startedAt s; lastModified := DateObject now;
          isComplete := true; draftSaved := draftSaved s;
          stateErrors := stateErrors s |}).


Definition validateAllSteps (o : UseWizardStateOptions) (h : Hook)
    : gmap string (list ValidationError) :=
  QuestionValidator.validateAllAnswers (questions o) (answers (wizardState h)).

(** The effect that looks for a draft of the current id. *)
Definition checkForDraft `{Platform} (o : UseWizardStateOptions) (now : Z)
    (h : Hook) (st : Storage) : Hook * Storage :=
  if negb (enableDrafts o) then (h, st)
  else
    match DraftStorageManager.hasDraft now (ws_id (wizardState h)) st with
    | (Ok b, st') => (set_hasDraft h b, st')
    | (Throw _, st') => (h, st')
    end.

End useWizardState.

(* ===================================================================== *)
(** * Output generation ([hooks/useOutputGeneration.ts]) *)
(* ===================================================================== *)

Record Summary := {
  text : jsstring;
  keyTerms : list jsstring;
  confidence : number;
}.

Record StructuredData := {
  purpose_primary : jsstring;
  purpose_secondary : option (list jsstring);
  stakeholders_primary : list jsstring;
  stakeholders_secondary : option (list jsstring);
  requirements_functional : list jsstring;
  requirements_nonFunctional : list jsstring;
  constraints : list jsstring;
  success_criteria : list jsstring;
}.

Record MarkdownSpec := {
  content : jsstring;
  wordCount : nat;
  sections : list jsstring;
}.

Record OutputSpecification := {
  summary : Summary;
  structuredData : StructuredData;
  markdownSpec : MarkdownSpec;
}.

Record OutputGenerationOptions := {
  maxGenerationTime : Z;
  enableSummaryOptimization : bool;
  enableStructuredDataValidation : bool;
  enableMarkdownFormatting : bool;
}.

Definition default_generation_options : OutputGenerationOptions :=
  {| maxGenerationTime := 5000;
     enableSummaryOptimization := true;
     enableStructuredDataValidation := true;
     enableMarkdownFormatting := true |}.

(** The clock readings of one run: [new Date()] at the start and at the
    end in milliseconds, the duration that [PerformanceMonitor] measured
    and the text of [new Date().toLocaleString('ja-JP')]. *)
Record GenerationClock := {
  startTime : Z;
  endTime : Z;
  totalGenerationTime : Z;
  generatedAt : jsstring;
}.

(** What [generateOutput] returns and the [error] it sets. *)
Record Generation := {
  output : option OutputSpecification;
  error : option jsstring;
}.

Module useOutputGeneration.

(** Truthiness of [answers[key]]. *)
Definition truthy (v : option AnswerValue) : bool :=
  match v with
  | None => false
  | Some (VString s) => (0 <? length s)%nat
  | Some (VNumber n) => JsNumber.truthy n
  | Some (VBoolean b) => b
  | Some (VArray _) => true
  | Some (VRecord _) => true
  | Some VNull => false
  end.

(** [String(v)] for a truthy [v], as in a template literal. *)
Definition String_opt (v : option AnswerValue) : jsstring :=
  match v with
  | Some a => String_of a
  | None => js "undefined"
  end.

Definition nonempty (s : jsstring) : bool := (0 <? length s)%nat.

Definition commonTerms : list jsstring :=
  map js ["自動化"; "効率化"; "改善"; "システム"; "データ"; "管理";
          "処理"; "分析"; "レポート"; "ダッシュボード"; "連携"]%string.

(** [Math.min(answered / total, 1.0)] *)
Definition completeness (answered total : nat) : number :=
  JsNumber.Math_min (Int (Z.of_nat answered) / Int (Z.of_nat total))%num 1.

(** Generate summary for /specify command (50-500 characters) *)
Definition generateSummary (wizardState : WizardState)
    (questions : list QuestionDefinition) : Summary :=
  let answers := answers wizardState in
  (* Extract key information *)
  let purpose := answers !! "layer1_purpose"%string in
  let kpi := answers !! "layer1_kpi"%string in
  let actors := answers !! "layer2_actors"%string in
  let ui := answers !! "layer3_ui"%string in
  (* Generate concise summary *)
  let summaryText : jsstring := [] in
  let summaryText :=
    if truthy purpose then summaryText ++ slice0 100 (String_opt purpose)
    else summaryText in
  let summaryText :=
    if truthy kpi then
      let kpiText := String_opt kpi in
      summaryText ++
        (if nonempty summaryText then js " (" ++ slice0 50 kpiText ++ js ")"
         else slice0 100 kpiText)
    else summaryText in
  (* Ensure length constraints (50-500 characters) *)
  let summaryText :=
    if (length summaryText <? 50)%nat
    then summaryText ++ js "を目的とした業務改善システム"
    else summaryText in
  let summaryText :=
    if (500 <? length summaryText)%nat
    then slice0 497 summaryText ++ js "..."
    else summaryText in
  (* Extract key terms *)
  let allText :=
    join (js " ")
      (map String_opt (List.filter truthy [purpose; kpi; actors; ui])) in
  let keyTerms :=
    fold_left
      (fun keyTerms term =>
         if includes term allText
            && negb (existsb (JsString.eqb term) keyTerms)
         then keyTerms ++ [term] else keyTerms)
      commonTerms [] in
  {| text := summaryText;
     keyTerms := keyTerms;
     confidence := completeness (size answers) (length questions) |}.

(** [s.split(/[、,]/)] *)
Fixpoint split_on (is_sep : Z -> bool) (s : jsstring) (cur : jsstring)
    : list jsstring :=
  match s with
  | [] => [rev cur]
  | c :: rest =>
      if is_sep c then rev cur :: split_on is_sep rest []
      else split_on is_sep rest (c :: cur)
  end.

Definition is_list_separator (c : Z) : bool := (c =? 12289) || (c =? 44).

Definition split_list (v : option AnswerValue) : list jsstring :=
  map trim (split_on is_list_separator (String_opt v) []).

(** [a ? `label${a}` : ''] *)
Definition labelled (label : string) (v : option AnswerValue) : jsstring :=
  if truthy v then js label ++ String_opt v else [].

Definition generateStructuredData (wizardState : WizardState)
    (questions : list QuestionDefinition) : StructuredData :=
  let answers := answers wizardState in
  let get (k : string) := answers !! k in
  {| purpose_primary :=
       (if truthy (get "layer1_purpose") then String_opt (get "layer1_purpose")
        else []);
     purpose_secondary :=
       (if truthy (get "layer1_constraints")
        then Some [String_opt (get "layer1_constraints")] else None);
     stakeholders_primary :=
       (if truthy (get "layer2_actors") then split_list (get "layer2_actors")
        else []);
     stakeholders_secondary :=
       (if truthy (get "layer2_input_data")
        then Some (split_list (get "layer2_input_data")) else None);
     requirements_functional :=
       List.filter nonempty
         [labelled "出力: " (get "layer2_output_data");
          labelled "UI: " (get "layer3_ui");
          labelled "自動化: " (get "layer3_automation")];
     requirements_nonFunctional :=
       List.filter nonempty
         [labelled "性能要件: " (get "layer1_kpi");
          labelled "権限管理: " (get "layer3_permissions")];
     constraints :=
       (if truthy (get "layer1_constraints")
        then [String_opt (get "layer1_constraints")] else []);
     success_criteria :=
       (if truthy (get "layer1_success_criteria")
        then [String_opt (get "layer1_success_criteria")] else []) |}.

Definition bullet (s : jsstring) : jsstring := js "- " ++ s.

Definition newline : jsstring := [10].

(** [content.replace(/[#*\-\n]/g, '')] *)
Definition strip_markup (s : jsstring) : jsstring :=
  List.filter
    (fun c => negb ((c =? 35) || (c =? 42) || (c =? 45) || (c =? 10))) s.

Definition generateMarkdownSpec (generatedAt : jsstring) (summary : Summary)
    (structuredData : StructuredData) : MarkdownSpec :=
  let sections :=
    [js "# システム仕様書";
     [];
     js "## 概要";
     text summary;
     [];
     js "## 目的・目標";
     js "**主要目的:** " ++ purpose_primary structuredData;
     [];
     match purpose_secondary structuredData with
     | Some l => join newline (map (fun s => js "**制約条件:** " ++ s) l)
     | None => []
     end;
     [];
     js "## 関係者";
     js "**主要関係者:** " ++ join (js "、") (stakeholders_primary structuredData);
     [];
     match stakeholders_secondary structuredData with
     | Some (x :: l) => js "**関連データ:** " ++ join (js "、") (x :: l)
     | _ => []
     end;
     [];
     js "## 機能要件"]
    ++ map bullet (requirements_functional structuredData)
    ++ [[]; js "## 非機能要件"]
    ++ map bullet (requirements_nonFunctional structuredData)
    ++ [[];
        match constraints structuredData with
        | _ :: _ => js "## 制約条件"
        | [] => []
        end]
    ++ map bullet (constraints structuredData)
    ++ [[];
        match success_criteria structuredData with
        | _ :: _ => js "## 成功基準"
        | [] => []
        end]
    ++ map bullet (success_criteria structuredData)
    ++ [[];
        js "---";
        js "*生成日時: " ++ generatedAt ++ js "*";
        js "*キーワード: " ++ join (js "、") (keyTerms summary) ++ js "*"] in
  let content := join newline (List.filter nonempty sections) in
  let wordCount := length (trim (strip_markup content)) in
  let sectionNames :=
    map js ["概要"; "目的・目標"; "関係者"; "機能要件"; "非機能要件"]%string in
  let sectionNames :=
    match constraints structuredData with
    | _ :: _ => sectionNames ++ [js "制約条件"]
    | [] => sectionNames
    end in
  let sectionNames :=
    match success_criteria structuredData with
    | _ :: _ => sectionNames ++ [js "成功基準"]
    | [] => sectionNames
    end in
  {| content := content; wordCount := wordCount; sections := sectionNames |}.

(** Validate output structure *)
Definition validateOutputStructure (output : OutputSpecification) : bool :=
  let t := text (summary output) in
  if negb (nonempty t) || (length t <? 50)%nat || (500 <? length t)%nat
  then false
  else if negb (nonempty (purpose_primary (structuredData output))) then false
  else if negb (nonempty (content (markdownSpec output)))
          || (wordCount (markdownSpec output) <? 100)%nat
  then false
  else true.

Definition failed (msg : jsstring) : Generation :=
  {| output := None; error := Some msg |}.

(** [generateOutput]: every exception is caught, recorded in [error]
    and turned into [null]. *)
Definition generateOutput (o : OutputGenerationOptions) (clock : GenerationClock)
    (wizardState : WizardState) (questions : list QuestionDefinition)
    : Generation :=
  (* Validate wizard completion *)
  if negb (isComplete wizardState) then
    failed (js "Wizard must be completed before generating output")
  else if (size (answers wizardState) <? 12)%nat then
    failed (js "Insufficient answers provided (minimum 12 required)")
  else
    let summary := generateSummary wizardState questions in
    let structuredData := generateStructuredData wizardState questions in
    let markdownSpec :=
      generateMarkdownSpec (generatedAt clock) summary structuredData in
    let out :=
      {| summary := summary; structuredData := structuredData;
         markdownSpec := markdownSpec |} in
    (* Validate output *)
    if enableStructuredDataValidation o && negb (validateOutputStructure out)
    then failed (js "Generated output failed validation")
    else if negb (ConstitutionalValidator.validateOutputGenerationTime
                    (startTime clock) (endTime clock))
    then failed (js "Output generation exceeded 5 seconds: "
                 ++ of_Z (totalGenerationTime clock) ++ js "ms")
    else {| output := Some out; error := None |}.

End useOutputGeneration.

(** The fields of an answer map that hold a value, in the sense of
    [AnswerValidator.validateRequired]: not [null], not a blank text,
    not an empty list or record, not [NaN]. *)
Definition populated_fields (answers : gmap string AnswerValue) : nat :=
  size (filter (fun kv => AnswerValidator.validateRequired (Some (snd kv)) = true)
          answers).

(* ===================================================================== *)
(** * Runs of the wizard *)
(* ===================================================================== *)

(** The hook's cells together with [localStorage]. *)
Abbreviation World := (Hook * Storage)%type.

(** What can happen to a world: a call of one of the hook's actions, a
    firing of its effects, or another tab of the same origin rewriting
    the storage. Every action carries the time at which it runs. *)
Inductive Action :=
| SetAnswer (now : Z) (questionId : string) (v : AnswerValue)
| NextStep (now : Z)
| PreviousStep (now : Z)
| GoToStep (now : Z) (step : number)
| SaveDraft (now : Z)
| LoadDraft (now : Z) (wizardId : string)
| Reset (newId : string) (now : Z)
| Complete (now : Z)
| AutoSaveFire (now : Z)
| CheckForDraft (now : Z)
| OtherTab (st : Storage).

(** One action on a world. An action that throws yields no new world:
    the updates of that call are lost. *)
Definition perform `{Platform} (o : UseWizardStateOptions) (a : Action)
    (w : World) : Result World :=
  let (h, st) := w in
  match a with
  | SetAnswer now questionId v =>
      match useWizardState.setAnswer o now questionId v h with
      | Ok h' => Ok (h', st)
      | Throw e => Throw e
      end
  | NextStep now =>
      match useWizardState.nextStep o now h with
      | Ok (_, h') => Ok (h', st)
      | Throw e => Throw e
      end
  | PreviousStep now => Ok (snd (useWizardState.previousStep now h), st)
  | GoToStep now step =>
      match useWizardState.goToStep o now step h with
      | Ok (_, h') => Ok (h', st)
      | Throw e => Throw e
      end
  | SaveDraft now =>
      let '(_, h', st') := useWizardState.saveDraft o now h st in Ok (h', st')
  | LoadDraft now wizardId =>
      let '(_, h', st') := useWizardState.loadDraft o now wizardId h st in
      Ok (h', st')
  | Reset newId now => Ok (useWizardState.reset newId now h, st)
  | Complete now => Ok (snd (useWizardState.complete o now h), st)
  | AutoSaveFire now => Ok (useWizardState.autoSaveFire o now h st)
  | CheckForDraft now => Ok (useWizardState.checkForDraft o now h st)
  | OtherTab st' => Ok (h, st')
  end.

(** The worlds a wizard can be in: it starts from the first render over
    any storage, and moves by actions. *)
Inductive reachable `{Platform} (o : UseWizardStateOptions) : World -> Prop :=
| reachable_init newId now st :
    reachable o (useWizardState.init newId now, st)
| reachable_step w a w' :
    reachable o w -> perform o a w = Ok w' -> reachable o w'.

(** The step is one of 1 to 15 and the layer is the one derived from
    it. *)
Definition consistent (s : WizardState) : Prop :=
  (exists n : Z, currentStep s = n /\ 1 <= n <= 15)
  /\ currentLayer s = useWizardState.getLayerFromStep (currentStep s).

(** The step lies in the range of the layer, be it an integer or not. *)
Definition in_layer_range (s : WizardState) : Prop :=
  (currentLayer s = 1 /\ (1 <= currentStep s <= 5)%num)
  \/ (currentLayer s = 2 /\ (6 <= currentStep s <= 10)%num)
  \/ (currentLayer s = 3 /\ (11 <= currentStep s <= 15)%num).

(** The layer is the one derived from the step, which lies between 0
    and 15. *)
Definition layer_derived (s : WizardState) : Prop :=
  currentLayer s = useWizardState.getLayerFromStep (currentStep s)
  /\ (0 <= currentStep s <= 15)%num.

(** The options pass the auto-save check of
    [validateConstitutionalCompliance]. *)
Definition compliant (o : UseWizardStateOptions) : Prop :=
  autoSave o = false \/ autoSaveInterval o = 2000.

(** An entry of the list is a draft that has not expired. *)
Definition unexpired (now : Z) (m : DraftMetadata.t) : Prop :=
  date_le now (DraftMetadata.expiresAt m) = true.

(** Deep equality of two states up to the form of their timestamps: a
    [Date] equals the ISO-8601 string of its instant. *)
Inductive same_instant : DateValue -> DateValue -> Prop :=
| same_date d : same_instant d d
| date_as_text ms : same_instant (DateObject ms) (DateText (ISO ms)).

Definition equal_modulo_timestamps (a b : WizardState) : Prop :=
  ws_id a = ws_id b
  /\ currentStep a = currentStep b
  /\ currentLayer a = currentLayer b
  /\ answers a = answers b
  /\ same_instant (startedAt a) (startedAt b)
  /\ same_instant (lastModified a) (lastModified b)
  /\ isComplete a = isComplete b
  /\ draftSaved a = draftSaved b
  /\ stateErrors a = stateErrors b.




(* ===================================================================== *)
(** * Sample data *)
(* ===================================================================== *)

Module Sample.

(** A stand-in for the browser in closed examples: a short text for
    every value and a digest that only depends on the length. *)
Definition toy_platform : Platform :=
  {| JSON_text := fun s => 123 :: js (ws_id s) ++ [125];
     draft_text := fun d => 123 :: js (wizardId d) ++ [58; 125];
     sha256 := fun t => if (length t <? 8)%nat then "sha256-00" else "sha256-01" |}.

(** A free-text question without bounds. *)
Definition text_question (id : string) (layer : Z) (step : number)
    (required : bool) : QuestionDefinition :=
  {| id := id; layer := layer; step := step; type := ShortText;
     required := required; titleKey := id;
     descriptionKey := None; placeholderKey := None; helpTextKey := None;
     minLength := None; maxLength := None; pattern := None;
     options := None; dependsOn := None; showIf := None |}.

(** Fifteen required questions under the ids that the output generator
    reads and the translation bundles name. *)
Definition catalog : list QuestionDefinition :=
  [text_question "layer1_purpose" 1 1 true;
   text_question "layer1_kpi" 1 2 true;
   text_question "layer1_constraints" 1 3 true;
   text_question "layer1_success_criteria" 1 4 true;
   text_question "layer1_target" 1 5 true;
   text_question "layer2_actors" 2 6 true;
   text_question "layer2_input_data" 2 7 true;
   text_question "layer2_output_data" 2 8 true;
   text_question "layer2_triggers" 2 9 true;
   text_question "layer2_as_is" 2 10 true;
   text_question "layer3_ui" 3 11 true;
   text_question "layer3_automation" 3 12 true;
   text_question "layer3_google_integration" 3 13 true;
   text_question "layer3_permissions" 3 14 true;
   text_question "layer3_exceptions" 3 15 true].

Definition opts : UseWizardStateOptions := default_options catalog.

(** A required question that is never shown. *)
Definition hidden_question : QuestionDefinition :=
  {| id := "layer3_exceptions"; layer := 3; step := 15; type := ShortText;
     required := true; titleKey := "layer3_exceptions";
     descriptionKey := None; placeholderKey := None; helpTextKey := None;
     minLength := None; maxLength := None; pattern := None;
     options := None; dependsOn := None;
     showIf := Some (fun _ => false) |}.

(** Answer the question of the current step, then move on. *)
Definition answer_and_advance (o : UseWizardStateOptions) (now : Z)
    (h : option Hook) (qa : string * jsstring) : option Hook :=
  match h with
  | Some h =>
      match useWizardState.setAnswer o now (fst qa) (VString (snd qa)) h with
      | Ok h' =>
          match useWizardState.nextStep o now h' with
          | Ok (_, h'') => Some h''
          | Throw _ => None
          end
      | Throw _ => None
      end
  | None => None
  end.

(** Answers to all fifteen questions; the first four are the examples
    that the translation bundle shows as placeholders. *)
Definition long_answers : list (string * jsstring) :=
  [("layer1_purpose", js "売上データの自動集計と月次レポートの作成");
   ("layer1_kpi", js "作業時間50%削減、ミス率90%減少");
   ("layer1_constraints", js "既存の会計システムは変更しない");
   ("layer1_success_criteria", js "月次締めを2日で完了");
   ("layer1_target", js "経理部");
   ("layer2_actors", js "営業担当者、営業マネージャー、経理担当者");
   ("layer2_input_data", js "受注データ、請求書");
   ("layer2_output_data", js "月次レポート");
   ("layer2_triggers", js "月末");
   ("layer2_as_is", js "表計算ソフトで手作業");
   ("layer3_ui", js "ダッシュボード画面、CSV取込ボタン、グラフ表示");
   ("layer3_automation", js "データ取込と照合");
   ("layer3_google_integration", js "スプレッドシート");
   ("layer3_permissions", js "経理部のみ");
   ("layer3_exceptions", js "手動で確認")]%string.

(** The same with a purpose and an expected effect put more briefly. *)
Definition short_answers : list (string * jsstring) :=
  [("layer1_purpose", js "売上データの自動集計");
   ("layer1_kpi", js "作業時間50%削減")]%string ++ skipn 2 long_answers.

(** The whole scenario: answer every question, then [complete()]. *)
Definition interview (answers : list (string * jsstring)) : option (bool * Hook) :=
  match fold_left (answer_and_advance opts 1000) answers
          (Some (useWizardState.init "session-1" 0)) with
  | Some h => Some (useWizardState.complete opts 2000 h)
  | None => None
  end.

Definition first_render : Hook := useWizardState.init "session-1" 0.

Definition purpose_question : QuestionDefinition :=
  text_question "layer1_purpose" 1 1 true.

(** The world after a jump to step 7 from the first render. *)
Definition at_step_7 : World :=
  (useWizardState.set_wizardState first_render
     (useWizardState.moved (useWizardState.fresh_state "session-1" 0) 7 2 10),
   []).

(** The storage after the session at step 7 was saved at time 1000. *)
Definition saved_at_step_7 : Storage :=
  [(draft_key "session-1",
    DraftJson (@DraftStorageManager.draft_of toy_platform 1000 "session-1"
                 (wizardState (fst at_step_7))))].

Definition clock : GenerationClock :=
  {| startTime := 3000; endTime := 3040; totalGenerationTime := 40;
     generatedAt := js "2025/9/6 12:34:56" |}.

Definition generate (answers : list (string * jsstring)) : option Generation :=
  match interview answers with
  | Some (true, h) =>
      Some (useOutputGeneration.generateOutput default_generation_options
              clock (wizardState h) catalog)
  | _ => None
  end.

(** A draft saved at time [t] for a fresh session [wizardId]. *)
Definition draft_at (t : Z) (wizardId : string) : StoredText :=
  DraftJson
    (@DraftStorageManager.draft_of toy_platform t wizardId
       (useWizardState.fresh_state wizardId t)).

Definition day : Z := 24 * 60 * 60 * 1000.

(** A day and a second after time 0. *)
Definition later : Z := day + 1000.

(** Two drafts saved at time 0. *)
Definition two_old_drafts : Storage :=
  [("wizard-draft-a"%string, draft_at 0 "a");
   ("wizard-draft-b"%string, draft_at 0 "b")].

(** A draft saved at time 0 followed by one saved a day later. *)
Definition old_then_recent : Storage :=
  [("wizard-draft-a"%string, draft_at 0 "a");
   ("wizard-draft-b"%string, draft_at day "b")].

End Sample.

(* ===================================================================== *)
(** * Further functions of the same sources *)
(* ===================================================================== *)

(** [ConstitutionalValidator.validateDraftRetention]: the number of
    hours is a quotient, kept as a rational; an invalid [savedAt] makes
    it [NaN], which is not [<= 24]. *)
Definition validateDraftRetention (savedAt : option Z) (currentTime : Z) : bool :=
  match savedAt with
  | Some saved =>
      let hoursDiff :=
        (inject_Z (currentTime - saved) / inject_Z (1000 * 60 * 60))%Q in
      Qle_bool hoursDiff 24
  | None => false
  end.

(** [PIIDetector.requiresEncryption] *)
Definition requiresEncryption (text : jsstring) : bool :=
  match PII.detectPII text with
  | Some d =>
      PII.hasPII d && (JsNumber.literal (3 # 10) <? PII.confidence d)%num
  | None => false
  end.

(** [AnswerValidator.validateEmail]: [test] on a pattern with the [g]
    flag reads and writes the [lastIndex] of the pattern, here an
    argument and a result. *)
Definition validateEmail (value : jsstring) (lastIndex : nat) : bool * nat :=
  match exec PII.email value lastIndex with
  | (Some _, lastIndex') => (true, lastIndex')
  | (None, lastIndex') => (false, lastIndex')
  end.

Module FormValidator.

Record t := {
  isValid : bool;
  errors : gmap string (list ValidationError);
  piiDetected : bool;
  constitutionalCompliance : bool;
}.




End FormValidator.

Module DataSanitizer.






End DataSanitizer.

(** [StepNavigationState] *)
Module StepNavigationState.
Record t := {
  canGoNext : bool;
  canGoPrevious : bool;
  nextStep : option number;
  previousStep : option number;
  progressPercentage : number;
}.
End StepNavigationState.

(** [Math.round((step / 15) * 100)] *)
Definition Math_round_percent (step : number) : number :=
  JsNumber.Math_round (step / 15 * 100)%num.

(** [calculateNavigationState] of [useWizardState], over the cells of
    the render. *)
Definition calculateNavigationState (o : UseWizardStateOptions) (h : Hook)
    (state : WizardState) : StepNavigationState.t :=
  let currentQuestion :=
    List.find (fun q => (step q =? currentStep state)%num) (questions o) in
  let currentErrors :=
    default []
      (validationErrors h
         !! match currentQuestion with Some q => id q | None => ""%string end) in
  let is_required :=
    match currentQuestion with Some q => required q | None => false end in
  (* Can go next if current step is valid (or not required) *)
  let canGoNext :=
    (currentStep state <? 15)%num
    && (negb is_required
        || (is_required && (length currentErrors =? 0)%nat)) in
  let canGoPrevious := (1 <? currentStep state)%num in
  {| StepNavigationState.canGoNext := canGoNext;
     StepNavigationState.canGoPrevious := canGoPrevious;
     StepNavigationState.nextStep :=
       (if canGoNext then Some (currentStep state + 1)%num else None);
     StepNavigationState.previousStep :=
       (if canGoPrevious then Some (currentStep state - 1)%num else None);
     StepNavigationState.progressPercentage :=
       Math_round_percent (currentStep state) |}.

(** [const navigationState = calculateNavigationState(wizardState)] *)
Definition navigationState (o : UseWizardStateOptions) (h : Hook)
    : StepNavigationState.t :=
  calculateNavigationState o h (wizardState h).


Definition errors_of (answers : gmap string AnswerValue)
    (q : QuestionDefinition) : list ValidationError :=
  QuestionValidator.validateAnswer q (answers !! id q) (Some answers).



(** An entry that [cleanupExpiredDraftsSync] collects: under a draft
    key, an expired draft or a text that is no draft. *)
Definition collected (now : Z) (kv : string * StoredText) : bool :=
  is_draft_key (fst kv) && truthy_text (snd kv)
  && match snd kv with
     | DraftJson draft => date_gt now (Date_parse (expiresAt (metadata draft)))
     | Other _ => true
     end.

(** [key] is among [keys]. *)
Definition key_in (keys : list string) (key : string) : bool :=
  existsb (String.eqb key) keys.

(** The expiry of a stored draft is a date. *)
Definition expiry_is_date (v : StoredText) : bool :=
  match v with
  | DraftJson draft =>
      match expiresAt (metadata draft) with
      | ISO _ => true
      | Unparsable _ => false
      end
  | Other _ => true
  end.

(** The two dates of a stored draft are as [saveDraft] writes them: ISO
    strings, the retention period apart. *)
Definition dated_by_saveDraft (v : StoredText) : bool :=
  match v with
  | DraftJson draft =>
      match savedAt (metadata draft), expiresAt (metadata draft) with
      | ISO s, ISO e => e =? s + DraftStorageManager.retention_ms
      | _, _ => false
      end
  | Other _ => true
  end.

(** The entries of [listDrafts] for the drafts of a storage, in the
    order of the keys. *)
Definition listing `{Platform} (st : Storage) : list DraftMetadata.t :=
  flat_map
    (fun kv =>
       match snd kv with
       | DraftJson draft =>
           if is_draft_key (fst kv)
           then [DraftStorageManager.metadata_of (fst kv) (snd kv) draft]
           else []
       | Other _ => []
       end)
    st.

(** [useDraftManagement]: the cell [drafts] and the actions that
    refresh it. An action and the refresh that follows it read the
    same time. *)
Module useDraftManagement.

Definition refreshDrafts `{Platform} (now : Z) (st : Storage)
    : list DraftMetadata.t * Storage :=
  DraftStorageManager.listDrafts now st.

Definition saveDraft `{Platform} (now : Z) (wizardId : string)
    (wizardState : WizardState) (drafts : list DraftMetadata.t) (st : Storage)
    : bool * list DraftMetadata.t * Storage :=
  match DraftStorageManager.saveDraft now wizardId wizardState st with
  | (Ok true, st') =>
      let (drafts', st'') := refreshDrafts now st' in (true, drafts', st'')
  | (Ok false, st') => (false, drafts, st')
  | (Throw _, st') => (false, drafts, st')
  end.

Definition deleteDraft `{Platform} (now : Z) (wizardId : string)
    (drafts : list DraftMetadata.t) (st : Storage)
    : bool * list DraftMetadata.t * Storage :=
  let (success, st') := DraftStorageManager.deleteDraft wizardId st in
  if success then
    let (drafts', st'') := refreshDrafts now st' in (success, drafts', st'')
  else (success, drafts, st').

Definition cleanupExpiredDrafts `{Platform} (now : Z)
    (drafts : list DraftMetadata.t) (st : Storage)
    : nat * list DraftMetadata.t * Storage :=
  let (cleanedCount, st') := cleanupExpiredDraftsSync now st in
  if (0 <? cleanedCount)%nat then
    let (drafts', st'') := refreshDrafts now st' in (cleanedCount, drafts', st'')
  else (cleanedCount, drafts, st').

End useDraftManagement.

(** [useStorageCompliance] *)
Module useStorageCompliance.

Record RetentionStatus := {
  totalDrafts : nat;
  expiredDrafts : nat;
  withinRetention : nat;
}.

Record t := {
  isCompliant : bool;
  violations : list jsstring;
  retentionStatus : RetentionStatus;
}.

(** [getStorageUsage().percentage]:
    [Math.round((used / total) * 100)]. *)
Definition percentage `{Platform} (st : Storage) : Z :=
  (200 * StorageQuotaManager.used st + StorageQuotaManager.total)
  / (2 * StorageQuotaManager.total).

Definition exceeds (now : Z) (draft : DraftMetadata.t) : bool :=
  negb (validateDraftRetention (DraftMetadata.savedAt draft) now).

(** [checkCompliance]: the cells it sets, and the storage as
    [listDrafts] leaves it. The list and the retention check read the
    same time. *)
Definition checkCompliance `{Platform} (now : Z) (st : Storage) : t * Storage :=
  (* Check draft retention policy (24 hours) *)
  let (drafts, st') := DraftStorageManager.listDrafts now st in
  let expired := List.filter (exceeds now) drafts in
  let within := List.filter (fun draft => negb (exceeds now draft)) drafts in
  let foundViolations :=
    map (fun draft =>
           js "Draft " ++ js (DraftMetadata.wizardId draft)
           ++ js " exceeds 24-hour retention")
      expired in
  (* Check storage quota *)
  let foundViolations :=
    if 95 <? percentage st'
    then foundViolations ++ [js "Storage quota exceeded 95%"]
    else foundViolations in
  ({| isCompliant := (length foundViolations =? 0)%nat;
      violations := foundViolations;
      retentionStatus :=
        {| totalDrafts := length drafts;
           expiredDrafts := length expired;
           withinRetention := length within |} |},
   st').

End useStorageCompliance.

(** [a] was saved no earlier than [b], both dates being valid. *)
Definition saved_no_earlier (a b : DraftMetadata.t) : Prop :=
  exists ta tb,
    DraftMetadata.savedAt a = Some ta /\ DraftMetadata.savedAt b = Some tb
    /\ tb <= ta.

(** The text in which [generateSummary] looks for its key terms. *)
Definition summary_source (wizardState : WizardState) : jsstring :=
  join (js " ")
    (map useOutputGeneration.String_opt
       (List.filter useOutputGeneration.truthy
          [answers wizardState !! "layer1_purpose"%string;
           answers wizardState !! "layer1_kpi"%string;
           answers wizardState !! "layer2_actors"%string;
           answers wizardState !! "layer3_ui"%string])).

(** [debounce] of [utils/index.ts], which delays the auto-save. The
    closure keeps the timer it has set; the browser runs a timer no
    earlier than it is due. [pending] is the due time of the timer that
    is set and the arguments it will pass, [runs] the calls of [func]
    made so far. Events come with the time of the clock, which never
    goes back. *)
Module Debounce.

Record t (A : Type) := {
  clock : Z;
  pending : option (Z * A);
  runs : list (Z * A);
}.
Arguments clock {A} _.
Arguments pending {A} _.
Arguments runs {A} _.

Inductive Event (A : Type) :=
| Call (now : Z) (args : A)
| Timer (now : Z).
Arguments Call {A} now args.
Arguments Timer {A} now.

Definition initial {A : Type} (now : Z) : t A :=
  {| clock := now; pending := None; runs := [] |}.

(** A call clears the timer that is set and sets a new one; a timer
    that runs calls [func] with the arguments of the call that set
    it. [None]: the event cannot happen in this state. *)
Definition step {A : Type} (delay : Z) (d : t A) (e : Event A) : option (t A) :=
  match e with
  | Call now args =>
      if clock d <=? now
      then Some {| clock := now; pending := Some (now + delay, args);
                   runs := runs d |}
      else None
  | Timer now =>
      match pending d with
      | Some (due, args) =>
          if (clock d <=? now) && (due <=? now)
          then Some {| clock := now; pending := None;
                       runs := runs d ++ [(now, args)] |}
          else None
      | None => None
      end
  end.

Fixpoint run {A : Type} (delay : Z) (d : t A) (events : list (Event A))
    : option (t A) :=
  match events with
  | [] => Some d
  | e :: rest =>
      match step delay d e with
      | Some d' => run delay d' rest
      | None => None
      end
  end.

Definition is_timer {A : Type} (e : Event A) : bool :=
  match e with
  | Timer _ => true
  | Call _ _ => false
  end.

End Debounce.

(** User preferences ([types/storage.ts], [utils/storage.ts],
    [useUserPreferences]). A value that [JSON.parse] can return for a
    key of the schema is a string, a number, a boolean or anything
    else. *)
Inductive JsonValue :=
| JString (s : string)
| JNumber (n : Z)
| JBoolean (b : bool)
| JOther.

Module UserPreferences.
Record t := {
  language : string;
  theme : string;
  autoSaveInterval : Z;
  aiCompletionEnabled : bool;
  accessibilityMode : bool;
  reducedMotion : bool;
}.
End UserPreferences.

(** [Partial<UserPreferences>] *)
Module PartialPreferences.
Record t := {
  language : option string;
  theme : option string;
  autoSaveInterval : option Z;
  aiCompletionEnabled : option bool;
  accessibilityMode : option bool;
  reducedMotion : option bool;
}.
End PartialPreferences.

(** What [JSON.parse] returns, under the keys of the schema. *)
Module RawPreferences.
Record t := {
  language : option JsonValue;
  theme : option JsonValue;
  autoSaveInterval : option JsonValue;
  aiCompletionEnabled : option JsonValue;
  accessibilityMode : option JsonValue;
  reducedMotion : option JsonValue;
}.
End RawPreferences.

(** The text that [JSON.stringify] yields for preferences, and what
    [JSON.parse] makes of a text: [None] when it throws or returns no
    object. Nothing is assumed about them. *)
Class PreferencesJson := {
  preferences_text : UserPreferences.t -> jsstring;
  preferences_parse : jsstring -> option RawPreferences.t;
}.

(** [UserPreferencesSchema]; [None] is a [ZodError]. *)
Module UserPreferencesSchema.

Definition languages : list string := ["ja"; "en"]%string.
Definition themes : list string := ["light"; "dark"; "auto"]%string.

Definition member (allowed : list string) (s : string) : bool :=
  existsb (String.eqb s) allowed.

(** [z.enum(allowed).default(d)] *)
Definition parse_enum (allowed : list string) (d : string)
    (v : option JsonValue) : option string :=
  match v with
  | None => Some d
  | Some (JString s) => if member allowed s then Some s else None
  | Some _ => None
  end.

(** [z.number().default(d)] *)
Definition parse_number (d : Z) (v : option JsonValue) : option Z :=
  match v with
  | None => Some d
  | Some (JNumber n) => Some n
  | Some _ => None
  end.

(** [z.boolean().default(d)] *)
Definition parse_boolean (d : bool) (v : option JsonValue) : option bool :=
  match v with
  | None => Some d
  | Some (JBoolean b) => Some b
  | Some _ => None
  end.

Definition parse (raw : RawPreferences.t) : option UserPreferences.t :=
  match parse_enum languages "ja" (RawPreferences.language raw),
        parse_enum themes "auto" (RawPreferences.theme raw),
        parse_number 2000 (RawPreferences.autoSaveInterval raw),
        parse_boolean true (RawPreferences.aiCompletionEnabled raw),
        parse_boolean false (RawPreferences.accessibilityMode raw),
        parse_boolean false (RawPreferences.reducedMotion raw) with
  | Some l, Some t, Some i, Some a, Some m, Some r =>
      Some {| UserPreferences.language := l;
              UserPreferences.theme := t;
              UserPreferences.autoSaveInterval := i;
              UserPreferences.aiCompletionEnabled := a;
              UserPreferences.accessibilityMode := m;
              UserPreferences.reducedMotion := r |}
  | _, _, _, _, _, _ => None
  end.

(** [UserPreferencesSchema.parse({})] *)
Definition defaults : UserPreferences.t :=
  {| UserPreferences.language := "ja";
     UserPreferences.theme := "auto";
     UserPreferences.autoSaveInterval := 2000;
     UserPreferences.aiCompletionEnabled := true;
     UserPreferences.accessibilityMode := false;
     UserPreferences.reducedMotion := false |}.

(** The preferences as an object to parse. *)
Definition raw_of (p : UserPreferences.t) : RawPreferences.t :=
  {| RawPreferences.language := Some (JString (UserPreferences.language p));
     RawPreferences.theme := Some (JString (UserPreferences.theme p));
     RawPreferences.autoSaveInterval :=
       Some (JNumber (UserPreferences.autoSaveInterval p));
     RawPreferences.aiCompletionEnabled :=
       Some (JBoolean (UserPreferences.aiCompletionEnabled p));
     RawPreferences.accessibilityMode :=
       Some (JBoolean (UserPreferences.accessibilityMode p));
     RawPreferences.reducedMotion :=
       Some (JBoolean (UserPreferences.reducedMotion p)) |}.

(** The preferences pass the schema. *)
Definition valid (p : UserPreferences.t) : bool :=
  member languages (UserPreferences.language p)
  && member themes (UserPreferences.theme p).

End UserPreferencesSchema.

Module UserPreferencesManager.

Definition USER_PREFERENCES_KEY : string := "user-preferences".

Definition getPreferences `{PreferencesJson} (st : Storage) : UserPreferences.t :=
  match LocalStorage.getItem USER_PREFERENCES_KEY st with
  | None => UserPreferencesSchema.defaults
  | Some stored =>
      if negb (truthy_text stored) then UserPreferencesSchema.defaults
      else
        match stored with
        | Other text =>
            match preferences_parse text with
            | Some parsed =>
                match UserPreferencesSchema.parse parsed with
                | Some preferences => preferences
                | None => UserPreferencesSchema.defaults
                end
            | None => UserPreferencesSchema.defaults
            end
        | DraftJson _ =>
            (* the keys of a draft are not those of the schema *)
            UserPreferencesSchema.defaults
        end
  end.

(** [{ ...current, ...preferences }] *)
Definition merge (current : UserPreferences.t) (preferences : PartialPreferences.t)
    : UserPreferences.t :=
  {| UserPreferences.language :=
       default (UserPreferences.language current)
         (PartialPreferences.language preferences);
     UserPreferences.theme :=
       default (UserPreferences.theme current)
         (PartialPreferences.theme preferences);
     UserPreferences.autoSaveInterval :=
       default (UserPreferences.autoSaveInterval current)
         (PartialPreferences.autoSaveInterval preferences);
     UserPreferences.aiCompletionEnabled :=
       default (UserPreferences.aiCompletionEnabled current)
         (PartialPreferences.aiCompletionEnabled preferences);
     UserPreferences.accessibilityMode :=
       default (UserPreferences.accessibilityMode current)
         (PartialPreferences.accessibilityMode preferences);
     UserPreferences.reducedMotion :=
       default (UserPreferences.reducedMotion current)
         (PartialPreferences.reducedMotion preferences) |}.

Definition updatePreferences `{PreferencesJson}
    (preferences : PartialPreferences.t) (st : Storage) : bool * Storage :=
  let current := getPreferences st in
  let updated := merge current preferences in
  match UserPreferencesSchema.parse (UserPreferencesSchema.raw_of updated) with
  | Some validated =>
      (true,
       LocalStorage.setItem USER_PREFERENCES_KEY
         (Other (preferences_text validated)) st)
  | None => (false, st)
  end.

Definition resetPreferences (st : Storage) : bool * Storage :=
  (true, LocalStorage.removeItem USER_PREFERENCES_KEY st).

End UserPreferencesManager.

(** [useUserPreferences]: the cell [preferences] and its actions. *)
Module useUserPreferences.

Definition loadPreferences `{PreferencesJson} (st : Storage) : UserPreferences.t :=
  UserPreferencesManager.getPreferences st.

Definition updatePreferences `{PreferencesJson} (updates : PartialPreferences.t)
    (preferences : UserPreferences.t) (st : Storage)
    : bool * UserPreferences.t * Storage :=
  (* Constitutional compliance: validate auto-save interval *)
  let refused :=
    match PartialPreferences.autoSaveInterval updates with
    | Some interval =>
        negb (ConstitutionalValidator.validateAutoSaveInterval interval)
    | None => false
    end in
  if refused then (false, preferences, st)
  else
    let (success, st') := UserPreferencesManager.updatePreferences updates st in
    if success
    then (success, UserPreferencesManager.merge preferences updates, st')
    else (success, preferences, st').

Definition resetPreferences `{PreferencesJson} (preferences : UserPreferences.t)
    (st : Storage) : bool * UserPreferences.t * Storage :=
  let (success, st') := UserPreferencesManager.resetPreferences st in
  if success then (success, UserPreferencesManager.getPreferences st', st')
  else (success, preferences, st').

End useUserPreferences.

(** Further sample data. *)
Module Examples.

(** The session of [Sample.interview] before [complete()], and after. *)
Definition answered : Hook :=
  match fold_left (Sample.answer_and_advance Sample.opts 1000)
          Sample.long_answers (Some Sample.first_render) with
  | Some h => h
  | None => Sample.first_render
  end.

Definition completed : Hook :=
  snd (useWizardState.complete Sample.opts 2000 answered).

(** The output that [generateOutput] builds for the completed session. *)
Definition specification : OutputSpecification :=
  let summary :=
    useOutputGeneration.generateSummary (wizardState completed) Sample.catalog in
  let structuredData :=
    useOutputGeneration.generateStructuredData (wizardState completed)
      Sample.catalog in
  {| summary := summary;
     structuredData := structuredData;
     markdownSpec :=
       useOutputGeneration.generateMarkdownSpec (generatedAt Sample.clock)
         summary structuredData |}.

(** The first render with the purpose answered, and one step on. *)
Definition purpose : AnswerValue :=
  VString (js "売上データの自動集計と月次レポートの作成").

Definition purpose_answered : Hook :=
  match useWizardState.setAnswer Sample.opts 5 "layer1_purpose" purpose
          Sample.first_render with
  | Ok h => h
  | Throw _ => Sample.first_render
  end.

Definition second_step : Hook :=
  match useWizardState.nextStep Sample.opts 10 purpose_answered with
  | Ok (_, h) => h
  | Throw _ => Sample.first_render
  end.

(** A third draft saved when one of two has expired. *)
Definition third_draft_saved : Storage :=
  snd (@DraftStorageManager.saveDraft Sample.toy_platform Sample.later "c"
         (useWizardState.fresh_state "c" Sample.later) Sample.old_then_recent).


(** Three calls of a debounced function within 200 ms, and the timer
    of the last one. *)
Definition burst : list (Debounce.Event nat) :=
  [Debounce.Call 0 1%nat; Debounce.Call 100 2%nat].

Definition after_burst : Debounce.t nat :=
  {| Debounce.clock := 2200; Debounce.pending := None;
     Debounce.runs := [(2200, 3%nat)] |}.



(** The world after [goToStep(1.5)] from the first render, and after a
    [previousStep] there. *)
Definition at_step_one_and_a_half : World :=
  (useWizardState.set_wizardState Sample.first_render
     (useWizardState.moved (useWizardState.fresh_state "session-1" 0)
        (Finite (3 # 2)) 1 10),
   []).

Definition below_step_1 : World :=
  (useWizardState.set_wizardState Sample.first_render
     (useWizardState.moved (wizardState (fst at_step_one_and_a_half))
        (Finite (1 # 2)) 1 20),
   []).

(** The options of [Sample.opts] with an auto-save every three
    seconds. *)
Definition slow_auto_save : UseWizardStateOptions :=
  {| autoSave := true; autoSaveInterval := 3000; enableDrafts := true;
     questions := Sample.catalog |}.



(** The first render after [setAnswer('budget', NaN)]. *)
Definition not_a_number : Hook :=
  match useWizardState.setAnswer Sample.opts 5 "budget" (VNumber NaN)
          Sample.first_render with
  | Ok h => h
  | Throw _ => Sample.first_render
  end.

(** The questions of [Sample.catalog], none but the purpose
    required. *)
Definition optional_catalog : list QuestionDefinition :=
  Sample.purpose_question
  :: map (fun q => Sample.text_question (id q) (layer q) (step q) false)
       (skipn 1 Sample.catalog).

Definition optional_options : UseWizardStateOptions :=
  default_options optional_catalog.

(** A purpose, and the empty text for the eleven questions after it. *)
Definition blank_answers : list (string * jsstring) :=
  ("layer1_purpose"%string,
   js "売上データの自動集計と月次レポートの作成を、経理部が毎月の締め日までに手作業なしで終えられるようにする")
  :: map (fun qa => (fst qa, [])) (firstn 11 (skipn 1 Sample.long_answers)).

(** [setAnswer] for each of them from the first render, then
    [complete()]. *)
Definition blank_session : bool * Hook :=
  useWizardState.complete optional_options 2000
    (fold_left
       (fun h qa =>
          match useWizardState.setAnswer optional_options 1000 (fst qa)
                  (VString (snd qa)) h with
          | Ok h' => h'
          | Throw _ => h
          end)
       blank_answers Sample.first_render).


End Examples.

(* ===================================================================== *)
(** * Properties *)
(* ===================================================================== *)

(** ** Numbers *)

Section Numbers.

Import JsNumber.

Lemma nearest_even_spec a b :
  0 <= a -> 0 < b ->
  2 * a - b <= 2 * b * nearest_even a b <= 2 * a + b.
Proof.
  intros Ha Hb. unfold nearest_even.
  pose proof (Z.div_mod a b ltac:(lia)) as Hdm.
  pose proof (Z.mod_pos_bound a b Hb) as Hr.
  destruct (Z.ltb_spec (2 * (a mod b)) b);
    [|destruct (Z.ltb_spec b (2 * (a mod b))); [|destruct (Z.even (a / b))]];
    nia.
Qed.

Lemma pow2_split x y : 0 <= x -> 0 <= y -> 2 ^ (x + y) = 2 ^ x * 2 ^ y.
Proof. intros. apply Z.pow_add_r; assumption. Qed.

Lemma exponent_spec a b :
  0 < a -> 0 < b -> pow2_le (exponent a b) a b = true.
Proof.
  intros Ha Hb. unfold exponent.
  destruct (pow2_le (Z.log2 a - Z.log2 b) a b) eqn:E; [exact E|].
  destruct (Z.log2_spec a Ha) as [Hla _].
  destruct (Z.log2_spec b Hb) as [_ Hlb].
  pose proof (Z.log2_nonneg a) as Hna. pose proof (Z.log2_nonneg b) as Hnb.
  set (la := Z.log2 a) in *. set (lb := Z.log2 b) in *.
  unfold pow2_le.
  destruct (Z.leb_spec 0 (la - lb - 1)) as [Hs|Hs].
  - apply Z.leb_le.
    assert (Hp : 2 ^ la = 2 ^ (la - lb - 1) * 2 ^ Z.succ lb).
    { rewrite <- pow2_split by lia. f_equal. lia. }
    assert (0 < 2 ^ (la - lb - 1)) by (apply Z.pow_pos_nonneg; lia).
    nia.
  - apply Z.leb_le.
    assert (Hp : 2 ^ Z.succ lb = 2 ^ la * 2 ^ (- (la - lb - 1))).
    { rewrite <- pow2_split by lia. f_equal. lia. }
    assert (0 < 2 ^ (- (la - lb - 1))) by (apply Z.pow_pos_nonneg; lia).
    nia.
Qed.

Lemma exponent_upper a b :
  0 < a -> 0 < b -> exponent a b <= Z.log2 a - Z.log2 b.
Proof. intros Ha Hb. unfold exponent. destruct (pow2_le _ a b); lia. Qed.

Lemma exponent_lower a b :
  0 < a -> 0 < b -> b <= 2 * a -> -2 <= exponent a b.
Proof.
  intros Ha Hb Hab. unfold exponent.
  assert (Z.log2 b <= Z.log2 a + 1).
  { replace (Z.log2 a + 1) with (Z.succ (Z.log2 a)) by lia.
    rewrite <- Z.log2_double by exact Ha. apply Z.log2_le_mono. exact Hab. }
  destruct (pow2_le _ a b); lia.
Qed.

(** Rounding loses at most the fraction [2^-53] of a value from 1/2
    on. *)
Lemma round64_pos_lower a b :
  0 < a -> 0 < b -> b <= 2 * a ->
  match round64_pos a b with
  | Finite y =>
      ((a # Z.to_pos b) * (9007199254740991 # 9007199254740992) <= y)%Q
  | Infinity negative => negative = false
  | NaN => False
  end.
Proof.
  intros Ha Hb Hab. unfold round64_pos.
  pose proof (exponent_spec a b Ha Hb) as He.
  pose proof (exponent_lower a b Ha Hb Hab) as Hlo.
  rewrite Z.max_l by lia.
  set (e := exponent a b) in *.
  unfold pow2_le in He.
  destruct (Z.leb_spec e 52) as [Hs|Hs].
  - rewrite Qred_correct.
    assert (HP : 0 < 2 ^ (52 - e)) by (apply Z.pow_pos_nonneg; lia).
    pose proof (nearest_even_spec (a * 2 ^ (52 - e)) b ltac:(nia) Hb) as Hm.
    set (m := nearest_even _ _) in *.
    assert (Hscaled : b * 2 ^ 52 <= a * 2 ^ (52 - e)).
    { destruct (Z.leb_spec 0 e) as [H0|H0].
      - apply Z.leb_le in He.
        replace (2 ^ 52) with (2 ^ e * 2 ^ (52 - e))
          by (rewrite <- pow2_split by lia; f_equal; lia).
        nia.
      - apply Z.leb_le in He.
        replace (2 ^ (52 - e)) with (2 ^ (- e) * 2 ^ 52)
          by (rewrite <- pow2_split by lia; f_equal; lia).
        nia. }
    unfold Qle, Qmult. cbn [Qnum Qden].
    rewrite !Pos2Z.inj_mul, !Z2Pos.id by lia.
    change (2 ^ 52) with 4503599627370496 in Hscaled.
    nia.
  - assert (HP : 0 < 2 ^ (e - 52)) by (apply Z.pow_pos_nonneg; lia).
    pose proof (nearest_even_spec a (b * 2 ^ (e - 52)) ltac:(lia) ltac:(nia)) as Hm.
    set (m := nearest_even _ _) in *.
    destruct (2 ^ 1024 <=? m * 2 ^ (e - 52)); [reflexivity|].
    replace (0 <=? e) with true in He by (symmetry; apply Z.leb_le; lia).
    apply Z.leb_le in He.
    assert (Hscaled : b * 2 ^ (e - 52) * 2 ^ 52 <= a).
    { replace (b * 2 ^ (e - 52) * 2 ^ 52) with (b * (2 ^ (e - 52) * 2 ^ 52)) by ring.
      rewrite <- pow2_split by lia. replace (e - 52 + 52) with e by lia. exact He. }
    unfold Qle, Qmult, inject_Z. cbn [Qnum Qden].
    rewrite !Pos2Z.inj_mul, !Z2Pos.id by lia.
    change (2 ^ 52) with 4503599627370496 in Hscaled.
    nia.
Qed.

(** A value of at most 16 is rounded to a value at most half a unit
    larger. *)
Lemma round64_pos_upper a b :
  0 < a -> 0 < b -> a <= 16 * b ->
  exists y, round64_pos a b = Finite y
    /\ (0 <= y)%Q /\ (y <= (a # Z.to_pos b) + (1 # 2))%Q.
Proof.
  intros Ha Hb Hab. unfold round64_pos.
  pose proof (exponent_upper a b Ha Hb) as Hup.
  assert (Hlog : Z.log2 a <= Z.log2 b + 4).
  { transitivity (Z.log2 (b * 2 ^ 4)).
    - apply Z.log2_le_mono. lia.
    - rewrite Z.log2_mul_pow2 by lia. lia. }
  set (e := Z.max (exponent a b) (-1022)).
  assert (He : e <= 4) by lia.
  replace (e <=? 52) with true by (symmetry; apply Z.leb_le; lia).
  assert (HP : 1 <= 2 ^ (52 - e)).
  { change 1 with (2 ^ 0). apply Z.pow_le_mono_r; lia. }
  pose proof (nearest_even_spec (a * 2 ^ (52 - e)) b ltac:(nia) Hb) as Hm.
  set (m := nearest_even _ _) in *.
  eexists. split; [reflexivity|].
  rewrite Qred_correct. unfold Qle, Qplus. cbn [Qnum Qden].
  rewrite ?Pos2Z.inj_mul, !Z2Pos.id by lia.
  split; nia.
Qed.

Lemma Qred_Int z : Qred (inject_Z z) = inject_Z z.
Proof.
  unfold Qred, inject_Z.
  pose proof (Z.ggcd_gcd z 1) as Hg.
  pose proof (Z.ggcd_correct_divisors z 1) as Hd.
  destruct (Z.ggcd z 1) as [g [aa bb]]. cbn [fst snd] in *.
  rewrite Z.gcd_1_r in Hg. subst g. destruct Hd as [Ha Hb].
  replace aa with z by lia. replace bb with 1 by lia. reflexivity.
Qed.

(** An integer below [2^53] is a binary64 value. *)
Lemma round64_Int q z :
  (q == inject_Z z)%Q -> - 2 ^ 53 < z < 2 ^ 53 -> round64 q = Int z.
Proof.
  intros Hq Hz. unfold round64.
  rewrite (Qred_complete _ _ Hq), Qred_Int. cbn [Qnum Qden inject_Z].
  assert (Hpos : forall p, Z.pos p < 2 ^ 53 ->
            round64_pos (Z.pos p) 1 = Int (Z.pos p)).
  { intros p Hp. unfold round64_pos, exponent.
    change (Z.log2 1) with 0. rewrite Z.sub_0_r.
    pose proof (Z.log2_spec (Z.pos p) ltac:(lia)) as [Hl _].
    pose proof (Z.log2_nonneg (Z.pos p)) as Hn.
    assert (Hl53 : Z.log2 (Z.pos p) < 53)
      by (apply Z.log2_lt_pow2; [lia|exact Hp]).
    unfold pow2_le.
    replace (0 <=? Z.log2 (Z.pos p)) with true by (symmetry; apply Z.leb_le; lia).
    replace (1 * 2 ^ Z.log2 (Z.pos p) <=? Z.pos p) with true
      by (symmetry; apply Z.leb_le; lia).
    rewrite Z.max_l by lia.
    replace (Z.log2 (Z.pos p) <=? 52) with true by (symmetry; apply Z.leb_le; lia).
    set (P := 2 ^ (52 - Z.log2 (Z.pos p))).
    assert (HP : 0 < P) by (apply Z.pow_pos_nonneg; lia).
    unfold nearest_even. rewrite Z.div_1_r, Z.mod_1_r.
    change (2 * 0 <? 1) with true. cbv iota.
    unfold Int. f_equal. rewrite <- (Qred_Int (Z.pos p)).
    apply Qred_complete. unfold Qeq, inject_Z. cbn [Qnum Qden].
    rewrite Z2Pos.id by lia. lia. }
  destruct z as [|p|p].
  - reflexivity.
  - apply Hpos. lia.
  - rewrite Hpos by lia. reflexivity.
Qed.

Lemma leb_Int a b : leb (Int a) (Int b) = (a <=? b).
Proof.
  unfold leb, Int, Qle_bool, inject_Z. cbn [Qnum Qden].
  rewrite !Z.mul_1_r. reflexivity.
Qed.

Lemma ltb_Int a b : ltb (Int a) (Int b) = (a <? b).
Proof.
  unfold ltb, Int, Qle_bool, inject_Z. cbn [Qnum Qden].
  rewrite !Z.mul_1_r. rewrite Z.ltb_antisym. reflexivity.
Qed.

Lemma eqb_Int a b : eqb (Int a) (Int b) = (a =? b).
Proof.
  unfold eqb, Int, Qeq_bool, inject_Z. cbn [Qnum Qden].
  rewrite !Z.mul_1_r. reflexivity.
Qed.

Lemma add_Int a b :
  - 2 ^ 53 < a + b < 2 ^ 53 -> add (Int a) (Int b) = Int (a + b).
Proof.
  intros Hab. unfold add, Int. apply round64_Int; [|exact Hab].
  rewrite inject_Z_plus. reflexivity.
Qed.

Lemma sub_Int a b :
  - 2 ^ 53 < a - b < 2 ^ 53 -> sub (Int a) (Int b) = Int (a - b).
Proof.
  intros Hab. unfold sub, add, opp, Int. apply round64_Int; [|exact Hab].
  unfold Z.sub. rewrite inject_Z_plus, inject_Z_opp. reflexivity.
Qed.

Lemma round64_upper x :
  (0 < x)%Q -> (x <= 14)%Q ->
  exists y, round64 x = Finite y /\ (0 <= y)%Q /\ (y <= x + (1 # 2))%Q.
Proof.
  intros Hpos Hle. unfold round64.
  pose proof (Qred_correct x) as Hx. rewrite <- Hx in Hpos, Hle.
  assert (Hgoal : exists y,
            match Qnum (Qred x) with
            | 0 => Finite 0
            | Z.pos a => round64_pos (Z.pos a) (Z.pos (Qden (Qred x)))
            | Z.neg a => opp (round64_pos (Z.pos a) (Z.pos (Qden (Qred x))))
            end = Finite y /\ (0 <= y)%Q /\ (y <= Qred x + (1 # 2))%Q).
  { destruct (Qred x) as [[|a|a] b]; cbn [Qnum Qden].
    - exfalso. unfold Qlt in Hpos. cbn in Hpos. lia.
    - apply (round64_pos_upper (Z.pos a) (Z.pos b)); try lia.
      unfold Qle in Hle. cbn in Hle. lia.
    - exfalso. unfold Qlt in Hpos. cbn in Hpos. lia. }
  destruct Hgoal as (y & Hy & H0 & H1). exists y.
  split; [exact Hy|]. split; [exact H0|]. rewrite <- Hx. exact H1.
Qed.

Lemma round64_lower x :
  (1 # 2 <= x)%Q ->
  match round64 x with
  | Finite y => (x * (9007199254740991 # 9007199254740992) <= y)%Q
  | Infinity negative => negative = false
  | NaN => False
  end.
Proof.
  intros Hlo. unfold round64.
  pose proof (Qred_correct x) as Hx. rewrite <- Hx in Hlo.
  destruct (Qred x) as [[|a|a] b] eqn:E; cbn [Qnum Qden].
  - exfalso. unfold Qle in Hlo. cbn in Hlo. lia.
  - pose proof (round64_pos_lower (Z.pos a) (Z.pos b)) as Hr.
    destruct (round64_pos (Z.pos a) (Z.pos b)) as [y| |n].
    + rewrite <- Hx. apply Hr; try lia. unfold Qle in Hlo. cbn in Hlo. lia.
    + apply Hr; try lia. unfold Qle in Hlo. cbn in Hlo. lia.
    + apply Hr; try lia. unfold Qle in Hlo. cbn in Hlo. lia.
  - exfalso. unfold Qle in Hlo. cbn in Hlo. lia.
Qed.

End Numbers.

(** Orders on rationals given by their tests. *)
Ltac Qbool :=
  repeat match goal with
         | H : Qle_bool _ _ = true |- _ => apply Qle_bool_iff in H
         | H : Qle_bool _ _ = false |- _ =>
             apply not_true_iff_false in H; rewrite Qle_bool_iff in H
         | H : negb _ = true |- _ => apply negb_true_iff in H
         | H : negb _ = false |- _ => apply negb_false_iff in H
         | H : _ && _ = true |- _ => apply andb_true_iff in H; destruct H
         end.

(** ** Regular expression matching *)

Section RegexFacts.

Variable s : jsstring.

Lemma char_at_bound i c : char_at s i = Some c -> (S i <= length s)%nat.
Proof.
  unfold char_at. intros Hc.
  assert (Hn : nth_error s i <> None) by congruence.
  apply nth_error_Some in Hn. lia.
Qed.

(** A match spans at least [minlen r] code units and stays inside the
    string. *)
Lemma Matches_bounds r i j :
  Matches s r i j ->
  (i + minlen r <= j)%nat /\ ((i <= length s)%nat -> (j <= length s)%nat).
Proof.
  induction 1 as [i|p i c Hc Hp|r1 r2 i j k _ [IH1 IH1'] _ [IH2 IH2']
                 |r1 r2 i j _ [IH IH']|r1 r2 i j _ [IH IH']|hi r i
                 |lo hi r i j k Hhi _ [IH1 IH1'] _ [IH2 IH2']|i Hb];
    cbn [minlen] in *.
  - split; [lia|auto].
  - apply char_at_bound in Hc. split; [lia|auto].
  - split; [lia|auto].
  - split; [lia|auto].
  - split; [lia|auto].
  - split; [lia|auto].
  - split; [|auto]. destruct lo; cbn [Nat.pred] in *; nia.
  - split; [lia|auto].
Qed.

Lemma looser_pred hi hi' :
  looser hi hi' -> looser (option_map Nat.pred hi) (option_map Nat.pred hi').
Proof. destruct hi, hi'; cbn; lia. Qed.

Lemma looser_below hi hi' n :
  looser hi hi' -> below n hi = true -> below n hi' = true.
Proof.
  destruct hi, hi'; cbn; try tauto; try discriminate.
  intros Hle Hn. apply Nat.ltb_lt in Hn. apply Nat.ltb_lt. lia.
Qed.

Lemma looser_refl hi : looser hi hi.
Proof. destruct hi; cbn; lia. Qed.

Lemma looser_pred_l hi hi' : looser hi hi' -> looser (option_map Nat.pred hi) hi'.
Proof. destruct hi, hi'; cbn; lia. Qed.

(** *** The matcher finds only matches *)

Lemma rep_loop_sound r body :
  (forall i k e, body i k = Some e ->
     exists j, Matches s r i j /\ k j = Some e) ->
  forall fuel min max k i e,
    match max with Some h => (min <= h)%nat | None => True end ->
    rep_loop body fuel min max k i = Some e ->
    exists j, Matches s (Rep min max r) i j /\ k j = Some e.
Proof.
  intros Hbody. induction fuel as [|fuel IH]; intros min max k i e Hwf Hrun;
    [discriminate|].
  cbn [rep_loop] in Hrun.
  destruct (below 0 max) eqn:Hmax; cbn [negb] in Hrun.
  2: { destruct max as [[|h]|]; try discriminate.
       assert (min = O) as -> by lia.
       exists i. split; [constructor|exact Hrun]. }
  assert (Hwf' : match option_map Nat.pred max with
                 | Some h => (Nat.pred min <= h)%nat
                 | None => True
                 end) by (destruct max; cbn; [lia|exact I]).
  set (d := fun j => if (min =? 0)%nat && (j =? i)%nat then None
                     else rep_loop body fuel (Nat.pred min)
                            (option_map Nat.pred max) k j) in Hrun.
  assert (Hstep : forall e', body i d = Some e' ->
            exists j, Matches s (Rep min max r) i j /\ k j = Some e').
  { intros e' Hb. apply Hbody in Hb as (j & Hj & Hd). unfold d in Hd.
    destruct ((min =? 0)%nat && (j =? i)%nat); [discriminate|].
    apply IH in Hd as (j' & Hj' & Hk); [|exact Hwf'].
    exists j'. split; [|exact Hk].
    eapply M_RepMore; eassumption. }
  clearbody d.
  destruct (min =? 0)%nat eqn:Hmin; cbn [negb] in Hrun.
  - destruct (body i d) as [e'|].
    + apply Hstep. exact Hrun.
    + apply Nat.eqb_eq in Hmin. subst min.
      exists i. split; [constructor|exact Hrun].
  - apply Hstep. exact Hrun.
Qed.

Lemma rmatch_sound r :
  well_formed r = true ->
  forall i k e, rmatch r s i k = Some e ->
    exists j, Matches s r i j /\ k j = Some e.
Proof.
  induction r as [|p|r1 IH1 r2 IH2|r1 IH1 r2 IH2|lo hi r IH|]; intros Hwf i k e Hm;
    cbn [rmatch well_formed] in *.
  - exists i. split; [constructor|exact Hm].
  - destruct (char_at s i) as [c|] eqn:Hc; [|discriminate].
    destruct (p c) eqn:Hp; [|discriminate].
    exists (S i). split; [econstructor; eassumption|exact Hm].
  - apply andb_true_iff in Hwf as [Hwf1 Hwf2].
    apply IH1 in Hm as (j & Hj & Hk); [|exact Hwf1].
    apply IH2 in Hk as (j' & Hj' & Hk'); [|exact Hwf2].
    exists j'. split; [econstructor; eassumption|exact Hk'].
  - apply andb_true_iff in Hwf as [Hwf1 Hwf2].
    destruct (rmatch r1 s i k) as [e1|] eqn:H1.
    + injection Hm as ->. apply IH1 in H1 as (j & Hj & Hk); [|exact Hwf1].
      exists j. split; [apply M_AltL; exact Hj|exact Hk].
    + apply IH2 in Hm as (j & Hj & Hk); [|exact Hwf2].
      exists j. split; [apply M_AltR; exact Hj|exact Hk].
  - apply andb_true_iff in Hwf as [Hb Hwf].
    eapply rep_loop_sound;
      [|destruct hi; [apply Nat.leb_le; exact Hb|exact I]|exact Hm].
    + intros i' k' e' Hb'. exact (IH Hwf i' k' e' Hb').
  - destruct (at_word_boundary s i) eqn:Hb; [|discriminate].
    exists i. split; [constructor; exact Hb|exact Hm].
Qed.

(** *** The matcher finds a match whenever there is one *)

Lemma rep_loop_complete r body :
  (forall i j k, Matches s r i j -> (i <= length s)%nat -> k j <> None ->
     body i k <> None) ->
  forall R i j,
    Matches s R i j ->
    forall min max, R = Rep min max r ->
    forall max' fuel k,
      looser max max' ->
      (i <= length s)%nat ->
      (min + (length s - i) + 1 <= fuel)%nat ->
      k j <> None ->
      rep_loop body fuel min max' k i <> None.
Proof.
  intros Hbody.
  induction 1 as [i|p i c Hc Hp|r1 r2 i j k _ _ _ _
                 |r1 r2 i j _ _|r1 r2 i j _ _|hi r0 i
                 |lo hi r0 i j k Hhi Hfirst _ Hrest IHrest|i Hb];
    intros min max Heq max' fuel kont Hloose Hi Hfuel Hk; try discriminate.
  - (* no iteration *)
    injection Heq as <- -> ->.
    destruct fuel as [|fuel]; [lia|]. cbn [rep_loop].
    destruct (below 0 max'); cbn [negb]; [|exact Hk].
    cbn [Nat.eqb negb]. destruct (body i _); [discriminate|exact Hk].
  - (* one iteration, then the rest *)
    injection Heq as -> -> ->.
    pose proof (Matches_bounds _ _ _ Hfirst) as [Hij Hjs].
    specialize (Hjs Hi).
    destruct (Nat.eqb_spec min 0) as [->|Hmin].
    + destruct (Nat.eqb_spec j i) as [->|Hne].
      * (* the iteration consumed nothing: the rest alone is a match *)
        apply (IHrest O (option_map Nat.pred max) eq_refl max' fuel kont);
          [apply looser_pred_l; exact Hloose|exact Hi|exact Hfuel|exact Hk].
      * destruct fuel as [|fuel]; [lia|]. cbn [rep_loop].
        rewrite (looser_below _ _ _ Hloose Hhi). cbn [negb Nat.eqb andb].
        assert (Hb : body i (fun y =>
                   if (y =? i)%nat then None
                   else rep_loop body fuel (Nat.pred 0)
                          (option_map Nat.pred max') kont y) <> None).
        { apply (Hbody i j); [exact Hfirst|exact Hi|].
          destruct (Nat.eqb_spec j i) as [|_]; [contradiction|].
          apply (IHrest O (option_map Nat.pred max) eq_refl);
            [apply looser_pred; exact Hloose|exact Hjs|cbn; lia|exact Hk]. }
        destruct (body i _); [discriminate|contradiction].
    + destruct fuel as [|fuel]; [lia|]. cbn [rep_loop].
      rewrite (looser_below _ _ _ Hloose Hhi). cbn [negb].
      destruct (Nat.eqb_spec min 0) as [|_]; [contradiction|]. cbn [negb andb].
      apply (Hbody i j); [exact Hfirst|exact Hi|].
      apply (IHrest (Nat.pred min) (option_map Nat.pred max) eq_refl);
        [apply looser_pred; exact Hloose|exact Hjs|lia|exact Hk].
Qed.

Lemma rmatch_complete r :
  forall i j k, Matches s r i j -> (i <= length s)%nat -> k j <> None ->
    rmatch r s i k <> None.
Proof.
  induction r as [|p|r1 IH1 r2 IH2|r1 IH1 r2 IH2|lo hi r IH|];
    intros i j k Hm Hi Hk; cbn [rmatch].
  - inversion Hm; subst. exact Hk.
  - inversion Hm as [|p' i' c Hc Hp| | | | | |]; subst.
    rewrite Hc, Hp. exact Hk.
  - inversion Hm as [| |r1' r2' i' m k' H1 H2| | | | |]; subst.
    apply (IH1 i m); [exact H1|exact Hi|].
    apply (IH2 m j); [exact H2| |exact Hk].
    apply (Matches_bounds _ _ _ H1). exact Hi.
  - inversion Hm as [| | |r1' r2' i' j' H1|r1' r2' i' j' H2| | |]; subst.
    + pose proof (IH1 i j k H1 Hi Hk) as Hn.
      destruct (rmatch r1 s i k); [discriminate|contradiction].
    + destruct (rmatch r1 s i k); [discriminate|].
      apply (IH2 i j); assumption.
  - apply (rep_loop_complete r (rmatch r s)) with (R := Rep lo hi r) (j := j)
                                                  (max := hi);
      [|exact Hm|reflexivity|apply looser_refl|exact Hi|lia|exact Hk].
    intros i' j' k' Hm' Hi' Hk'. apply (IH i' j'); assumption.
  - inversion Hm as [| | | | | | |i' Hb]; subst. rewrite Hb. exact Hk.
Qed.

(** *** Searching *)

Lemma match_at_Matches r i e :
  well_formed r = true -> match_at r s i = Some e -> Matches s r i e.
Proof.
  unfold match_at. intros Hwf Hm.
  apply rmatch_sound in Hm as (j & Hj & Hk); [|exact Hwf].
  injection Hk as <-. exact Hj.
Qed.

Lemma Matches_match_at r i j :
  Matches s r i j -> (i <= length s)%nat -> match_at r s i <> None.
Proof.
  intros Hm Hi. unfold match_at. apply (rmatch_complete r i j); [exact Hm|exact Hi|].
  discriminate.
Qed.

Lemma match_at_bounds r i e :
  well_formed r = true ->
  match_at r s i = Some e -> (i <= length s)%nat ->
  (i + minlen r <= e)%nat /\ (e <= length s)%nat.
Proof.
  intros Hwf Hm Hi. apply match_at_Matches in Hm; [|exact Hwf].
  apply Matches_bounds in Hm as [Hlo Hhi]. split; [exact Hlo|apply Hhi, Hi].
Qed.

(** [search] returns the leftmost start at which the pattern matches. *)
Lemma search_Some r fuel i b e :
  search r s fuel i = Some (b, e) ->
  (i <= b < i + fuel)%nat /\ match_at r s b = Some e
  /\ forall j, (i <= j < b)%nat -> match_at r s j = None.
Proof.
  revert i. induction fuel as [|fuel IH]; intros i Hs; [discriminate|].
  cbn [search] in Hs.
  destruct (match_at r s i) as [e'|] eqn:Hm.
  - injection Hs as <- <-. repeat split; [lia|lia|exact Hm|]. intros j Hj. lia.
  - apply IH in Hs as (Hb & Hme & Hleft).
    repeat split; [lia|lia|exact Hme|].
    intros j Hj. destruct (Nat.eq_dec j i) as [->|Hne]; [exact Hm|].
    apply Hleft. lia.
Qed.

Lemma search_None r fuel i :
  search r s fuel i = None ->
  forall j, (i <= j < i + fuel)%nat -> match_at r s j = None.
Proof.
  revert i. induction fuel as [|fuel IH]; intros i Hs j Hj; [lia|].
  cbn [search] in Hs.
  destruct (match_at r s i) as [e'|] eqn:Hm; [discriminate|].
  destruct (Nat.eq_dec j i) as [->|Hne]; [exact Hm|].
  apply (IH (S i) Hs). lia.
Qed.

(** The search succeeds exactly when the pattern matches somewhere. *)
Lemma search_occurs r :
  well_formed r = true ->
  (search r s (S (length s)) O <> None <-> occurs r s).
Proof.
  intros Hwf. split.
  - destruct (search r s (S (length s)) O) as [[b e]|] eqn:Hs; [|congruence].
    intros _. apply search_Some in Hs as (Hb & Hm & _).
    exists b, e. split; [lia|]. apply match_at_Matches; assumption.
  - intros (i & e & Hi & Hm) Hs.
    apply (Matches_match_at r i e Hm Hi).
    apply (search_None _ _ _ Hs). lia.
Qed.

End RegexFacts.

(** ** PII detection *)

Section DetectPII.

Import PII.

Variable text : jsstring.

(** The loop over [exec] ends: every match moves [lastIndex] forward. *)
Lemma execAll_terminates r :
  well_formed r = true ->
  (1 <= minlen r)%nat ->
  forall fuel lastIndex,
    (lastIndex <= length text)%nat ->
    (length text + 1 <= fuel + lastIndex)%nat ->
    exists ms, execAll fuel r text lastIndex = Some ms.
Proof.
  intros Hwf Hmin. induction fuel as [|fuel IH]; intros li Hli Hfuel; [lia|].
  cbn [execAll]. unfold exec.
  destruct (search r text (S (length text) - li) li) as [[b e]|] eqn:Hs.
  - apply search_Some in Hs as (Hb & Hm & _).
    apply match_at_bounds in Hm as (He1 & He2); [|exact Hwf|lia].
    destruct (IH e) as (ms & Hms); [exact He2|lia|].
    rewrite Hms. eexists. reflexivity.
  - eexists. reflexivity.
Qed.

(** A failed [exec] leaves [lastIndex] at 0. *)
Lemma exec_resets r lastIndex :
  fst (exec r text lastIndex) = None -> snd (exec r text lastIndex) = O.
Proof.
  unfold exec. destruct (search r text _ lastIndex) as [[b e]|]; [discriminate|].
  reflexivity.
Qed.

Lemma matches_of_nonempty r :
  well_formed r = true ->
  (1 <= minlen r)%nat -> (matches_of r text <> [] <-> occurs r text).
Proof.
  intros Hwf Hmin. rewrite <- (search_occurs text r Hwf). unfold matches_of.
  cbn [execAll]. unfold exec. rewrite Nat.sub_0_r.
  destruct (search r text (S (length text)) O) as [[b e]|] eqn:Hs.
  - apply search_Some in Hs as (Hb & Hm & _).
    apply match_at_bounds in Hm as (He1 & He2); [|exact Hwf|lia].
    destruct (execAll_terminates r Hwf Hmin (length text) e) as (ms & Hms);
      [exact He2|lia|].
    rewrite Hms. cbn. split; congruence.
  - split; congruence.
Qed.

Lemma list_sum_cons (x : nat) (l : list nat) :
  list_sum (x :: l) = (x + list_sum l)%nat.
Proof. reflexivity. Qed.

Lemma record_match_fst type ms acc :
  length (fst (fold_left (record_match type text) ms acc))
  = (length (fst acc) + length ms)%nat.
Proof.
  revert acc. induction ms as [|m ms IH]; intros acc; cbn [fold_left].
  - cbn. lia.
  - rewrite IH. unfold record_match. cbn [fst length].
    rewrite length_app. cbn. lia.
Qed.

(** The pass over the patterns ends and records one location per
    match. *)
Lemma scan_spec patterns :
  Forall (fun p => well_formed (snd p) = true /\ (1 <= minlen (snd p))%nat)
    patterns ->
  forall acc, exists res,
    scan (S (length text)) patterns text acc = Some res
    /\ length (fst res)
       = (length (fst acc)
          + list_sum (map (fun p => length (matches_of (snd p) text)) patterns))%nat.
Proof.
  induction 1 as [|[type r] patterns [Hwf Hmin] _ IH]; intros acc.
  - exists acc. cbn. split; [reflexivity|lia].
  - cbn [scan]. cbn [snd] in Hwf, Hmin.
    destruct (execAll_terminates r Hwf Hmin (S (length text)) O) as (ms & Hms);
      [lia|lia|].
    rewrite Hms.
    destruct (IH (fold_left (record_match type text) ms acc)) as (res & Hres & Hlen).
    exists res. split; [exact Hres|].
    rewrite Hlen, record_match_fst. cbn [map snd]. rewrite list_sum_cons.
    unfold matches_of at 2. rewrite Hms. lia.
Qed.

(** The seven patterns are well formed and none matches the empty
    string. *)
Lemma PII_PATTERNS_consume :
  Forall (fun p => well_formed (snd p) = true /\ (1 <= minlen (snd p))%nat)
    PII_PATTERNS.
Proof. repeat constructor. Qed.

Lemma matchCount_pos :
  (0 < matchCount text)%nat
  <-> exists name r, In (name, r) PII_PATTERNS /\ occurs r text.
Proof.
  unfold matchCount.
  pose proof PII_PATTERNS_consume as Hall.
  induction Hall as [|[type r] patterns [Hwf Hmin] _ IH];
    cbn [map snd]; [|rewrite list_sum_cons].
  - split; [cbn; lia|]. intros (? & ? & [] & _).
  - cbn [snd] in Hwf, Hmin.
    pose proof (matches_of_nonempty r Hwf Hmin) as Hne.
    split.
    + intros Hpos.
      destruct (matches_of r text) as [|m ms] eqn:Hms.
      * cbn in Hpos. apply IH in Hpos as (name & r' & Hin & Hocc).
        exists name, r'. split; [right; exact Hin|exact Hocc].
      * exists type, r. split; [left; reflexivity|]. apply Hne. discriminate.
    + intros (name & r' & [Heq|Hin] & Hocc).
      * injection Heq as <- <-. apply Hne in Hocc.
        destruct (matches_of r text); [congruence|]. cbn. lia.
      * assert (0 < list_sum
                       (map (fun p => length (matches_of (snd p) text)) patterns))%nat
          by (apply IH; eauto).
        lia.
Qed.

Lemma detectPII_result :
  exists d, detectPII text = Some d
    /\ length (locations d) = matchCount text
    /\ hasPII d = (0 <? matchCount text)%nat
    /\ confidence d = (if hasPII d then score (matchCount text) else 0).
Proof.
  unfold detectPII, detectPII_fuel.
  destruct (scan_spec PII_PATTERNS PII_PATTERNS_consume ([], []))
    as ([locs tys] & Hscan & Hlen).
  rewrite Hscan. cbn [fst length] in Hlen. rewrite Nat.add_0_l in Hlen.
  fold (matchCount text) in Hlen.
  eexists. split; [reflexivity|]. cbn [locations hasPII confidence].
  rewrite Hlen. repeat split; reflexivity.
Qed.

(** The loop over [exec] finds the matches of [Scan]. *)
Lemma execAll_Scan r :
  forall fuel lastIndex ms,
    execAll fuel r text lastIndex = Some ms -> Scan r text lastIndex ms.
Proof.
  induction fuel as [|fuel IH]; intros li ms; [discriminate|].
  cbn [execAll]. unfold exec.
  destruct (search r text (S (length text) - li) li) as [[b e]|] eqn:Hs.
  - destruct (execAll fuel r text e) as [rest|] eqn:Hrest; [|discriminate].
    intros [= <-].
    apply search_Some in Hs as (Hb & Hm & Hnone).
    apply Scan_match; [lia| |exact Hm|apply IH; exact Hrest].
    intros j e' Hj Hmatch.
    apply (Matches_match_at text r j e' Hmatch); [lia|].
    apply Hnone. exact Hj.
  - intros [= <-]. apply Scan_end. intros j e Hj Hmatch.
    apply (Matches_match_at text r j e Hmatch); [lia|].
    apply (search_None text r _ _ Hs). lia.
Qed.

(** The matches of [Scan] are determined. *)
Lemma Scan_unique r :
  well_formed r = true ->
  forall from ms, Scan r text from ms ->
  forall ms', Scan r text from ms' -> ms = ms'.
Proof.
  intros Hwf from ms Hms.
  induction Hms as [from Hnone|from b e rest Hb Hbefore Hm _ IH];
    intros ms' Hms'.
  - destruct Hms' as [|from b e rest Hb _ Hm _]; [reflexivity|].
    exfalso. apply (Hnone b e); [lia|].
    apply match_at_Matches; assumption.
  - destruct Hms' as [from Hnone|from b' e' rest' Hb' Hbefore' Hm' Hrest'].
    + exfalso. apply (Hnone b e); [lia|].
      apply match_at_Matches; assumption.
    + assert (b = b').
      { destruct (Nat.lt_trichotomy b b') as [Hlt|[Heq|Hgt]]; [|exact Heq|].
        - exfalso. apply (Hbefore' b e); [lia|].
          apply match_at_Matches; assumption.
        - exfalso. apply (Hbefore b' e'); [lia|].
          apply match_at_Matches; assumption. }
      subst b'. rewrite Hm in Hm'. injection Hm' as <-.
      f_equal. apply IH. exact Hrest'.
Qed.

Lemma record_match_locations type ms acc :
  fst (fold_left (record_match type text) ms acc)
  = fst acc
    ++ map (fun m => {| loc_type := type; loc_start := fst m; loc_end := snd m;
                        loc_value := substring text (fst m) (snd m) |}) ms.
Proof.
  revert acc. induction ms as [|m ms IH]; intros acc; cbn [fold_left map].
  - rewrite app_nil_r. reflexivity.
  - rewrite IH. unfold record_match. cbn [fst]. rewrite <- app_assoc. reflexivity.
Qed.

(** The pass over the patterns reports the matches of [Scan], pattern
    after pattern. *)
Lemma scan_located patterns :
  Forall (fun p => well_formed (snd p) = true /\ (1 <= minlen (snd p))%nat)
    patterns ->
  forall acc, exists res found,
    scan (S (length text)) patterns text acc = Some res
    /\ Forall2 (fun p ms => Scan (snd p) text 0 ms) patterns found
    /\ fst res = fst acc ++ located text patterns found.
Proof.
  induction 1 as [|[type r] patterns [Hwf Hmin] _ IH]; intros acc.
  - exists acc, []. split; [reflexivity|]. split; [constructor|].
    cbn. rewrite app_nil_r. reflexivity.
  - cbn [scan]. cbn [snd] in Hwf, Hmin.
    destruct (execAll_terminates r Hwf Hmin (S (length text)) O) as (ms & Hms);
      [lia|lia|].
    rewrite Hms.
    destruct (IH (fold_left (record_match type text) ms acc))
      as (res & found & Hres & Hfound & Hlocs).
    exists res, (ms :: found). split; [exact Hres|]. split.
    + constructor; [|exact Hfound]. cbn [snd]. apply execAll_Scan with (1 := Hms).
    + rewrite Hlocs, record_match_locations. unfold located.
      cbn [zip_with concat fst]. rewrite <- app_assoc. reflexivity.
Qed.

Lemma detectPII_locations :
  exists d found, detectPII text = Some d
    /\ Forall2 (fun p ms => Scan (snd p) text 0 ms) PII_PATTERNS found
    /\ locations d = located text PII_PATTERNS found.
Proof.
  unfold detectPII, detectPII_fuel.
  destruct (scan_located PII_PATTERNS PII_PATTERNS_consume ([], []))
    as ([locs tys] & found & Hscan & Hfound & Hlocs).
  rewrite Hscan. eexists. exists found. split; [reflexivity|].
  split; [exact Hfound|exact Hlocs].
Qed.

End DetectPII.

(** From four locations on the product is at least 1, so that the
    confidence is 1. *)
Lemma score_values n : PII.score n = PII.confidence_of n.
Proof.
  destruct n as [|[|[|[|n]]]]; [vm_compute; reflexivity ..|].
  unfold PII.score, PII.confidence_of.
  change (JsNumber.literal (3 # 10))
    with (Finite (5404319552844595 # 18014398509481984)).
  unfold JsNumber.mul, Int at 1.
  pose proof (round64_lower
                (inject_Z (Z.of_nat (S (S (S (S n)))))
                 * (5404319552844595 # 18014398509481984))) as Hr.
  assert (Hn : (4 # 1 <= inject_Z (Z.of_nat (S (S (S (S n))))))%Q).
  { change (4 # 1)%Q with (inject_Z 4). rewrite <- Zle_Qle. lia. }
  destruct (JsNumber.round64 _) as [y| |neg].
  - specialize (Hr ltac:(lra)).
    unfold JsNumber.Math_min, JsNumber.leb, Int, inject_Z.
    destruct (Qle_bool y (1 # 1)) eqn:E; [|reflexivity].
    exfalso. Qbool. lra.
  - exfalso. apply Hr. lra.
  - rewrite Hr by lra. reflexivity.
Qed.

Lemma Forall2_Scan_unique text (patterns : list (string * regex)) :
  Forall (fun p => well_formed (snd p) = true /\ (1 <= minlen (snd p))%nat)
    patterns ->
  forall found found',
    Forall2 (fun p ms => PII.Scan (snd p) text 0 ms) patterns found ->
    Forall2 (fun p ms => PII.Scan (snd p) text 0 ms) patterns found' ->
    found = found'.
Proof.
  induction 1 as [|p patterns [Hwf _] _ IH]; intros found found' H1 H2.
  - inversion H1; inversion H2; reflexivity.
  - inversion H1 as [|? ms ? rest Hms Hrest]; subst.
    inversion H2 as [|? ms' ? rest' Hms' Hrest']; subst.
    f_equal.
    + apply (Scan_unique text (snd p) Hwf 0%nat ms Hms ms' Hms').
    + apply IH; assumption.
Qed.

(** C9. [detectPII] returns, and reports [hasPII] exactly when one of
    the fixed patterns matches somewhere in the text (in the sense of
    [Matches]). Its locations are the matches of the patterns in
    turn, each searched from the end of the one before to the end of
    the text, and no other list of matches fits that description. Its
    confidence is [Math.min(n * 0.3, 1)] for the number [n] of
    locations, as binary64 arithmetic gives it: 0.3, 0.6,
    0.8999999999999999 and, from four locations on, 1; it is 0 without
    a location. On ["contact me at test@example.com"] it reports
    [hasPII] with [email] among the categories. *)
Theorem detectPII_spec :
  (forall text, exists d,
      PII.detectPII text = Some d
      /\ (PII.hasPII d = true
          <-> exists name r, In (name, r) PII.PII_PATTERNS /\ occurs r text)
      /\ (PII.hasPII d = true <-> (0 < length (PII.locations d))%nat)
      /\ (exists found,
            Forall2 (fun p ms => PII.Scan (snd p) text 0 ms)
              PII.PII_PATTERNS found
            /\ PII.locations d = PII.located text PII.PII_PATTERNS found
            /\ forall found',
                 Forall2 (fun p ms => PII.Scan (snd p) text 0 ms)
                   PII.PII_PATTERNS found' ->
                 found' = found)
      /\ PII.confidence d = PII.confidence_of (length (PII.locations d)))
  /\ (PII.confidence_of 0 = 0
      /\ PII.confidence_of 1 = Finite (5404319552844595 # 18014398509481984)
      /\ PII.confidence_of 2 = Finite (5404319552844595 # 9007199254740992)
      /\ PII.confidence_of 3 = Finite (2026619832316723 # 2251799813685248)
      /\ forall n, PII.confidence_of (4 + n) = 1)
  /\ JsNumber.toString (Finite (5404319552844595 # 18014398509481984))
     = js "0.3"
  /\ JsNumber.toString (Finite (5404319552844595 # 9007199254740992))
     = js "0.6"
  /\ JsNumber.toString (Finite (2026619832316723 # 2251799813685248))
     = js "0.8999999999999999"
  /\ (exists d, PII.detectPII (js "contact me at test@example.com") = Some d
        /\ PII.hasPII d = true /\ In PII.Email (PII.types d)).
Proof.
  split; [|split; [|split; [|split; [|split]]]].
  - intros text.
    destruct (detectPII_result text) as (d & Hd & Hlen & Hhas & Hconf).
    destruct (detectPII_locations text) as (d' & found & Hd' & Hfound & Hlocs).
    rewrite Hd in Hd'. injection Hd' as <-.
    exists d. split; [exact Hd|]. split; [|split; [|split]].
    + rewrite Hhas, Nat.ltb_lt. apply matchCount_pos.
    + rewrite Hhas, Hlen, Nat.ltb_lt. reflexivity.
    + exists found. split; [exact Hfound|]. split; [exact Hlocs|].
      intros found' Hfound'.
      apply (Forall2_Scan_unique text PII.PII_PATTERNS PII_PATTERNS_consume);
        assumption.
    + rewrite Hconf, Hhas, Hlen, score_values.
      destruct (PII.matchCount text); reflexivity.
  - repeat split.
  - vm_compute. reflexivity.
  - vm_compute. reflexivity.
  - vm_compute. reflexivity.
  - eexists. split; [vm_compute; reflexivity|]. split; [reflexivity|].
    left. reflexivity.
Qed.

(** ** The wizard state machine *)

Section Wizard.

Import useWizardState.

Lemma getLayerFromStep_layers (step : number) :
  ((1 <= step <= 5)%num -> getLayerFromStep step = 1)
  /\ ((6 <= step <= 10)%num -> getLayerFromStep step = 2)
  /\ ((11 <= step <= 15)%num -> getLayerFromStep step = 3).
Proof.
  unfold getLayerFromStep, JsNumber.leb, Int, inject_Z.
  destruct step as [q| |[|]]; repeat split; intros [Hlo Hhi];
    try discriminate;
    destruct (Qle_bool q (5 # 1)) eqn:H5, (Qle_bool q (10 # 1)) eqn:H10;
    try reflexivity; exfalso; Qbool; lra.
Qed.

Lemma getLayerFromStep_Int (n : Z) :
  getLayerFromStep n = if n <=? 5 then 1 else if n <=? 10 then 2 else 3.
Proof. unfold getLayerFromStep. rewrite !leb_Int. reflexivity. Qed.

(** The validator accepts exactly the pairs of a layer and a step in
    the range of that layer. *)
Lemma validateLayerProgression_true step layer :
  ConstitutionalValidator.validateLayerProgression step layer = Ok true
  <-> (layer = 1 /\ (1 <= step <= 5)%num)
      \/ (layer = 2 /\ (6 <= step <= 10)%num)
      \/ (layer = 3 /\ (11 <= step <= 15)%num).
Proof.
  unfold ConstitutionalValidator.validateLayerProgression,
    ConstitutionalValidator.layerRanges.
  destruct (Z.eqb_spec layer 1) as [->|H1];
    [|destruct (Z.eqb_spec layer 2) as [->|H2];
      [|destruct (Z.eqb_spec layer 3) as [->|H3]]].
  - split.
    + intros [= Hv]. apply andb_true_iff in Hv. left. split; [reflexivity|exact Hv].
    + intros [[_ [Ha Hb]]|[[Habs _]|[Habs _]]]; try discriminate Habs.
      rewrite Ha, Hb. reflexivity.
  - split.
    + intros [= Hv]. apply andb_true_iff in Hv.
      right; left. split; [reflexivity|exact Hv].
    + intros [[Habs _]|[[_ [Ha Hb]]|[Habs _]]]; try discriminate Habs.
      rewrite Ha, Hb. reflexivity.
  - split.
    + intros [= Hv]. apply andb_true_iff in Hv.
      right; right. split; [reflexivity|exact Hv].
    + intros [[Habs _]|[[Habs _]|[_ [Ha Hb]]]]; try discriminate Habs.
      rewrite Ha, Hb. reflexivity.
  - split; [discriminate|]. intros [[Habs _]|[[Habs _]|[Habs _]]]; congruence.
Qed.

(** A step in the range of its layer has the layer derived from it and
    lies in [1,15]. *)
Lemma in_layer_range_derived s : in_layer_range s -> layer_derived s.
Proof.
  unfold in_layer_range, layer_derived.
  pose proof (getLayerFromStep_layers (currentStep s)) as (L1 & L2 & L3).
  intros [[Hl Hr]|[[Hl Hr]|[Hl Hr]]];
    (split; [rewrite Hl; symmetry; auto|]);
    destruct Hr as [Hlo Hhi];
    unfold JsNumber.leb, Int, inject_Z in *;
    destruct (currentStep s) as [q| |[|]]; try discriminate;
    Qbool; split; apply Qle_bool_iff; lra.
Qed.

Lemma consistent_in_layer_range s : consistent s -> in_layer_range s.
Proof.
  unfold consistent, in_layer_range. intros [(n & Hn & Hr) Hl].
  rewrite Hl, Hn, getLayerFromStep_Int.
  destruct (Z.leb_spec n 5);
    [left|destruct (Z.leb_spec n 10); [right; left|right; right]];
    (split; [reflexivity|]); rewrite !leb_Int; split; apply Z.leb_le; lia.
Qed.

Lemma compliance_in_layer_range o s u :
  validateConstitutionalCompliance o s = Ok u -> in_layer_range s.
Proof.
  unfold validateConstitutionalCompliance, in_layer_range.
  destruct (ConstitutionalValidator.validateLayerProgression _ _) as [[|]|] eqn:Hv;
    try discriminate.
  intros _. apply validateLayerProgression_true in Hv. exact Hv.
Qed.

Lemma in_layer_range_compliance o s :
  compliant o -> in_layer_range s -> validateConstitutionalCompliance o s = Ok tt.
Proof.
  intros Ho Hs. unfold validateConstitutionalCompliance.
  apply validateLayerProgression_true in Hs. rewrite Hs.
  unfold ConstitutionalValidator.validateAutoSaveInterval.
  destruct Ho as [-> | ->]; [reflexivity|].
  rewrite Z.eqb_refl, andb_false_r. reflexivity.
Qed.

Lemma consistent_compliance o s :
  compliant o -> consistent s -> validateConstitutionalCompliance o s = Ok tt.
Proof.
  intros Ho Hs. apply in_layer_range_compliance; [exact Ho|].
  apply consistent_in_layer_range, Hs.
Qed.

Lemma compliance_derived o s u :
  validateConstitutionalCompliance o s = Ok u -> layer_derived s.
Proof.
  intros Hc. eapply in_layer_range_derived, compliance_in_layer_range, Hc.
Qed.

Context `{Platform}.
Variable o : UseWizardStateOptions.

Lemma setAnswer_derived now questionId v h h' :
  setAnswer o now questionId v h = Ok h' -> layer_derived (wizardState h').
Proof.
  unfold setAnswer.
  destruct (validateConstitutionalCompliance o _) as [u|] eqn:Hc; [|discriminate].
  apply compliance_derived in Hc.
  destruct (find _ _); intros Heq; injection Heq as <-; exact Hc.
Qed.

Lemma nextStep_derived now h b h' :
  layer_derived (wizardState h) ->
  nextStep o now h = Ok (b, h') -> layer_derived (wizardState h').
Proof.
  intros Hh. unfold nextStep.
  destruct (currentQuestion o _) as [q|].
  2: { intros Heq; injection Heq as <- <-; exact Hh. }
  destruct (0 <? length _)%nat.
  { intros Heq; injection Heq as <- <-; exact Hh. }
  destruct (JsNumber.leb _ _).
  { intros Heq; injection Heq as <- <-; exact Hh. }
  destruct (validateConstitutionalCompliance o _) as [u|] eqn:Hc; [|discriminate].
  apply compliance_derived in Hc.
  intros Heq; injection Heq as <- <-; exact Hc.
Qed.

(** [previousStep] runs no check: below a step of at most 15 and above
    1 it reaches a step between 0 and 14.5. *)
Lemma previousStep_derived now h :
  layer_derived (wizardState h) ->
  layer_derived (wizardState (snd (previousStep now h))).
Proof.
  intros Hh. unfold previousStep.
  destruct (JsNumber.leb (currentStep (wizardState h)) 1) eqn:Hle; [exact Hh|].
  destruct Hh as [_ [Hlo Hhi]]. split; [reflexivity|].
  cbn [snd set_wizardState wizardState moved currentStep].
  unfold JsNumber.sub, JsNumber.add, JsNumber.opp, JsNumber.leb, Int, inject_Z in *.
  destruct (currentStep (wizardState h)) as [q| |[|]]; try discriminate.
  Qbool.
  destruct (round64_upper (q + - (1 # 1))) as (y & -> & Hy0 & Hy);
    [lra|lra|].
  split; apply Qle_bool_iff; lra.
Qed.

Lemma goToStep_derived now step h b h' :
  layer_derived (wizardState h) ->
  goToStep o now step h = Ok (b, h') -> layer_derived (wizardState h').
Proof.
  intros Hh. unfold goToStep.
  destruct (_ || _).
  { intros Heq; injection Heq as <- <-; exact Hh. }
  destruct (validateConstitutionalCompliance o _) as [u|] eqn:Hc; [|discriminate].
  apply compliance_derived in Hc.
  intros Heq; injection Heq as <- <-; exact Hc.
Qed.

Lemma saveDraft_keeps_state now h st :
  wizardState (snd (fst (saveDraft o now h st))) = wizardState h
  \/ wizardState (snd (fst (saveDraft o now h st)))
     = wizardState (mark_saved now h).
Proof.
  unfold saveDraft.
  destruct (enableDrafts o); [|left; reflexivity]. cbn [negb].
  destruct (DraftStorageManager.saveDraft _ _ _ _) as [[[|]|e] st'];
    cbn; auto.
Qed.

Lemma saveDraft_derived now h st :
  layer_derived (wizardState h) ->
  layer_derived (wizardState (snd (fst (saveDraft o now h st)))).
Proof.
  intros Hh. destruct (saveDraft_keeps_state now h st) as [-> | ->]; exact Hh.
Qed.

Lemma autoSaveFire_derived now h st :
  layer_derived (wizardState h) ->
  layer_derived (wizardState (fst (autoSaveFire o now h st))).
Proof.
  intros Hh. unfold autoSaveFire.
  destruct (negb (enableDrafts o) || negb (autoSave o)); [exact Hh|].
  destruct (DraftStorageManager.saveDraft _ _ _ _) as [[[|]|e] st']; exact Hh.
Qed.

Lemma loadDraft_derived now wizardId h st :
  layer_derived (wizardState h) ->
  layer_derived (wizardState (snd (fst (loadDraft o now wizardId h st)))).
Proof.
  intros Hh. unfold loadDraft.
  destruct (enableDrafts o); [|exact Hh]. cbn [negb].
  destruct (DraftStorageManager.loadDraft _ _ _) as [[[draftState|]|e] st'];
    try exact Hh.
  destruct (validateConstitutionalCompliance o draftState) as [u|] eqn:Hc;
    [|exact Hh].
  apply compliance_derived in Hc. exact Hc.
Qed.

Lemma fresh_consistent newId now : consistent (fresh_state newId now).
Proof. split; [exists 1; split; [reflexivity|lia]|reflexivity]. Qed.

Lemma fresh_derived newId now : layer_derived (fresh_state newId now).
Proof.
  apply in_layer_range_derived, consistent_in_layer_range, fresh_consistent.
Qed.

Lemma complete_derived now h :
  layer_derived (wizardState h) ->
  layer_derived (wizardState (snd (complete o now h))).
Proof.
  intros Hh. unfold complete. destruct (0 <? size _)%nat; exact Hh.
Qed.

Lemma checkForDraft_derived now h st :
  layer_derived (wizardState h) ->
  layer_derived (wizardState (fst (checkForDraft o now h st))).
Proof.
  intros Hh. unfold checkForDraft. destruct (negb (enableDrafts o)); [exact Hh|].
  destruct (DraftStorageManager.hasDraft _ _ _) as [[b|e] st']; exact Hh.
Qed.

Lemma perform_derived a w w' :
  layer_derived (wizardState (fst w)) -> perform o a w = Ok w' ->
  layer_derived (wizardState (fst w')).
Proof.
  destruct w as [h st]. cbn [fst]. intros Hh.
  destruct a as [now questionId v|now|now|now stp|now|now wizardId|newId now
                |now|now|now|st2]; cbn [perform].
  - destruct (setAnswer o now questionId v h) as [h'|] eqn:Hs; [|discriminate].
    intros Heq; injection Heq as <-. eapply setAnswer_derived, Hs.
  - destruct (nextStep o now h) as [[b h']|] eqn:Hs; [|discriminate].
    intros Heq; injection Heq as <-. eapply nextStep_derived; eassumption.
  - intros Heq; injection Heq as <-. apply previousStep_derived, Hh.
  - destruct (goToStep o now stp h) as [[b h']|] eqn:Hs; [|discriminate].
    intros Heq; injection Heq as <-. eapply goToStep_derived; eassumption.
  - pose proof (saveDraft_derived now h st Hh) as Hs.
    destruct (saveDraft o now h st) as [[b h'] st'].
    intros Heq; injection Heq as <-. exact Hs.
  - pose proof (loadDraft_derived now wizardId h st Hh) as Hs.
    destruct (loadDraft o now wizardId h st) as [[b h'] st'].
    intros Heq; injection Heq as <-. exact Hs.
  - intros Heq; injection Heq as <-. apply fresh_derived.
  - intros Heq; injection Heq as <-. apply complete_derived, Hh.
  - pose proof (autoSaveFire_derived now h st Hh) as Hs.
    destruct (autoSaveFire o now h st) as [h' st'].
    intros Heq; injection Heq as <-. exact Hs.
  - pose proof (checkForDraft_derived now h st Hh) as Hs.
    destruct (checkForDraft o now h st) as [h' st'].
    intros Heq; injection Heq as <-. exact Hs.
  - intros Heq; injection Heq as <-. exact Hh.
Qed.

(** Every world of a run holds a step between 0 and 15 with the layer
    derived from it. *)
Lemma reachable_derived w :
  reachable o w -> layer_derived (wizardState (fst w)).
Proof.
  induction 1 as [newId now st|w a w' _ IH Hstep].
  - apply fresh_derived.
  - eapply perform_derived; eassumption.
Qed.

End Wizard.

(** C1. The derived layer is 1 on the steps from 1 to 5, 2 on those
    from 6 to 10 and 3 on those from 11 to 15, integers or not; the
    validator accepts a (step, layer) pair exactly when the step lies
    in the range of the layer; and in every world reached by the
    wizard's actions the layer is the one derived from the step. *)
Theorem layer_follows_step `{Platform} (o : UseWizardStateOptions)
    (w : World) (step : number) (layer : Z) :
  reachable o w ->
  (((1 <= step <= 5)%num -> useWizardState.getLayerFromStep step = 1)
   /\ ((6 <= step <= 10)%num -> useWizardState.getLayerFromStep step = 2)
   /\ ((11 <= step <= 15)%num -> useWizardState.getLayerFromStep step = 3))
  /\ (ConstitutionalValidator.validateLayerProgression step layer = Ok true
      <-> (layer = 1 /\ (1 <= step <= 5)%num)
          \/ (layer = 2 /\ (6 <= step <= 10)%num)
          \/ (layer = 3 /\ (11 <= step <= 15)%num))
  /\ currentLayer (wizardState (fst w))
     = useWizardState.getLayerFromStep (currentStep (wizardState (fst w))).
Proof.
  intros Hw. apply reachable_derived in Hw.
  split; [apply getLayerFromStep_layers|].
  split; [apply validateLayerProgression_true|].
  apply Hw.
Qed.

Lemma layer_follows_step_witness :
  @reachable Sample.toy_platform Sample.opts Examples.below_step_1
  /\ currentStep (wizardState (fst Examples.below_step_1)) = Finite (1 # 2)
  /\ currentLayer (wizardState (fst Examples.below_step_1))
     = useWizardState.getLayerFromStep
         (currentStep (wizardState (fst Examples.below_step_1))).
Proof.
  assert (Hr : @reachable Sample.toy_platform Sample.opts Examples.below_step_1).
  { apply (@reachable_step Sample.toy_platform Sample.opts
             (fst Examples.at_step_one_and_a_half, []) (PreviousStep 20));
      [|vm_compute; reflexivity].
    apply (@reachable_step Sample.toy_platform Sample.opts
             (Sample.first_render, []) (GoToStep 10 (Finite (3 # 2))));
      [apply reachable_init|]. vm_compute. reflexivity. }
  split; [exact Hr|]. split; [vm_compute; reflexivity|].
  exact (proj2 (proj2
           (@layer_follows_step Sample.toy_platform Sample.opts
              Examples.below_step_1 7 2 Hr))).
Defined.

(** A required question without a value yields the REQUIRED error and
    nothing else. *)
Lemma validateAnswer_required_missing q v all :
  required q = true -> AnswerValidator.validateRequired v = false ->
  QuestionValidator.validateAnswer q v all
  = [QuestionValidator.err q "validation.required" "REQUIRED"].
Proof.
  intros Hr Hv. unfold QuestionValidator.validateAnswer.
  rewrite Hr, Hv. reflexivity.
Qed.

(** C2. When the question of the current step has a validation error
    (as a required question without an answer has), [nextStep] returns
    [false] without throwing, leaves the wizard state (step, layer,
    answers) as it was and stores the errors of the field in the
    validation-error map. *)
Theorem nextStep_refuses (o : UseWizardStateOptions) (now : Z) (h : Hook)
    (q : QuestionDefinition) :
  useWizardState.currentQuestion o (wizardState h) = Some q ->
  (QuestionValidator.validateAnswer q (answers (wizardState h) !! id q)
     (Some (answers (wizardState h))) <> []
   \/ (required q = true
       /\ AnswerValidator.validateRequired (answers (wizardState h) !! id q)
          = false)) ->
  exists errors h',
    errors = QuestionValidator.validateAnswer q
               (answers (wizardState h) !! id q) (Some (answers (wizardState h)))
    /\ errors <> []
    /\ useWizardState.nextStep o now h = Ok (false, h')
    /\ wizardState h' = wizardState h
    /\ validationErrors h' !! id q = Some errors
    /\ (forall k, k <> id q -> validationErrors h' !! k = validationErrors h !! k).
Proof.
  intros Hq Hblock.
  set (errors := QuestionValidator.validateAnswer q _ _) in *.
  assert (Hne : errors <> []).
  { destruct Hblock as [Hne|[Hr Hv]]; [exact Hne|].
    subst errors. rewrite (validateAnswer_required_missing _ _ _ Hr Hv).
    discriminate. }
  exists errors,
    (useWizardState.set_validationErrors h (<[id q := errors]> (validationErrors h))).
  split; [reflexivity|]. split; [exact Hne|].
  split.
  - unfold useWizardState.nextStep. rewrite Hq. fold errors.
    destruct errors as [|e es]; [congruence|]. reflexivity.
  - split; [reflexivity|]. cbn [validationErrors useWizardState.set_validationErrors].
    split; [apply lookup_insert_eq|].
    intros k Hk. apply lookup_insert_ne. congruence.
Qed.

Lemma nextStep_refuses_witness :
  useWizardState.currentQuestion Sample.opts (wizardState Sample.first_render)
  = Some Sample.purpose_question
  /\ required Sample.purpose_question = true
  /\ AnswerValidator.validateRequired
       (answers (wizardState Sample.first_render) !! id Sample.purpose_question)
     = false
  /\ exists h',
       useWizardState.nextStep Sample.opts 10 Sample.first_render = Ok (false, h')
       /\ currentStep (wizardState h') = 1.
Proof.
  assert (Hq : useWizardState.currentQuestion Sample.opts
                 (wizardState Sample.first_render)
               = Some Sample.purpose_question) by reflexivity.
  assert (Hr : required Sample.purpose_question = true) by reflexivity.
  assert (Hv : AnswerValidator.validateRequired
                 (answers (wizardState Sample.first_render)
                    !! id Sample.purpose_question) = false) by reflexivity.
  split; [exact Hq|]. split; [exact Hr|]. split; [exact Hv|].
  destruct (nextStep_refuses Sample.opts 10 Sample.first_render
              Sample.purpose_question Hq (or_intror (conj Hr Hv)))
    as (errors & h' & _ & _ & Hn & Hs & _).
  exists h'. split; [exact Hn|]. rewrite Hs. reflexivity.
Defined.

Section Navigation.

Import useWizardState.


Variable o : UseWizardStateOptions.




End Navigation.



(** What the claim leaves out of account. A step need not be an
    integer: [goToStep(1.5)] is accepted and [previousStep] then
    reaches 0.5, below 1, in a world that the validator of the layers
    rejects. [goToStep(NaN)] and [goToStep(5.5)] are not refused with
    [false]: the update throws. And with an auto-save interval other
    than 2000 ms the jump to step 7 throws as well. *)
Lemma goToStep_off_the_integers :
  (exists h1 h2,
     useWizardState.goToStep Sample.opts 10 (Finite (3 # 2)) Sample.first_render
     = Ok (true, h1)
     /\ useWizardState.previousStep 20 h1 = (true, h2)
     /\ currentStep (wizardState h2) = Finite (1 # 2)
     /\ (currentStep (wizardState h2) < 1)%num
     /\ @reachable Sample.toy_platform Sample.opts (h2, [])
     /\ ConstitutionalValidator.validateLayerProgression
          (currentStep (wizardState h2)) (currentLayer (wizardState h2))
        = Ok false)
  /\ (NaN <? 1)%num = false /\ (15 <? NaN)%num = false
  /\ useWizardState.goToStep Sample.opts 10 NaN Sample.first_render
     = Throw (ConstitutionalViolationError "layerProgression")
  /\ (1 <= Finite (11 # 2) <= 15)%num
  /\ useWizardState.goToStep Sample.opts 10 (Finite (11 # 2)) Sample.first_render
     = Throw (ConstitutionalViolationError "layerProgression")
  /\ useWizardState.goToStep Examples.slow_auto_save 10 7 Sample.first_render
     = Throw (ConstitutionalViolationError "autoSaveInterval").
Proof.
  split.
  { exists (fst Examples.at_step_one_and_a_half), (fst Examples.below_step_1).
    split; [vm_compute; reflexivity|].
    split; [vm_compute; reflexivity|].
    split; [vm_compute; reflexivity|].
    split; [vm_compute; reflexivity|].
    split; [|vm_compute; reflexivity].
    apply (@reachable_step Sample.toy_platform Sample.opts
             (fst Examples.at_step_one_and_a_half, []) (PreviousStep 20));
      [|vm_compute; reflexivity].
    apply (@reachable_step Sample.toy_platform Sample.opts
             (Sample.first_render, []) (GoToStep 10 (Finite (3 # 2))));
      [apply reachable_init|]. vm_compute. reflexivity. }
  repeat split; vm_compute; reflexivity.
Qed.

(** ** Draft storage *)

Section Drafts.

Import DraftStorageManager.


Lemma getItem_removeItem key st :
  LocalStorage.getItem key (LocalStorage.removeItem key st) = None.
Proof.
  unfold LocalStorage.removeItem.
  induction st as [|[k v] st IH]; cbn; [reflexivity|].
  destruct (String.eqb_spec k key) as [->|Hne]; cbn; [exact IH|].
  destruct (String.eqb_spec k key); [congruence|exact IH].
Qed.

(** What JSON has read is written and read back unchanged. *)
Lemma toJSON_unknown_idempotent :
  forall v v', toJSON_unknown v = Some v' -> toJSON_unknown v' = Some v'.
Proof.
  fix IH 1. intros [| |b|n|t|items|fields] v' Hv; cbn in Hv.
  - discriminate Hv.
  - injection Hv as <-. reflexivity.
  - injection Hv as <-. reflexivity.
  - injection Hv as <-. destruct (JsNumber.isFinite n) eqn:E; cbn; [|reflexivity].
    rewrite E. reflexivity.
  - injection Hv as <-. reflexivity.
  - injection Hv as <-. cbn. f_equal. f_equal.
    induction items as [|x rest IHrest]; [reflexivity|].
    rewrite IHrest. f_equal.
    destruct (toJSON_unknown x) as [x'|] eqn:Ex; [|reflexivity].
    rewrite (IH x x' Ex). reflexivity.
  - injection Hv as <-. cbn. f_equal. f_equal.
    induction fields as [|[k x] rest IHrest]; [reflexivity|].
    destruct (toJSON_unknown x) as [x'|] eqn:Ex; [|exact IHrest].
    rewrite (IH x x' Ex), IHrest. reflexivity.
Qed.


Lemma toJSON_fields_idempotent fields :
  toJSON_fields (toJSON_fields fields) = toJSON_fields fields.
Proof.
  pose proof (toJSON_unknown_idempotent (UObject fields)
                (UObject (toJSON_fields fields)) eq_refl) as Hi.
  unfold toJSON_fields at 1. rewrite Hi. reflexivity.
Qed.

Lemma toJSON_answer_idempotent v :
  toJSON_answer (toJSON_answer v) = toJSON_answer v.
Proof.
  destruct v as [t|n|b|items|fields|]; cbn [toJSON_answer]; try reflexivity.
  - destruct (JsNumber.isFinite n) eqn:E; cbn [toJSON_answer];
      [rewrite E|]; reflexivity.
  - rewrite toJSON_fields_idempotent. reflexivity.
Qed.


Lemma toJSON_step_idempotent step :
  toJSON_step (toJSON_step step) = toJSON_step step.
Proof. destruct step; reflexivity. Qed.

Lemma toJSON_date_idempotent d : toJSON_date (toJSON_date d) = toJSON_date d.
Proof. destruct d; reflexivity. Qed.

Lemma toJSON_idempotent s : toJSON (toJSON s) = toJSON s.
Proof.
  unfold toJSON.
  cbn [ws_id currentStep currentLayer answers startedAt lastModified
       isComplete draftSaved stateErrors].
  rewrite toJSON_step_idempotent, !toJSON_date_idempotent.
  f_equal.
  rewrite <- map_fmap_compose. apply map_fmap_ext.
  intros k v _. apply toJSON_answer_idempotent.
Qed.



Context `{Platform}.


(** The checksum that [saveDraft] wrote is the one [loadDraft]
    computes. *)
Lemma saved_checksum_valid ws :
  DataIntegrity.verifyChecksum (JSON_stringify (toJSON ws))
    (DataIntegrity.calculateChecksum (JSON_stringify ws)) = true.
Proof.
  unfold DataIntegrity.verifyChecksum, JSON_stringify.
  rewrite toJSON_idempotent. apply String.eqb_refl.
Qed.

Lemma loadDraft_within now t wizardId ws st :
  LocalStorage.getItem (draft_key wizardId) st
  = Some (DraftJson (draft_of now wizardId ws)) ->
  t <= now + 24 * 60 * 60 * 1000 ->
  loadDraft t wizardId st = (Ok (Some (toJSON ws)), st).
Proof.
  intros Hget Ht. unfold loadDraft. rewrite Hget. cbn [truthy_text negb].
  cbn [draft_of metadata expiresAt Date_parse date_gt checksum data].
  replace (now + retention_ms <? t) with false.
  2: { symmetry. apply Z.ltb_ge. unfold retention_ms,
         StorageConstants.DRAFT_RETENTION_HOURS. lia. }
  destruct (truthy_string _) as [expected|] eqn:Hc; [|reflexivity].
  assert (expected = DataIntegrity.calculateChecksum (JSON_stringify ws)) as ->.
  { unfold truthy_string in Hc.
    destruct (DataIntegrity.calculateChecksum _); congruence. }
  rewrite saved_checksum_valid. reflexivity.
Qed.

Lemma loadDraft_expired t wizardId draft e st :
  LocalStorage.getItem (draft_key wizardId) st = Some (DraftJson draft) ->
  expiresAt (metadata draft) = ISO e ->
  e < t ->
  loadDraft t wizardId st
  = (Ok None, LocalStorage.removeItem (draft_key wizardId) st).
Proof.
  intros Hget He Ht. unfold loadDraft. rewrite Hget. cbn [truthy_text negb].
  rewrite He. cbn [Date_parse date_gt].
  apply Z.ltb_lt in Ht. rewrite Ht. reflexivity.
Qed.

Lemma loadDraft_deleted t wizardId st :
  loadDraft t wizardId (snd (deleteDraft wizardId st))
  = (Ok None, snd (deleteDraft wizardId st)).
Proof.
  unfold loadDraft, deleteDraft. cbn [snd].
  rewrite getItem_removeItem. reflexivity.
Qed.

End Drafts.



(** A session in which a numeric answer is [NaN] is not read back as
    it was saved: the answer comes back as [null]. *)
Lemma saved_NaN_is_loaded_as_null :
  exists st loaded,
    @DraftStorageManager.saveDraft Sample.toy_platform 1000 "session-1"
      (wizardState Examples.not_a_number) [] = (Ok true, st)
    /\ @DraftStorageManager.loadDraft Sample.toy_platform 1001 "session-1" st
       = (Ok (Some loaded), st)
    /\ answers (wizardState Examples.not_a_number) !! "budget"%string
       = Some (VNumber NaN)
    /\ answers loaded !! "budget"%string = Some VNull
    /\ ~ equal_modulo_timestamps (wizardState Examples.not_a_number) loaded.
Proof.
  exists (snd (@DraftStorageManager.saveDraft Sample.toy_platform 1000
                 "session-1" (wizardState Examples.not_a_number) [])),
    (toJSON (wizardState Examples.not_a_number)).
  split; [vm_compute; reflexivity|].
  split; [vm_compute; reflexivity|].
  assert (Hsaved : answers (wizardState Examples.not_a_number) !! "budget"%string
                   = Some (VNumber NaN)) by (vm_compute; reflexivity).
  assert (Hloaded :
    answers (toJSON (wizardState Examples.not_a_number)) !! "budget"%string
    = Some VNull) by (vm_compute; reflexivity).
  split; [exact Hsaved|]. split; [exact Hloaded|].
  intros (_ & _ & _ & Ha & _). rewrite <- Ha, Hsaved in Hloaded.
  discriminate Hloaded.
Qed.

(** C10. [reset] installs a new session (the generated id, step 1,
    layer 1, no answers, no validation errors, not complete) and leaves
    the storage as it is: a draft stored under another id is still
    loaded until its 24 hours have passed, is reported absent after
    them, and is gone after [deleteDraft]. *)
Theorem reset_keeps_stored_drafts `{Platform} (o : UseWizardStateOptions)
    (newId : string) (now : Z) (h : Hook) (st : Storage)
    (t0 : Z) (oldId : string) (ws : WizardState) :
  LocalStorage.getItem (draft_key oldId) st
  = Some (DraftJson (DraftStorageManager.draft_of t0 oldId ws)) ->
  exists h',
    perform o (Reset newId now) (h, st) = Ok (h', st)
    /\ ws_id (wizardState h') = newId
    /\ currentStep (wizardState h') = 1
    /\ currentLayer (wizardState h') = 1
    /\ answers (wizardState h') = ∅
    /\ stateErrors (wizardState h') = ∅
    /\ isComplete (wizardState h') = false
    /\ validationErrors h' = ∅
    /\ (forall t, t <= t0 + 24 * 60 * 60 * 1000 ->
          DraftStorageManager.loadDraft t oldId st = (Ok (Some (toJSON ws)), st))
    /\ (forall t, t0 + 24 * 60 * 60 * 1000 < t ->
          fst (DraftStorageManager.loadDraft t oldId st) = Ok None)
    /\ (forall t,
          fst (DraftStorageManager.loadDraft t oldId
                 (snd (DraftStorageManager.deleteDraft oldId st))) = Ok None).
Proof.
  intros Hget. exists (useWizardState.reset newId now h).
  repeat split.
  - intros t Ht. apply (loadDraft_within t0); assumption.
  - intros t Ht.
    rewrite (loadDraft_expired t oldId _ (t0 + DraftStorageManager.retention_ms)
               st Hget); [reflexivity|reflexivity|].
    unfold DraftStorageManager.retention_ms,
      StorageConstants.DRAFT_RETENTION_HOURS. lia.
  - intros t. rewrite loadDraft_deleted. reflexivity.
Qed.

Lemma reset_keeps_stored_drafts_witness :
  LocalStorage.getItem (draft_key "session-1") Sample.saved_at_step_7
  = Some (DraftJson (@DraftStorageManager.draft_of Sample.toy_platform 1000
                       "session-1" (wizardState (fst Sample.at_step_7))))
  /\ exists h',
       @perform Sample.toy_platform Sample.opts (Reset "session-2" 5000)
         (fst Sample.at_step_7, Sample.saved_at_step_7)
       = Ok (h', Sample.saved_at_step_7)
       /\ currentStep (wizardState h') = 1
       /\ @DraftStorageManager.loadDraft Sample.toy_platform 6000 "session-1"
            Sample.saved_at_step_7
          = (Ok (Some (toJSON (wizardState (fst Sample.at_step_7)))),
             Sample.saved_at_step_7).
Proof.
  assert (Hget :
    LocalStorage.getItem (draft_key "session-1") Sample.saved_at_step_7
    = Some (DraftJson (@DraftStorageManager.draft_of Sample.toy_platform 1000
                         "session-1" (wizardState (fst Sample.at_step_7)))))
    by reflexivity.
  split; [exact Hget|].
  destruct (@reset_keeps_stored_drafts Sample.toy_platform Sample.opts
              "session-2" 5000 (fst Sample.at_step_7) Sample.saved_at_step_7
              1000 "session-1" (wizardState (fst Sample.at_step_7)) Hget)
    as (h' & Hp & _ & Hstep & _ & _ & _ & _ & _ & Hload & _).
  exists h'. split; [exact Hp|]. split; [exact Hstep|].
  apply Hload. lia.
Defined.

(** ** Listing drafts *)

Section Listing.

Import DraftStorageManager.
Context `{Platform}.

Lemma listDrafts_loop_unexpired now fuel :
  forall i st drafts,
    Forall (unexpired now) drafts ->
    Forall (unexpired now) (fst (listDrafts_loop now fuel i st drafts)).
Proof.
  induction fuel as [|fuel IH]; intros i st drafts Hd; cbn [listDrafts_loop];
    [exact Hd|].
  destruct (i <? length st)%nat; [|exact Hd].
  destruct (LocalStorage.key i st) as [key|]; [|apply IH, Hd].
  destruct (is_draft_key key); [|apply IH, Hd].
  destruct (LocalStorage.getItem key st) as [stored|]; [|apply IH, Hd].
  destruct (truthy_text stored); [|apply IH, Hd].
  destruct stored as [draft|other]; [|apply IH, Hd].
  destruct (date_le now _) eqn:Hle; [|apply IH, Hd].
  apply IH. apply Forall_app. split; [exact Hd|].
  constructor; [exact Hle|constructor].
Qed.

Lemma insert_by_savedAt_Forall (P : DraftMetadata.t -> Prop) a l :
  P a -> Forall P l -> Forall P (insert_by_savedAt a l).
Proof.
  intros Ha. induction 1 as [|b l Hb Hl IH]; cbn.
  - constructor; [exact Ha|constructor].
  - destruct (not_after a b).
    + constructor; [exact Ha|]. constructor; assumption.
    + constructor; assumption.
Qed.

(** [listDrafts] never lists a draft whose expiry has passed. *)
Lemma listDrafts_omits_expired now st :
  Forall (unexpired now) (fst (listDrafts now st)).
Proof.
  unfold listDrafts.
  pose proof (listDrafts_loop_unexpired now (length st) O st []
                ltac:(constructor)) as Hl.
  destruct (listDrafts_loop now (length st) O st []) as [drafts st']. cbn [fst] in *.
  unfold sort_by_savedAt.
  induction Hl as [|a l Ha Hl IH]; cbn; [constructor|].
  apply insert_by_savedAt_Forall; assumption.
Qed.

End Listing.

(** C4, at the input on which the code departs from it. Two drafts
    saved at time 0 are both expired a day and a second later.
    [loadDraft] reports each as absent and removes it, and [listDrafts]
    lists neither; but [listDrafts] removes only one of them: removing
    inside the index loop shortens the storage, so the loop ends before
    it reaches the other, which stays in storage whatever the order of
    the keys. [cleanupExpiredDraftsSync], which collects the keys
    before it removes them, removes both. For the same reason a recent
    draft whose key comes after that of an expired one is passed over
    by [listDrafts], although [loadDraft] returns it. *)
Theorem listDrafts_leaves_an_expired_draft :
  @DraftStorageManager.loadDraft Sample.toy_platform Sample.later "b"
    Sample.two_old_drafts
  = (Ok None, [("wizard-draft-a"%string, Sample.draft_at 0 "a")])
  /\ @DraftStorageManager.listDrafts Sample.toy_platform Sample.later
       Sample.two_old_drafts
     = ([], [("wizard-draft-b"%string, Sample.draft_at 0 "b")])
  /\ @DraftStorageManager.listDrafts Sample.toy_platform Sample.later
       (rev Sample.two_old_drafts)
     = ([], [("wizard-draft-a"%string, Sample.draft_at 0 "a")])
  /\ @cleanupExpiredDraftsSync Sample.toy_platform Sample.later
       Sample.two_old_drafts = (2%nat, [])
  /\ @DraftStorageManager.listDrafts Sample.toy_platform Sample.later
       Sample.old_then_recent
     = ([], [("wizard-draft-b"%string, Sample.draft_at Sample.day "b")])
  /\ (exists loaded,
        @DraftStorageManager.loadDraft Sample.toy_platform Sample.later "b"
          Sample.old_then_recent
        = (Ok (Some loaded), Sample.old_then_recent)).
Proof.
  repeat split; try (vm_compute; reflexivity).
  eexists. vm_compute. reflexivity.
Qed.

(** ** Validation of hidden questions *)

(** A hidden question with a value has no errors. *)
Lemma validateAnswer_hidden_answered q v all :
  QuestionValidator.hidden q (Some all) = true ->
  AnswerValidator.validateRequired (Some v) = true ->
  QuestionValidator.validateAnswer q (Some v) (Some all) = [].
Proof.
  intros Hh Hv. unfold QuestionValidator.validateAnswer.
  rewrite Hv, Hh. reflexivity.
Qed.

(** C8, at the input on which the code departs from it. A required
    question whose [showIf] is false and that has no value gets the
    REQUIRED error: [validateAnswer] returns at "Skip further validation
    if no value", before it reaches the visibility check that would
    clear the errors. With a value, the same question has none. *)
Theorem hidden_required_question_reports_error :
  QuestionValidator.hidden Sample.hidden_question (Some ∅) = true
  /\ QuestionValidator.validateAnswer Sample.hidden_question None (Some ∅)
     = [{| field := "layer3_exceptions"; message := "validation.required";
           code := "REQUIRED" |}]
  /\ QuestionValidator.validateAnswer Sample.hidden_question
       (Some (VString [])) (Some ∅)
     = [{| field := "layer3_exceptions"; message := "validation.required";
           code := "REQUIRED" |}]
  /\ QuestionValidator.validateAnswer Sample.hidden_question
       (Some (VString (js "x"))) (Some ∅) = [].
Proof. repeat split. Qed.

(** ** Output generation *)

Section Generation.

Import useOutputGeneration.

(** With the structure check on, an output that is returned has a
    summary of 50 to 500 code units. *)
Lemma accepted_summary_in_window o clock ws qs out :
  enableStructuredDataValidation o = true ->
  output (generateOutput o clock ws qs) = Some out ->
  (50 <= length (text (summary out)) <= 500)%nat.
Proof.
  intros Ho. unfold generateOutput. rewrite Ho.
  destruct (negb (isComplete ws)); [discriminate|].
  destruct (size (answers ws) <? 12)%nat; [discriminate|].
  cbn [andb].
  destruct (validateOutputStructure _) eqn:Hv; cbn [negb]; [|discriminate].
  destruct (negb (ConstitutionalValidator.validateOutputGenerationTime _ _));
    [discriminate|].
  cbn [output]. intros Heq; injection Heq as <-.
  unfold validateOutputStructure in Hv. cbn [summary] in *.
  destruct (negb (nonempty _) || (_ <? 50)%nat || (500 <? _)%nat) eqn:Hw;
    [discriminate|].
  apply orb_false_iff in Hw as [Hw H500]. apply orb_false_iff in Hw as [_ H50].
  apply Nat.ltb_ge in H50, H500. lia.
Qed.

(** With the structure check on, a summary under 50 code units makes
    the generation of a complete session fail. *)
Lemma short_summary_rejected o clock ws qs :
  enableStructuredDataValidation o = true ->
  isComplete ws = true ->
  (12 <= size (answers ws))%nat ->
  (length (text (generateSummary ws qs)) < 50)%nat ->
  generateOutput o clock ws qs
  = failed (js "Generated output failed validation").
Proof.
  intros Ho Hc Hn Hshort. unfold generateOutput. rewrite Ho, Hc. cbn [negb].
  replace (size (answers ws) <? 12)%nat with false
    by (symmetry; apply Nat.ltb_ge; exact Hn).
  unfold validateOutputStructure. cbn [summary andb].
  apply Nat.ltb_lt in Hshort. rewrite Hshort, orb_true_r. reflexivity.
Qed.

(** The summary is never longer than 500 code units. *)
Lemma generateSummary_at_most_500 ws qs :
  (length (text (generateSummary ws qs)) <= 500)%nat.
Proof.
  unfold generateSummary. cbn [text].
  match goal with
  | |- (length (if (500 <? length ?t)%nat then _ else _) <= _)%nat =>
      destruct (Nat.ltb_spec 500 (length t)) as [Hlong|Hshort]
  end.
  - rewrite length_app. unfold slice0. rewrite length_firstn.
    change (length (js "...")) with 3%nat. lia.
  - exact Hshort.
Qed.

End Generation.



(** C6, where the count of populated fields and the count of keys part.
    Of fifteen questions only the purpose is required. [setAnswer]
    records the purpose and the empty text for eleven other questions;
    [complete()] succeeds, for an optional question without a value has
    no error. The answer map has 12 keys and one field that holds a
    value, and [generateOutput] returns an output without an error. *)
Lemma blank_answers_yield_an_output :
  exists h out,
    Examples.blank_session = (true, h)
    /\ isComplete (wizardState h) = true
    /\ size (answers (wizardState h)) = 12%nat
    /\ populated_fields (answers (wizardState h)) = 1%nat
    /\ (forall k, k <> "layer1_purpose"%string ->
          k ∈ map fst Examples.blank_answers ->
          answers (wizardState h) !! k = Some (VString []))
    /\ useOutputGeneration.generateOutput default_generation_options
         Sample.clock (wizardState h) Examples.optional_catalog
       = {| output := Some out; error := None |}.
Proof.
  exists (snd Examples.blank_session).
  eexists.
  split; [vm_compute; reflexivity|].
  split; [vm_compute; reflexivity|].
  split; [vm_compute; reflexivity|].
  split; [vm_compute; reflexivity|].
  split.
  - intros k Hk Hin.
    cbv [Examples.blank_answers map firstn skipn Sample.long_answers fst] in Hin.
    repeat (apply elem_of_cons in Hin as [->|Hin];
            [first [congruence | vm_compute; reflexivity]|]).
    apply elem_of_nil in Hin. destruct Hin.
  - vm_compute. reflexivity.
Qed.

(** C7, at the input on which the code departs from it. All fifteen
    questions are answered with valid values and [complete()] succeeds,
    but the summary, padded with the 14 code units of the suffix, has
    36 code units: "Ensure length constraints (50-500 characters)" does
    not ensure the lower one. The structure check then rejects the
    output, and [generateOutput] returns none. With the longer purpose
    and effect the same run returns a summary of 55 code units. *)
Theorem short_answers_yield_no_summary :
  exists h,
    Sample.interview Sample.short_answers = Some (true, h)
    /\ size (answers (wizardState h)) = 15%nat
    /\ QuestionValidator.validateAllAnswers Sample.catalog
         (answers (wizardState h)) = ∅
    /\ length (text (useOutputGeneration.generateSummary (wizardState h)
                       Sample.catalog)) = 36%nat
    /\ useOutputGeneration.generateOutput default_generation_options
         Sample.clock (wizardState h) Sample.catalog
       = {| output := None;
            error := Some (js "Generated output failed validation") |}
    /\ exists g out,
         Sample.generate Sample.long_answers = Some g
         /\ output g = Some out
         /\ length (text (summary out)) = 55%nat.
Proof.
  eexists. split; [vm_compute; reflexivity|].
  repeat split; try (vm_compute; reflexivity).
  eexists. eexists. split; [vm_compute; reflexivity|]. split; reflexivity.
Qed.

(* ===================================================================== *)
(** * Further properties *)
(* ===================================================================== *)

(** ** Encryption threshold and the stateful e-mail test *)

Lemma score_above_threshold n :
  (JsNumber.literal (3 # 10) <? PII.score n)%num = true <-> (2 <= n)%nat.
Proof.
  rewrite score_values.
  destruct n as [|[|[|[|n]]]]; cbn [PII.confidence_of];
    (split; [intros Hlt; try lia; vm_compute in Hlt; discriminate Hlt
            |intros Hn; try lia; vm_compute; reflexivity]).
Qed.

(** X1. [requiresEncryption] holds exactly for a text in which the
    patterns match at least twice: one match gives the confidence 0.3,
    which is not above the threshold, although [hasPII] is true. *)
Theorem requiresEncryption_two_matches (text : jsstring) :
  (requiresEncryption text = true <-> (2 <= PII.matchCount text)%nat)
  /\ (PII.matchCount text = 1%nat ->
        hasPII_in text = true /\ requiresEncryption text = false).
Proof.
  destruct (detectPII_result text) as (d & Hd & _ & Hhas & Hconf).
  assert (Hiff : requiresEncryption text = true <-> (2 <= PII.matchCount text)%nat).
  { unfold requiresEncryption. rewrite Hd, Hconf, Hhas.
    destruct (0 <? PII.matchCount text)%nat eqn:E.
    - cbn [andb]. apply score_above_threshold.
    - apply Nat.ltb_ge in E. cbn [andb]. split; [discriminate | lia]. }
  split; [exact Hiff|].
  intros H1. split.
  - unfold hasPII_in. rewrite Hd, Hhas, H1. reflexivity.
  - apply not_true_iff_false. rewrite Hiff. lia.
Qed.

(** X2. [validateEmail] answers through a pattern that keeps its
    [lastIndex]: when a call leaves [lastIndex] at the end of the
    string, as it does on accepting a string that ends with an address,
    the next call on the same string answers false and puts [lastIndex]
    back to 0. *)
Theorem validateEmail_alternates (value : jsstring) (lastIndex : nat) :
  snd (validateEmail value lastIndex) = length value ->
  validateEmail value (snd (validateEmail value lastIndex)) = (false, 0%nat).
Proof.
  intros Hend. rewrite Hend.
  unfold validateEmail, exec.
  replace (S (length value) - length value)%nat with 1%nat by lia.
  cbn [search].
  destruct (match_at PII.email value (length value)) as [e|] eqn:E.
  - apply match_at_bounds in E; [|reflexivity|lia].
    change (minlen PII.email) with 6%nat in E. lia.
  - reflexivity.
Qed.

Lemma validateEmail_alternates_witness :
  validateEmail (js "test@example.com") 0 = (true, 16%nat)
  /\ validateEmail (js "test@example.com")
       (snd (validateEmail (js "test@example.com") 0))
     = (false, 0%nat).
Proof.
  split; [vm_compute; reflexivity|].
  apply (validateEmail_alternates (js "test@example.com") 0).
  vm_compute. reflexivity.
Defined.

(** ** The validation of all answers *)

Lemma own_key_true k : own_key k = true <-> k <> "__proto__"%string.
Proof.
  unfold own_key. rewrite negb_true_iff. split.
  - intros E ->. rewrite String.eqb_refl in E. discriminate E.
  - intros Hne. apply String.eqb_neq. exact Hne.
Qed.


Lemma lookup_assign_proto {V} (v : V) k (m : gmap string V) :
  m !! "__proto__"%string = None -> assign k v m !! "__proto__"%string = None.
Proof.
  intros Hm. unfold assign. destruct (own_key k) eqn:E; [|exact Hm].
  apply own_key_true in E. rewrite lookup_insert_ne by exact E. exact Hm.
Qed.

Section AllAnswers.

Import QuestionValidator.

Variable a : gmap string AnswerValue.











End AllAnswers.



(** ** Completion of the wizard *)








(** ** Form validation and sanitising *)













(** ** Navigation *)

Lemma Int_inj (a b : Z) : Int a = Int b -> a = b.
Proof. unfold Int, inject_Z. intros [= E]. exact E. Qed.

Lemma ltb_Int_trans (p q : Z) (x : number) :
  p <= q -> (q < x)%num -> (p < x)%num.
Proof.
  intros Hpq. unfold JsNumber.ltb, Int.
  destruct x as [y| |[|]]; try (intros; assumption).
  intros Hq. apply negb_true_iff in Hq. apply negb_true_iff.
  apply not_true_iff_false. apply not_true_iff_false in Hq.
  rewrite Qle_bool_iff in *. intros Hy. apply Hq.
  apply Qle_trans with (inject_Z p); [exact Hy|].
  rewrite <- Zle_Qle. exact Hpq.
Qed.

(** On the steps 1 to 15 the percentage is the integer nearest to
    [100 * step / 15]. *)
Lemma Math_round_percent_Int (n : Z) :
  1 <= n <= 15 -> Math_round_percent n = Int ((200 * n + 15) / 30).
Proof.
  intros Hn.
  assert (Hcases : n = 1 \/ n = 2 \/ n = 3 \/ n = 4 \/ n = 5 \/ n = 6 \/ n = 7
                   \/ n = 8 \/ n = 9 \/ n = 10 \/ n = 11 \/ n = 12 \/ n = 13
                   \/ n = 14 \/ n = 15) by lia.
  repeat (destruct Hcases as [->|Hcases]; [vm_compute; reflexivity|]).
  subst n. vm_compute. reflexivity.
Qed.

(** Beyond step 15 the percentage is above 100. *)
Lemma Math_round_percent_beyond (k : Z) :
  16 <= k -> (100 < Math_round_percent k)%num.
Proof.
  intros Hk. unfold Math_round_percent.
  assert (Hq : (16 # 1 <= inject_Z k)%Q)
    by (change (16 # 1)%Q with (inject_Z 16); rewrite <- Zle_Qle; exact Hk).
  change (Int k / 15)%num with (JsNumber.round64 (inject_Z k * (1 # 15))).
  pose proof (round64_lower (inject_Z k * (1 # 15))) as H1.
  destruct (JsNumber.round64 (inject_Z k * (1 # 15))) as [y1| |neg1].
  - specialize (H1 ltac:(lra)).
    change (Finite y1 * 100)%num with (JsNumber.round64 (y1 * (100 # 1))).
    pose proof (round64_lower (y1 * (100 # 1))) as H2.
    destruct (JsNumber.round64 (y1 * (100 # 1))) as [y2| |neg2].
    + specialize (H2 ltac:(lra)).
      unfold JsNumber.Math_round. rewrite ltb_Int. apply Z.ltb_lt.
      apply Z.lt_le_trans with 101; [lia|].
      rewrite <- (Qfloor_Z 101). apply Qfloor_resp_le.
      change (inject_Z 101) with (101 # 1)%Q. lra.
    + exfalso. apply H2. lra.
    + rewrite H2 by lra. reflexivity.
  - exfalso. apply H1. lra.
  - rewrite H1 by lra. reflexivity.
Qed.

(** X8. For each of the steps 1 to 15, the progress shown lies between
    7 and 100 per cent, reaches 100 only at step 15 and grows with the
    step; [canGoPrevious] is what [previousStep] will answer, and the
    step that [previousStep] reaches is the one announced. At step 15
    [canGoNext] is false. *)
Theorem navigationState_facts (o : UseWizardStateOptions) (now : Z) (h : Hook) :
  consistent (wizardState h) ->
  let nav := navigationState o h in
  (7 <= StepNavigationState.progressPercentage nav <= 100)%num
  /\ (StepNavigationState.progressPercentage nav = 100
      <-> currentStep (wizardState h) = 15)
  /\ (forall step' : Z, (currentStep (wizardState h) < step')%num ->
        (StepNavigationState.progressPercentage nav
         < Math_round_percent step')%num)
  /\ StepNavigationState.canGoPrevious nav
     = fst (useWizardState.previousStep now h)
  /\ (forall p, StepNavigationState.previousStep nav = Some p ->
        currentStep (wizardState (snd (useWizardState.previousStep now h))) = p)
  /\ (StepNavigationState.previousStep nav = None ->
        useWizardState.previousStep now h = (false, h))
  /\ (currentStep (wizardState h) = 15 ->
        StepNavigationState.canGoNext nav = false
        /\ StepNavigationState.nextStep nav = None).
Proof.
  intros [(s & Hs & Hrange) _]. cbv zeta.
  unfold navigationState, calculateNavigationState, useWizardState.previousStep.
  cbn [StepNavigationState.progressPercentage StepNavigationState.canGoPrevious
       StepNavigationState.previousStep StepNavigationState.canGoNext
       StepNavigationState.nextStep].
  rewrite !Hs, Math_round_percent_Int, !ltb_Int, !leb_Int by exact Hrange.
  assert (Hlo : 7 <= (200 * s + 15) / 30) by (apply Z.div_le_lower_bound; lia).
  assert (Hhi : (200 * s + 15) / 30 <= 100)
    by (apply Z.lt_succ_r, Z.div_lt_upper_bound; lia).
  split; [split; apply Z.leb_le; lia|]. split.
  { split.
    - intros E. apply Int_inj in E. f_equal.
      destruct (Z.eq_dec s 15) as [|Hne]; [assumption|].
      assert ((200 * s + 15) / 30 < 100)
        by (apply Z.div_lt_upper_bound; lia). lia.
    - intros E. apply Int_inj in E. subst s. reflexivity. }
  split.
  { intros step' Hlt. rewrite ltb_Int in Hlt. apply Z.ltb_lt in Hlt.
    destruct (Z.le_gt_cases step' 15) as [Hin|Hout].
    - rewrite Math_round_percent_Int, ltb_Int by lia. apply Z.ltb_lt.
      apply Z.lt_le_trans with ((200 * s + 15) / 30 + 1); [lia|].
      apply Z.div_le_lower_bound; [lia|].
      assert (30 * ((200 * s + 15) / 30) <= 200 * s + 15)
        by (apply Z.mul_div_le; lia). lia.
    - apply ltb_Int_trans with 100; [exact Hhi|].
      apply Math_round_percent_beyond. lia. }
  destruct (Z.leb_spec s 1) as [Hle|Hgt].
  - replace (1 <? s) with false by (symmetry; apply Z.ltb_ge; lia).
    cbn [fst snd]. split; [reflexivity|]. split; [discriminate|].
    split; [reflexivity|]. intros E. apply Int_inj in E. lia.
  - replace (1 <? s) with true by (symmetry; apply Z.ltb_lt; lia).
    cbn [fst snd]. split; [reflexivity|]. split.
    { intros p [= <-]. reflexivity. }
    split; [discriminate|].
    intros E. apply Int_inj in E. subst s. split; reflexivity.
Qed.

(** X9. After [nextStep] has refused to leave a question with errors,
    [canGoNext] is true exactly when the step is below 15 and the
    question is not required: the errors of an optional question do
    not disable the way forward, although a further [nextStep] is
    refused again and changes nothing. *)
Theorem refused_step_and_canGoNext (o : UseWizardStateOptions) (now now' : Z)
    (h : Hook) (q : QuestionDefinition) :
  useWizardState.currentQuestion o (wizardState h) = Some q ->
  errors_of (answers (wizardState h)) q <> [] ->
  exists h',
    useWizardState.nextStep o now h = Ok (false, h')
    /\ StepNavigationState.canGoNext (navigationState o h')
       = (currentStep (wizardState h) <? 15)%num && negb (required q)
    /\ StepNavigationState.canGoPrevious (navigationState o h')
       = StepNavigationState.canGoPrevious (navigationState o h)
    /\ useWizardState.nextStep o now' h' = Ok (false, h').
Proof.
  intros Hq Herr. unfold errors_of in Herr.
  assert (Hlen : (0 <? length (QuestionValidator.validateAnswer q
                   (answers (wizardState h) !! id q)
                   (Some (answers (wizardState h)))))%nat = true).
  { destruct (QuestionValidator.validateAnswer q _ _); [contradiction|reflexivity]. }
  eexists. split.
  { unfold useWizardState.nextStep. rewrite Hq, Hlen. reflexivity. }
  split; [|split].
  - unfold navigationState, calculateNavigationState.
    cbn [StepNavigationState.canGoNext useWizardState.set_validationErrors
         wizardState validationErrors].
    unfold useWizardState.currentQuestion in Hq. rewrite Hq.
    rewrite lookup_insert_eq. cbn [default].
    destruct (QuestionValidator.validateAnswer q _ _) as [|e errs];
      [contradiction|].
    cbn [length Nat.eqb]. destruct (required q); cbn; rewrite ?andb_true_r; reflexivity.
  - reflexivity.
  - unfold useWizardState.nextStep.
    cbn [useWizardState.set_validationErrors wizardState validationErrors].
    rewrite Hq, Hlen. rewrite insert_insert_eq. reflexivity.
Qed.

(** X10. A step forward followed by a step back restores the step, the
    layer, the answers and the error cell; what remains of the round
    trip is the time of the last change and a cleared [draftSaved]. *)
Theorem nextStep_then_previousStep (o : UseWizardStateOptions) (now now' : Z)
    (h h' : Hook) :
  consistent (wizardState h) ->
  useWizardState.nextStep o now h = Ok (true, h') ->
  exists h'',
    useWizardState.previousStep now' h' = (true, h'')
    /\ currentStep (wizardState h'') = currentStep (wizardState h)
    /\ currentLayer (wizardState h'') = currentLayer (wizardState h)
    /\ answers (wizardState h'') = answers (wizardState h)
    /\ ws_id (wizardState h'') = ws_id (wizardState h)
    /\ startedAt (wizardState h'') = startedAt (wizardState h)
    /\ isComplete (wizardState h'') = isComplete (wizardState h)
    /\ validationErrors h'' = validationErrors h
    /\ lastModified (wizardState h'') = DateObject now'
    /\ draftSaved (wizardState h'') = false.
Proof.
  intros [(n & Hn & Hrange) Hlayer] Hnext.
  unfold useWizardState.nextStep in Hnext.
  destruct (useWizardState.currentQuestion o (wizardState h)) as [q|];
    [|discriminate Hnext].
  destruct (0 <? length _)%nat; [discriminate Hnext|].
  rewrite Hn, leb_Int in Hnext.
  destruct (Z.leb_spec 15 n) as [H15|H15]; [discriminate Hnext|].
  rewrite add_Int in Hnext by lia.
  destruct (useWizardState.validateConstitutionalCompliance o _);
    [|discriminate Hnext].
  injection Hnext as <-.
  unfold useWizardState.previousStep.
  cbn [useWizardState.set_wizardState useWizardState.moved wizardState
       currentStep].
  rewrite leb_Int.
  replace (n + 1 <=? 1) with false by (symmetry; apply Z.leb_gt; lia).
  eexists. split; [reflexivity|].
  cbn [useWizardState.set_wizardState useWizardState.moved wizardState
       currentStep currentLayer answers ws_id startedAt isComplete
       validationErrors lastModified draftSaved].
  rewrite sub_Int by lia. replace (n + 1 - 1) with n by lia.
  rewrite Hlayer, Hn. repeat split.
Qed.

(** X11. Answering the question of the current step with a value that
    has no error among the answers so extended lets the next
    [nextStep] advance by one step, into the layer of that step, with
    the answer recorded. *)
Theorem setAnswer_then_nextStep (o : UseWizardStateOptions) (now now' : Z)
    (h : Hook) (q : QuestionDefinition) (v : AnswerValue) :
  compliant o ->
  consistent (wizardState h) ->
  useWizardState.currentQuestion o (wizardState h) = Some q ->
  (currentStep (wizardState h) < 15)%num ->
  QuestionValidator.validateAnswer q (Some v)
    (Some (<[id q := v]> (answers (wizardState h)))) = [] ->
  exists h1 h2,
    useWizardState.setAnswer o now (id q) v h = Ok h1
    /\ useWizardState.nextStep o now' h1 = Ok (true, h2)
    /\ currentStep (wizardState h2) = (currentStep (wizardState h) + 1)%num
    /\ currentLayer (wizardState h2)
       = useWizardState.getLayerFromStep (currentStep (wizardState h) + 1)
    /\ answers (wizardState h2) = <[id q := v]> (answers (wizardState h))
    /\ validationErrors h2 = validationErrors h1.
Proof.
  intros Ho Hcons Hq Hlt Hclean.
  pose proof Hcons as [(n & Hn & Hrange) Hlayer].
  rewrite Hn, ltb_Int in Hlt. apply Z.ltb_lt in Hlt.
  unfold useWizardState.setAnswer.
  rewrite consistent_compliance;
    [|exact Ho|split; [exists n; split; [exact Hn|exact Hrange]|exact Hlayer]].
  set (newState := {| ws_id := ws_id (wizardState h);
                      currentStep := currentStep (wizardState h);
                      currentLayer := currentLayer (wizardState h);
                      answers := <[id q := v]> (answers (wizardState h));
                      startedAt := startedAt (wizardState h);
                      lastModified := DateObject now;
                      isComplete := isComplete (wizardState h);
                      draftSaved := false;
                      stateErrors := stateErrors (wizardState h) |}).
  assert (Hnext : forall h1, wizardState h1 = newState ->
            exists h2, useWizardState.nextStep o now' h1 = Ok (true, h2)
              /\ currentStep (wizardState h2)
                 = (currentStep (wizardState h) + 1)%num
              /\ currentLayer (wizardState h2)
                 = useWizardState.getLayerFromStep (currentStep (wizardState h) + 1)
              /\ answers (wizardState h2) = <[id q := v]> (answers (wizardState h))
              /\ validationErrors h2 = validationErrors h1).
  { intros h1 Hh1. unfold useWizardState.nextStep. rewrite Hh1.
    unfold useWizardState.currentQuestion in *. cbn [newState currentStep answers].
    rewrite Hq. rewrite lookup_insert_eq, Hclean. cbn [length Nat.ltb Nat.leb].
    rewrite Hn, leb_Int.
    replace (15 <=? n) with false by (symmetry; apply Z.leb_gt; lia).
    rewrite consistent_compliance.
    - eexists. split; [reflexivity|]. cbn. repeat split.
    - exact Ho.
    - split; cbn [useWizardState.moved currentStep currentLayer];
        [|reflexivity].
      exists (n + 1). split; [apply add_Int; lia|lia]. }
  destruct (List.find (fun q0 => String.eqb (id q0) (id q)) (questions o)).
  - destruct (Hnext (useWizardState.set_validationErrors
                       (useWizardState.set_wizardState h newState)
                       (<[id q := QuestionValidator.validateAnswer q0 (Some v)
                                   (Some (answers (wizardState h)))]>
                          (validationErrors h))) eq_refl)
      as (h2 & H2).
    eexists. exists h2. split; [reflexivity|exact H2].
  - destruct (Hnext (useWizardState.set_wizardState h newState) eq_refl)
      as (h2 & H2).
    eexists. exists h2. split; [reflexivity|exact H2].
Qed.

(** ** Drafts through the hook *)

Lemma compliance_iff o s :
  (exists u, useWizardState.validateConstitutionalCompliance o s = Ok u)
  <-> in_layer_range s /\ compliant o.
Proof.
  split.
  - intros [u Hu]. split; [exact (compliance_in_layer_range o s u Hu)|].
    unfold useWizardState.validateConstitutionalCompliance in Hu.
    destruct (ConstitutionalValidator.validateLayerProgression _ _) as [[|]|];
      try discriminate Hu.
    unfold compliant, ConstitutionalValidator.validateAutoSaveInterval in *.
    destruct (autoSave o); [|left; reflexivity].
    destruct (Z.eqb_spec (autoSaveInterval o) 2000); [right; assumption|].
    discriminate Hu.
  - intros [Hs Ho]. exists tt. apply in_layer_range_compliance; assumption.
Qed.



(** X13. The hook's [loadDraft] answers true exactly when drafts are
    enabled, the storage manager returns a draft, the step of that
    draft lies in the range of its layer (1 to 5 for the first, 6 to 10
    for the second, 11 to 15 for the third), and the auto-save options
    are in order. In every other case it answers false and keeps the
    wizard state; when it answers true the wizard state is the stored
    one. *)
Theorem hook_loadDraft_accepts `{Platform} (o : UseWizardStateOptions)
    (now : Z) (wizardId : string) (h : Hook) (st : Storage) :
  let r := useWizardState.loadDraft o now wizardId h st in
  (fst (fst r) = true
   <-> enableDrafts o = true
       /\ compliant o
       /\ exists d, fst (DraftStorageManager.loadDraft now wizardId st) = Ok (Some d)
                    /\ in_layer_range d)
  /\ (fst (fst r) = true ->
        fst (DraftStorageManager.loadDraft now wizardId st)
        = Ok (Some (wizardState (snd (fst r))))
        /\ in_layer_range (wizardState (snd (fst r))))
  /\ (fst (fst r) = false -> wizardState (snd (fst r)) = wizardState h)
  /\ (enableDrafts o = true ->
        snd r = snd (DraftStorageManager.loadDraft now wizardId st)).
Proof.
  cbv zeta. unfold useWizardState.loadDraft.
  destruct (enableDrafts o) eqn:Hen; cbn [negb].
  2:{ cbn [fst snd]. split; [|split; [|split]].
      - split; [discriminate|]. intros (Habs & _). discriminate Habs.
      - discriminate.
      - reflexivity.
      - discriminate. }
  destruct (DraftStorageManager.loadDraft now wizardId st) as [[[d|]|e] st'] eqn:Hd;
    cbn [fst snd].
  - destruct (useWizardState.validateConstitutionalCompliance o d) as [u|e] eqn:Hc;
      cbn [fst snd].
    + assert (Hcc : in_layer_range d /\ compliant o)
        by (apply compliance_iff; exists u; exact Hc).
      split; [|split; [|split]].
      * split; [|reflexivity]. intros _. split; [reflexivity|].
        split; [tauto|]. exists d. split; [reflexivity|tauto].
      * intros _. cbn. split; [reflexivity|tauto].
      * discriminate.
      * reflexivity.
    + split; [|split; [|split]].
      * split; [discriminate|]. intros (_ & Ho & d' & [= <-] & Hcons).
        exfalso.
        destruct (proj2 (compliance_iff o d) (conj Hcons Ho)) as [u Hu].
        rewrite Hu in Hc. discriminate Hc.
      * discriminate.
      * reflexivity.
      * reflexivity.
  - split; [|split; [|split]].
    + split; [discriminate|]. intros (_ & _ & d' & Habs & _). discriminate Habs.
    + discriminate.
    + reflexivity.
    + reflexivity.
  - split; [|split; [|split]].
    + split; [discriminate|]. intros (_ & _ & d' & Habs & _). discriminate Habs.
    + discriminate.
    + reflexivity.
    + reflexivity.
Qed.

(** ** Cleaning up the storage *)

Section Cleanup.

Import LocalStorage.

Lemma filter_true {A} (l : list A) : List.filter (fun _ => true) l = l.
Proof. induction l as [|x l IH]; cbn; [reflexivity|]. rewrite IH. reflexivity. Qed.

Lemma filter_twice {A} (f g : A -> bool) (l : list A) :
  List.filter f (List.filter g l) = List.filter (fun x => g x && f x) l.
Proof.
  induction l as [|x l IH]; cbn; [reflexivity|].
  destruct (g x); cbn; [destruct (f x)|]; rewrite IH; reflexivity.
Qed.

Lemma removeItem_fold keys :
  forall st : Storage,
    fold_left (fun st key => removeItem key st) keys st
    = List.filter (fun kv => negb (key_in keys (fst kv))) st.
Proof.
  induction keys as [|k keys IH]; intros st; cbn [fold_left].
  - cbn. symmetry. apply filter_true.
  - rewrite IH. unfold removeItem. rewrite filter_twice.
    apply List.filter_ext. intros [k' v]. cbn. rewrite negb_orb. reflexivity.
Qed.

Lemma key_in_In keys key : key_in keys key = true <-> In key keys.
Proof.
  unfold key_in. rewrite existsb_exists. split.
  - intros (k & Hin & Hk). apply String.eqb_eq in Hk. subst. exact Hin.
  - intros Hin. exists key. split; [exact Hin|apply String.eqb_refl].
Qed.

Lemma getItem_In key v (st : Storage) : getItem key st = Some v -> In (key, v) st.
Proof.
  induction st as [|[k w] st IH]; cbn; [discriminate|].
  destruct (String.eqb_spec k key) as [->|Hne].
  - intros [= ->]. left. reflexivity.
  - intros Hg. right. apply IH. exact Hg.
Qed.

Lemma In_getItem key v (st : Storage) :
  NoDup (map fst st) -> In (key, v) st -> getItem key st = Some v.
Proof.
  induction st as [|[k w] st IH]; cbn; [tauto|].
  intros Hnd. apply NoDup_cons in Hnd. destruct Hnd as [Hfresh Hnd].
  intros [[= -> ->]|Hin].
  - rewrite String.eqb_refl. reflexivity.
  - destruct (String.eqb_spec k key) as [->|Hne]; [|apply IH; assumption].
    exfalso. apply Hfresh. apply list_elem_of_In.
    apply in_map_iff. exists (key, v). split; [reflexivity|exact Hin].
Qed.

Lemma getItem_filter_keys (p : string -> bool) key (st : Storage) :
  getItem key (List.filter (fun kv => p (fst kv)) st)
  = if p key then getItem key st else None.
Proof.
  induction st as [|[k w] st IH]; cbn; [destruct (p key); reflexivity|].
  destruct (p k) eqn:Hp; cbn.
  - destruct (String.eqb_spec k key) as [->|Hne].
    + rewrite Hp. reflexivity.
    + exact IH.
  - destruct (String.eqb_spec k key) as [->|Hne].
    + rewrite Hp in *. exact IH.
    + exact IH.
Qed.

Lemma getItem_removeItem_ne key key' (st : Storage) :
  key <> key' -> getItem key (removeItem key' st) = getItem key st.
Proof.
  intros Hne. unfold removeItem.
  rewrite (getItem_filter_keys (fun k => negb (String.eqb k key'))).
  destruct (String.eqb_spec key key'); [contradiction|reflexivity].
Qed.

Lemma getItem_setItem_ne key key' v (st : Storage) :
  key <> key' -> getItem key (setItem key' v st) = getItem key st.
Proof.
  intros Hne. induction st as [|[k w] st IH]; cbn.
  - destruct (String.eqb_spec key' key); [congruence|reflexivity].
  - destruct (String.eqb_spec k key') as [->|Hk]; cbn.
    + destruct (String.eqb_spec key' key); [congruence|reflexivity].
    + destruct (String.eqb_spec k key); [reflexivity|exact IH].
Qed.

Lemma NoDup_keys_filter (f : string * StoredText -> bool) (st : Storage) :
  NoDup (map fst st) -> NoDup (map fst (List.filter f st)).
Proof.
  induction st as [|kv st IH]; cbn; [trivial|].
  intros Hnd. apply NoDup_cons in Hnd. destruct Hnd as [Hfresh Hnd].
  destruct (f kv); cbn; [|apply IH; exact Hnd].
  apply NoDup_cons. split; [|apply IH; exact Hnd].
  intros Hin. apply Hfresh. apply list_elem_of_In in Hin.
  apply list_elem_of_In. apply in_map_iff in Hin. destruct Hin as (x & Hx & Hin).
  apply in_map_iff. exists x. split; [exact Hx|].
  apply filter_In in Hin. tauto.
Qed.

Lemma NoDup_keys_setItem key v (st : Storage) :
  NoDup (map fst st) -> NoDup (map fst (setItem key v st)).
Proof.
  induction st as [|[k w] st IH]; cbn.
  - intros _. apply NoDup_cons. split; [apply not_elem_of_nil|constructor].
  - intros Hnd. apply NoDup_cons in Hnd. destruct Hnd as [Hfresh Hnd].
    destruct (String.eqb_spec k key) as [->|Hne]; cbn.
    + apply NoDup_cons. split; assumption.
    + apply NoDup_cons. split; [|apply IH; exact Hnd].
      intros Hin. apply Hfresh. apply list_elem_of_In in Hin.
      apply list_elem_of_In. apply in_map_iff in Hin.
      destruct Hin as ([k' w'] & Hk' & Hin). cbn in Hk'. subst k'.
      clear -Hin Hne. induction st as [|[k1 w1] st IH]; cbn in *.
      * destruct Hin as [[= E _]|[]]. congruence.
      * destruct (String.eqb_spec k1 key) as [->|Hk1]; cbn in Hin.
        -- destruct Hin as [[= E _]|Hin]; [congruence|].
           right. apply in_map_iff. exists (k, w'). split; [reflexivity|exact Hin].
        -- destruct Hin as [[= -> _]|Hin]; [left; reflexivity|right; apply IH; exact Hin].
Qed.

Context `{Platform}.

Lemma keysToRemove_collected now (st : Storage) :
  keysToRemove now st = map fst (List.filter (collected now) st).
Proof.
  unfold keysToRemove.
  induction st as [|[k v] st IH]; cbn [flat_map List.filter map]; [reflexivity|].
  rewrite IH. unfold collected at 2. cbn [fst snd].
  destruct (is_draft_key k && truthy_text v); cbn [andb].
  - destruct v as [d|t].
    + destruct (date_gt now (Date_parse (expiresAt (metadata d)))); reflexivity.
    + reflexivity.
  - reflexivity.
Qed.

Lemma cleanup_result now (st : Storage) :
  cleanupExpiredDraftsSync now st
  = (length (List.filter (collected now) st),
     List.filter (fun kv => negb (key_in (keysToRemove now st) (fst kv))) st).
Proof.
  unfold cleanupExpiredDraftsSync. rewrite removeItem_fold.
  rewrite keysToRemove_collected at 1. rewrite length_map. reflexivity.
Qed.

Lemma cleanup_leaves_nothing_collected now (st : Storage) kv :
  In kv (snd (cleanupExpiredDraftsSync now st)) -> collected now kv = false.
Proof.
  rewrite cleanup_result. cbn [snd]. intros Hin.
  apply filter_In in Hin. destruct Hin as [Hin Hk].
  destruct (collected now kv) eqn:Hc; [|reflexivity].
  exfalso. apply negb_true_iff in Hk.
  assert (Hkey : key_in (keysToRemove now st) (fst kv) = true).
  { apply key_in_In. rewrite keysToRemove_collected.
    apply in_map. apply filter_In. split; assumption. }
  congruence.
Qed.

Lemma nothing_collected_no_keys now (st : Storage) :
  (forall kv, In kv st -> collected now kv = false) -> keysToRemove now st = [].
Proof.
  intros Hall. rewrite keysToRemove_collected.
  induction st as [|kv st IH]; cbn; [reflexivity|].
  rewrite (Hall kv) by (left; reflexivity).
  apply IH. intros kv' Hin. apply Hall. right. exact Hin.
Qed.

Lemma no_keys_nothing_collected now (st : Storage) kv :
  keysToRemove now st = [] -> In kv st -> collected now kv = false.
Proof.
  rewrite keysToRemove_collected. intros Hnil Hin.
  destruct (collected now kv) eqn:Hc; [|reflexivity].
  assert (Hk : In (fst kv) (map fst (List.filter (collected now) st))).
  { apply in_map. apply filter_In. split; assumption. }
  rewrite Hnil in Hk. destruct Hk.
Qed.

Lemma cleanup_keeps_uncollected now (st : Storage) kv :
  NoDup (map fst st) -> In kv st -> collected now kv = false ->
  In kv (snd (cleanupExpiredDraftsSync now st)).
Proof.
  intros Hnd Hin Hc. rewrite cleanup_result. cbn [snd].
  apply filter_In. split; [exact Hin|].
  apply negb_true_iff. apply not_true_iff_false. intros Hk.
  apply key_in_In in Hk. rewrite keysToRemove_collected in Hk.
  apply in_map_iff in Hk. destruct Hk as ([k' v'] & Hk' & Hin').
  apply filter_In in Hin'. destruct Hin' as [Hin' Hc'].
  destruct kv as [k v]. cbn in Hk'. subst k'.
  pose proof (In_getItem _ _ _ Hnd Hin) as G1.
  pose proof (In_getItem _ _ _ Hnd Hin') as G2.
  rewrite G1 in G2. injection G2 as ->. congruence.
Qed.

End Cleanup.

(** X14. [cleanupExpiredDraftsSync] returns the number of entries it
    collects: those under a draft key that hold an expired draft or a
    text that is no draft. What it leaves holds no such entry, so a
    second pass at the same time removes nothing; every entry it leaves
    was there before; and when the keys of the storage differ, every
    entry that was not collected is still there. *)
Theorem cleanupExpiredDraftsSync_spec `{Platform} (now : Z) (st : Storage) :
  let r := cleanupExpiredDraftsSync now st in
  fst r = length (List.filter (collected now) st)
  /\ snd r = List.filter (fun kv => negb (key_in (keysToRemove now st) (fst kv))) st
  /\ (forall kv, In kv (snd r) -> In kv st /\ collected now kv = false)
  /\ cleanupExpiredDraftsSync now (snd r) = (0%nat, snd r)
  /\ (NoDup (map fst st) ->
      forall kv, In kv st -> collected now kv = false -> In kv (snd r)).
Proof.
  cbv zeta. split; [|split; [|split; [|split]]].
  - rewrite cleanup_result. reflexivity.
  - rewrite cleanup_result. reflexivity.
  - intros kv Hin. split.
    + rewrite cleanup_result in Hin. cbn [snd] in Hin.
      apply filter_In in Hin. tauto.
    + eapply cleanup_leaves_nothing_collected. exact Hin.
  - set (st' := snd (cleanupExpiredDraftsSync now st)).
    assert (Hnone : keysToRemove now st' = []).
    { apply nothing_collected_no_keys. intros kv Hin.
      eapply cleanup_leaves_nothing_collected. exact Hin. }
    unfold cleanupExpiredDraftsSync at 1. rewrite Hnone. reflexivity.
  - intros Hnd kv Hin Hc. apply cleanup_keeps_uncollected; assumption.
Qed.

(** ** Listing a storage without expired drafts *)

Section CleanListing.

Import LocalStorage DraftStorageManager.
Context `{Platform}.

Lemma skipn_nth_error {A} (l : list A) i x :
  nth_error l i = Some x -> skipn i l = x :: skipn (S i) l.
Proof.
  revert i. induction l as [|y l IH]; intros [|i]; cbn; try discriminate.
  - intros [= ->]. reflexivity.
  - intros Hx. apply IH. exact Hx.
Qed.

Lemma listDrafts_loop_clean now (st : Storage) :
  NoDup (map fst st) ->
  (forall kv, In kv st ->
     collected now kv = false /\ expiry_is_date (snd kv) = true) ->
  forall fuel i drafts,
    (length st - i <= fuel)%nat ->
    listDrafts_loop now fuel i st drafts = (drafts ++ listing (skipn i st), st).
Proof.
  intros Hnd Hall.
  induction fuel as [|fuel IH]; intros i drafts Hfuel; cbn [listDrafts_loop].
  - rewrite skipn_all2 by lia. cbn. rewrite app_nil_r. reflexivity.
  - destruct (Nat.ltb_spec i (length st)) as [Hlt|Hge].
    2:{ rewrite skipn_all2 by lia. cbn. rewrite app_nil_r. reflexivity. }
    destruct (nth_error st i) as [[k v]|] eqn:Hnth.
    2:{ apply nth_error_None in Hnth. lia. }
    unfold key. rewrite Hnth. cbn [option_map fst].
    rewrite (skipn_nth_error _ _ _ Hnth).
    assert (Hin : In (k, v) st) by (eapply nth_error_In; exact Hnth).
    rewrite (In_getItem _ _ _ Hnd Hin).
    destruct (Hall _ Hin) as [Hc Hd]. unfold collected in Hc. cbn [fst snd] in Hc, Hd.
    unfold listing at 1. cbn [flat_map fst snd]. fold (listing (skipn (S i) st)).
    destruct (is_draft_key k) eqn:Hk.
    + destruct (truthy_text v) eqn:Ht.
      * destruct v as [d|t]; cbn [andb] in Hc.
        -- cbn [expiry_is_date] in Hd.
           destruct (expiresAt (metadata d)) as [e|x] eqn:He; [|discriminate Hd].
           cbn [Date_parse date_gt date_le] in *.
           replace (now <=? e) with true
             by (symmetry; apply Z.leb_le; apply Z.ltb_ge in Hc; lia).
           rewrite IH by lia. rewrite <- app_assoc. reflexivity.
        -- discriminate Hc.
      * destruct v as [d|t]; [discriminate Ht|].
        rewrite IH by lia. reflexivity.
    + rewrite IH by lia. destruct v; reflexivity.
Qed.

Lemma insert_by_savedAt_length a l :
  length (insert_by_savedAt a l) = S (length l).
Proof.
  induction l as [|b l IH]; cbn [insert_by_savedAt length]; [reflexivity|].
  destruct (not_after a b); cbn [length]; [reflexivity|]. rewrite IH. reflexivity.
Qed.

Lemma sort_by_savedAt_length l : length (sort_by_savedAt l) = length l.
Proof.
  unfold sort_by_savedAt.
  induction l as [|a l IH]; cbn [fold_right length]; [reflexivity|].
  rewrite insert_by_savedAt_length, IH. reflexivity.
Qed.

Lemma insert_by_savedAt_In a l x :
  In x (insert_by_savedAt a l) <-> x = a \/ In x l.
Proof.
  induction l as [|b l IH]; cbn [insert_by_savedAt In].
  - intuition.
  - destruct (not_after a b); cbn [In]; [intuition|]. rewrite IH. intuition.
Qed.

Lemma sort_by_savedAt_In l x : In x (sort_by_savedAt l) <-> In x l.
Proof.
  unfold sort_by_savedAt.
  induction l as [|a l IH]; cbn [fold_right In]; [tauto|].
  rewrite insert_by_savedAt_In, IH. intuition.
Qed.

Lemma listing_In (st : Storage) k d :
  In (k, DraftJson d) st -> is_draft_key k = true ->
  In (metadata_of k (DraftJson d) d) (listing st).
Proof.
  intros Hin Hk. unfold listing. apply in_flat_map.
  exists (k, DraftJson d). split; [exact Hin|]. cbn [fst snd]. rewrite Hk. left. reflexivity.
Qed.

Lemma listing_length now (st : Storage) :
  (forall kv, In kv st -> collected now kv = false) ->
  length (listing st)
  = length (List.filter (fun kv => is_draft_key (fst kv) && truthy_text (snd kv)) st).
Proof.
  induction st as [|[k v] st IH]; intros Hall; [reflexivity|].
  unfold listing. cbn [flat_map List.filter fst snd]. fold (listing st).
  rewrite length_app, IH by (intros kv Hin; apply Hall; right; exact Hin).
  pose proof (Hall (k, v) (or_introl eq_refl)) as Hc.
  unfold collected in Hc. cbn [fst snd] in Hc.
  destruct (is_draft_key k); cbn [andb] in *.
  - destruct v as [d|t]; cbn [truthy_text] in *; [reflexivity|].
    rewrite andb_true_r in Hc. rewrite Hc. reflexivity.
  - destruct v; reflexivity.
Qed.

End CleanListing.

(** X15. After [cleanupExpiredDraftsSync], in a storage whose keys
    differ and whose drafts carry a date of expiry, [listDrafts] at the
    same time removes nothing and lists every draft once: the refresh
    that [useDraftManagement.cleanupExpiredDrafts] makes after a
    cleanup shows all the drafts that are left. *)
Theorem cleanup_then_listDrafts `{Platform} (now : Z)
    (drafts : list DraftMetadata.t) (st : Storage) :
  NoDup (map fst st) ->
  Forall (fun kv => expiry_is_date (snd kv) = true) st ->
  let st' := snd (cleanupExpiredDraftsSync now st) in
  DraftStorageManager.listDrafts now st'
  = (DraftStorageManager.sort_by_savedAt (listing st'), st')
  /\ (forall k d, In (k, DraftJson d) st' -> is_draft_key k = true ->
        In (DraftStorageManager.metadata_of k (DraftJson d) d)
           (fst (DraftStorageManager.listDrafts now st')))
  /\ length (fst (DraftStorageManager.listDrafts now st'))
     = length (List.filter
                 (fun kv => is_draft_key (fst kv) && truthy_text (snd kv)) st')
  /\ ((0 < fst (cleanupExpiredDraftsSync now st))%nat ->
        useDraftManagement.cleanupExpiredDrafts now drafts st
        = (fst (cleanupExpiredDraftsSync now st),
           DraftStorageManager.sort_by_savedAt (listing st'), st'))
  /\ (fst (cleanupExpiredDraftsSync now st) = 0%nat ->
        useDraftManagement.cleanupExpiredDrafts now drafts st = (0%nat, drafts, st)).
Proof.
  intros Hnd Hdated. cbv zeta.
  set (st' := snd (cleanupExpiredDraftsSync now st)).
  assert (Hst' : st' = List.filter
                         (fun kv => negb (key_in (keysToRemove now st) (fst kv))) st).
  { unfold st'. rewrite cleanup_result. reflexivity. }
  assert (Hnd' : NoDup (map fst st')).
  { rewrite Hst'. apply NoDup_keys_filter. exact Hnd. }
  assert (Hclean : forall kv, In kv st' ->
            collected now kv = false /\ expiry_is_date (snd kv) = true).
  { intros kv Hin. split.
    - eapply cleanup_leaves_nothing_collected. exact Hin.
    - rewrite Hst' in Hin. apply filter_In in Hin. destruct Hin as [Hin _].
      rewrite List.Forall_forall in Hdated. apply Hdated. exact Hin. }
  assert (Hlist : DraftStorageManager.listDrafts now st'
                  = (DraftStorageManager.sort_by_savedAt (listing st'), st')).
  { unfold DraftStorageManager.listDrafts.
    rewrite (listDrafts_loop_clean now st' Hnd' Hclean) by lia.
    cbn [skipn app]. reflexivity. }
  split; [exact Hlist|]. rewrite Hlist. cbn [fst].
  split; [|split; [|split]].
  - intros k d Hin Hk. apply sort_by_savedAt_In. apply listing_In; assumption.
  - rewrite sort_by_savedAt_length. apply (listing_length now).
    intros kv Hin. apply Hclean. exact Hin.
  - intros Hpos. unfold useDraftManagement.cleanupExpiredDrafts,
      useDraftManagement.refreshDrafts.
    destruct (cleanupExpiredDraftsSync now st) as [n s] eqn:E.
    cbn [fst snd] in *. subst st'. cbn [snd] in Hlist.
    apply Nat.ltb_lt in Hpos. rewrite Hpos, Hlist. reflexivity.
  - intros Hzero. unfold useDraftManagement.cleanupExpiredDrafts.
    rewrite cleanup_result in *. cbn [fst] in Hzero. rewrite Hzero.
    cbn [Nat.ltb Nat.leb]. f_equal.
    assert (Hkeys : keysToRemove now st = []).
    { rewrite keysToRemove_collected.
      apply length_zero_iff_nil in Hzero. rewrite Hzero. reflexivity. }
    rewrite Hkeys. cbn. apply filter_true.
Qed.

(** ** Saving, loading and the other entries of the storage *)


(** X17. When the keys of the storage differ, a successful [saveDraft]
    leaves every other entry that is not collected as it was (an
    unexpired draft of another session, a text under another key), and
    the keys still differ afterwards. *)
Theorem saveDraft_keeps_other_entries `{Platform} (now : Z) (wizardId : string)
    (ws : WizardState) (st st' : Storage) (key : string) (v : StoredText) :
  NoDup (map fst st) ->
  key <> draft_key wizardId ->
  LocalStorage.getItem key st = Some v ->
  collected now (key, v) = false ->
  DraftStorageManager.saveDraft now wizardId ws st = (Ok true, st') ->
  LocalStorage.getItem key st' = Some v
  /\ NoDup (map fst st').
Proof.
  intros Hnd Hne Hget Hc Hsave.
  unfold DraftStorageManager.saveDraft in Hsave.
  destruct (StorageQuotaManager.checkQuota _ st); cbn [negb] in Hsave.
  - injection Hsave as <-. split.
    + rewrite getItem_setItem_ne by exact Hne. exact Hget.
    + apply NoDup_keys_setItem. exact Hnd.
  - unfold StorageQuotaManager.handleQuotaExceeded in Hsave.
    rewrite cleanup_result in Hsave.
    destruct (0 <? length (List.filter (collected now) st))%nat;
      cbn [negb] in Hsave; [|discriminate Hsave].
    injection Hsave as <-. split.
    + rewrite getItem_setItem_ne by exact Hne.
      rewrite (getItem_filter_keys
                 (fun k => negb (key_in (keysToRemove now st) k))).
      destruct (key_in (keysToRemove now st) key) eqn:Hk; [|exact Hget].
      exfalso. apply key_in_In in Hk. rewrite keysToRemove_collected in Hk.
      apply in_map_iff in Hk. destruct Hk as ([k' v'] & Hk' & Hin').
      cbn in Hk'. subst k'. apply filter_In in Hin'. destruct Hin' as [Hin' Hc'].
      rewrite (In_getItem _ _ _ Hnd Hin') in Hget. injection Hget as ->.
      congruence.
    + apply NoDup_keys_setItem. apply NoDup_keys_filter. exact Hnd.
Qed.

Lemma validateDraftRetention_iff saved t :
  validateDraftRetention (Some saved) t = true
  <-> t - saved <= 24 * 60 * 60 * 1000.
Proof.
  unfold validateDraftRetention. rewrite Qle_bool_iff.
  change (1000 * 60 * 60) with 3600000.
  unfold Qle, Qdiv, Qmult, Qinv, inject_Z. cbn. lia.
Qed.

(** X18. For a draft that [saveDraft] wrote, [loadDraft] and
    [validateDraftRetention] draw the same line: the draft is returned
    at the times at which its age passes the retention check, and is
    removed and reported absent at every other time. *)
Theorem loadDraft_agrees_with_retention `{Platform} (now t : Z)
    (wizardId : string) (ws : WizardState) (st : Storage) :
  LocalStorage.getItem (draft_key wizardId) st
  = Some (DraftJson (DraftStorageManager.draft_of now wizardId ws)) ->
  (validateDraftRetention (Some now) t = true ->
     DraftStorageManager.loadDraft t wizardId st = (Ok (Some (toJSON ws)), st))
  /\ (validateDraftRetention (Some now) t = false ->
        DraftStorageManager.loadDraft t wizardId st
        = (Ok None, LocalStorage.removeItem (draft_key wizardId) st))
  /\ (validateDraftRetention (Some now) t = true
      <-> exists loaded,
            fst (DraftStorageManager.loadDraft t wizardId st) = Ok (Some loaded)).
Proof.
  intros Hget.
  assert (Hin : validateDraftRetention (Some now) t = true ->
            DraftStorageManager.loadDraft t wizardId st = (Ok (Some (toJSON ws)), st)).
  { intros Hv. apply validateDraftRetention_iff in Hv.
    apply (loadDraft_within now); [exact Hget|lia]. }
  assert (Hout : validateDraftRetention (Some now) t = false ->
            DraftStorageManager.loadDraft t wizardId st
            = (Ok None, LocalStorage.removeItem (draft_key wizardId) st)).
  { intros Hv. apply not_true_iff_false in Hv.
    rewrite validateDraftRetention_iff in Hv.
    eapply loadDraft_expired; [exact Hget|reflexivity|].
    unfold DraftStorageManager.retention_ms,
      StorageConstants.DRAFT_RETENTION_HOURS. lia. }
  split; [exact Hin|]. split; [exact Hout|]. split.
  - intros Hv. eexists. rewrite (Hin Hv). reflexivity.
  - intros [loaded Hl].
    destruct (validateDraftRetention (Some now) t) eqn:Hv; [reflexivity|].
    rewrite (Hout eq_refl) in Hl. discriminate Hl.
Qed.

(** X19. [loadDraft], [hasDraft] and [deleteDraft] touch no key but the
    one of the session asked for: every other entry reads as before. *)
Theorem other_keys_untouched `{Platform} (now : Z) (wizardId : string)
    (st : Storage) (key : string) :
  key <> draft_key wizardId ->
  LocalStorage.getItem key (snd (DraftStorageManager.loadDraft now wizardId st))
  = LocalStorage.getItem key st
  /\ LocalStorage.getItem key (snd (DraftStorageManager.hasDraft now wizardId st))
     = LocalStorage.getItem key st
  /\ LocalStorage.getItem key (snd (DraftStorageManager.deleteDraft wizardId st))
     = LocalStorage.getItem key st.
Proof.
  intros Hne.
  assert (Hload : LocalStorage.getItem key
                    (snd (DraftStorageManager.loadDraft now wizardId st))
                  = LocalStorage.getItem key st).
  { unfold DraftStorageManager.loadDraft.
    destruct (LocalStorage.getItem (draft_key wizardId) st) as [stored|];
      [|reflexivity].
    destruct (truthy_text stored); cbn [negb]; [|reflexivity].
    destruct stored as [d|x]; [|reflexivity].
    destruct (date_gt now _); cbn [snd].
    - apply getItem_removeItem_ne. exact Hne.
    - destruct (truthy_string _); [|reflexivity].
      destruct (negb _); reflexivity. }
  split; [exact Hload|]. split.
  - unfold DraftStorageManager.hasDraft.
    destruct (DraftStorageManager.loadDraft now wizardId st) as [[d|e] s];
      exact Hload.
  - cbn [DraftStorageManager.deleteDraft snd].
    apply getItem_removeItem_ne. exact Hne.
Qed.


(** ** The order of the list and the retention check *)

Section ListOrder.

Import DraftStorageManager.

Let in_order (a b : DraftMetadata.t) : Prop := not_after a b = true.

Lemma not_after_total a b : not_after a b = false -> not_after b a = true.
Proof.
  unfold not_after.
  destruct (DraftMetadata.savedAt a), (DraftMetadata.savedAt b);
    try discriminate.
  intros Hab. apply Z.leb_gt in Hab. apply Z.leb_le. lia.
Qed.

Lemma insert_by_savedAt_HdRel b a l :
  HdRel in_order b l -> in_order b a -> HdRel in_order b (insert_by_savedAt a l).
Proof.
  intros Hhd Hba. destruct l as [|c l]; cbn [insert_by_savedAt].
  - constructor. exact Hba.
  - destruct (not_after a c); constructor; [exact Hba|].
    inversion Hhd; assumption.
Qed.

Lemma insert_by_savedAt_Sorted a l :
  Sorted in_order l -> Sorted in_order (insert_by_savedAt a l).
Proof.
  induction 1 as [|b l Hs IH Hhd]; cbn [insert_by_savedAt].
  - repeat constructor.
  - destruct (not_after a b) eqn:Hab.
    + constructor; [constructor; assumption|]. constructor. exact Hab.
    + constructor; [exact IH|].
      apply insert_by_savedAt_HdRel; [exact Hhd|].
      apply not_after_total. exact Hab.
Qed.

Lemma sort_by_savedAt_Sorted l : Sorted in_order (sort_by_savedAt l).
Proof.
  unfold sort_by_savedAt.
  induction l as [|a l IH]; cbn [fold_right]; [constructor|].
  apply insert_by_savedAt_Sorted. exact IH.
Qed.

Lemma Sorted_valid_dates l :
  Sorted in_order l ->
  Forall (fun m => DraftMetadata.savedAt m <> None) l ->
  Sorted saved_no_earlier l.
Proof.
  induction 1 as [|a l Hs IH Hhd]; intros Hvalid; [constructor|].
  inversion Hvalid as [|? ? Ha Hl]; subst.
  constructor; [apply IH; exact Hl|].
  destruct Hhd as [|b l Hab]; constructor.
  inversion Hl as [|? ? Hb _]; subst.
  unfold in_order, not_after in Hab. unfold saved_no_earlier.
  destruct (DraftMetadata.savedAt a) as [ta|]; [|contradiction].
  destruct (DraftMetadata.savedAt b) as [tb|]; [|contradiction].
  exists ta, tb. apply Z.leb_le in Hab. auto.
Qed.

Lemma saved_no_earlier_trans a b c :
  saved_no_earlier a b -> saved_no_earlier b c -> saved_no_earlier a c.
Proof.
  intros (ta & tb & Ha & Hb & Hab) (tb' & tc & Hb' & Hc & Hbc).
  rewrite Hb in Hb'. injection Hb' as <-.
  exists ta, tc. repeat split; try assumption. lia.
Qed.

Lemma sort_by_savedAt_Forall (P : DraftMetadata.t -> Prop) l :
  Forall P l -> Forall P (sort_by_savedAt l).
Proof.
  unfold sort_by_savedAt.
  induction 1 as [|a l Ha Hl IH]; cbn [fold_right]; [constructor|].
  apply insert_by_savedAt_Forall; assumption.
Qed.

End ListOrder.

(** X21. [listDrafts] returns the newest draft first: each entry is in
    order with the one after it, and when every date of saving is valid
    each entry was saved no earlier than all the entries after it. *)
Theorem listDrafts_newest_first `{Platform} (now : Z) (st : Storage) :
  let l := fst (DraftStorageManager.listDrafts now st) in
  Sorted (fun a b => DraftStorageManager.not_after a b = true) l
  /\ (Forall (fun m => DraftMetadata.savedAt m <> None) l ->
      StronglySorted saved_no_earlier l).
Proof.
  cbv zeta. unfold DraftStorageManager.listDrafts.
  destruct (DraftStorageManager.listDrafts_loop now (length st) 0 st [])
    as [drafts st'].
  cbn [fst]. split; [apply sort_by_savedAt_Sorted|].
  intros Hvalid. apply Sorted_StronglySorted.
  - intros a b c. apply saved_no_earlier_trans.
  - apply Sorted_valid_dates; [apply sort_by_savedAt_Sorted|exact Hvalid].
Qed.

Section Retention.

Import LocalStorage DraftStorageManager.
Context `{Platform}.

Let within (now : Z) (m : DraftMetadata.t) : Prop :=
  validateDraftRetention (DraftMetadata.savedAt m) now = true.

Lemma listDrafts_loop_within now fuel :
  forall i (st : Storage) drafts,
    Forall (fun kv => dated_by_saveDraft (snd kv) = true) st ->
    Forall (within now) drafts ->
    Forall (within now) (fst (listDrafts_loop now fuel i st drafts)).
Proof.
  induction fuel as [|fuel IH]; intros i st drafts Hst Hdr;
    cbn [listDrafts_loop]; [exact Hdr|].
  assert (Hrm : forall k,
            Forall (fun kv => dated_by_saveDraft (snd kv) = true) (removeItem k st)).
  { intros k. unfold removeItem. rewrite List.Forall_forall in *.
    intros kv Hin. apply filter_In in Hin. apply Hst. tauto. }
  destruct (i <? length st)%nat; [|exact Hdr].
  destruct (key i st) as [k|]; [|apply IH; assumption].
  destruct (is_draft_key k); [|apply IH; assumption].
  destruct (getItem k st) as [stored|] eqn:Hget; [|apply IH; assumption].
  destruct (truthy_text stored); [|apply IH; assumption].
  destruct stored as [d|x]; [|apply IH; [apply Hrm|assumption]].
  destruct (date_le now (Date_parse (expiresAt (metadata d)))) eqn:Hle;
    [|apply IH; [apply Hrm|assumption]].
  apply IH; [exact Hst|].
  apply Forall_app. split; [exact Hdr|]. constructor; [|constructor].
  apply getItem_In in Hget. rewrite List.Forall_forall in Hst.
  specialize (Hst _ Hget). cbn [snd dated_by_saveDraft] in Hst.
  unfold within, metadata_of. cbn [DraftMetadata.savedAt].
  destruct (savedAt (metadata d)) as [s|]; [|discriminate Hst].
  destruct (expiresAt (metadata d)) as [e|]; [|discriminate Hst].
  apply Z.eqb_eq in Hst. cbn [Date_parse date_le] in *.
  apply Z.leb_le in Hle. apply validateDraftRetention_iff.
  unfold retention_ms, StorageConstants.DRAFT_RETENTION_HOURS in Hst. lia.
Qed.

Lemma listDrafts_within now (st : Storage) :
  Forall (fun kv => dated_by_saveDraft (snd kv) = true) st ->
  Forall (within now) (fst (listDrafts now st)).
Proof.
  intros Hst. unfold listDrafts.
  pose proof (listDrafts_loop_within now (length st) 0 st [] Hst
                ltac:(constructor)) as Hloop.
  destruct (listDrafts_loop now (length st) 0 st []) as [drafts st'].
  cbn [fst] in *. apply sort_by_savedAt_Forall. exact Hloop.
Qed.

Lemma filter_none {A} (f : A -> bool) (l : list A) :
  Forall (fun x => f x = false) l -> List.filter f l = [].
Proof.
  induction 1 as [|x l Hx _ IH]; cbn; [reflexivity|]. rewrite Hx. exact IH.
Qed.

Lemma filter_all {A} (f : A -> bool) (l : list A) :
  Forall (fun x => f x = true) l -> List.filter f l = l.
Proof.
  induction 1 as [|x l Hx _ IH]; cbn; [reflexivity|]. rewrite Hx, IH. reflexivity.
Qed.

End Retention.

(** X22. When every stored draft carries the two dates that
    [saveDraft] writes, [checkCompliance] finds no draft beyond its
    retention: every draft that [listDrafts] returns passes
    [validateDraftRetention] at the same time, so the only violation
    that can be reported is that of the quota. *)
Theorem checkCompliance_retention `{Platform} (now : Z) (st : Storage) :
  Forall (fun kv => dated_by_saveDraft (snd kv) = true) st ->
  let r := fst (useStorageCompliance.checkCompliance now st) in
  let status := useStorageCompliance.retentionStatus r in
  useStorageCompliance.expiredDrafts status = 0%nat
  /\ useStorageCompliance.withinRetention status
     = useStorageCompliance.totalDrafts status
  /\ useStorageCompliance.totalDrafts status
     = length (fst (DraftStorageManager.listDrafts now st))
  /\ snd (useStorageCompliance.checkCompliance now st)
     = snd (DraftStorageManager.listDrafts now st)
  /\ (useStorageCompliance.isCompliant r = true
      <-> useStorageCompliance.percentage
            (snd (DraftStorageManager.listDrafts now st)) <= 95)
  /\ (useStorageCompliance.isCompliant r = true
      <-> useStorageCompliance.violations r = [])
  /\ (useStorageCompliance.isCompliant r = false ->
        useStorageCompliance.violations r = [js "Storage quota exceeded 95%"]).
Proof.
  intros Hst. cbv zeta.
  pose proof (listDrafts_within now st Hst) as Hwithin.
  unfold useStorageCompliance.checkCompliance.
  destruct (DraftStorageManager.listDrafts now st) as [drafts st'].
  cbn [fst snd] in *.
  assert (Hnone : List.filter (useStorageCompliance.exceeds now) drafts = []).
  { apply filter_none. eapply Forall_impl; [exact Hwithin|].
    intros m Hm. unfold useStorageCompliance.exceeds. cbv beta in Hm.
    rewrite Hm. reflexivity. }
  assert (Hall : List.filter
                   (fun draft => negb (useStorageCompliance.exceeds now draft))
                   drafts = drafts).
  { apply filter_all. eapply Forall_impl; [exact Hwithin|].
    intros m Hm. unfold useStorageCompliance.exceeds. cbv beta in Hm.
    rewrite Hm. reflexivity. }
  rewrite Hnone, Hall.
  cbn [useStorageCompliance.retentionStatus useStorageCompliance.expiredDrafts
       useStorageCompliance.withinRetention useStorageCompliance.totalDrafts
       useStorageCompliance.isCompliant useStorageCompliance.violations
       length map].
  split; [reflexivity|]. split; [reflexivity|]. split; [reflexivity|].
  split; [reflexivity|].
  destruct (Z.ltb_spec 95 (useStorageCompliance.percentage st')) as [Hhi|Hlo].
  - cbn [app length Nat.eqb]. split; [|split].
    + split; [discriminate|lia].
    + split; discriminate.
    + reflexivity.
  - cbn [length Nat.eqb]. split; [|split].
    + split; [intros _; exact Hlo|reflexivity].
    + split; reflexivity.
    + discriminate.
Qed.

(** ** The summary and the output *)

Section SummaryFacts.

Import useOutputGeneration.

Lemma eqb_eq (s t : jsstring) : JsString.eqb s t = true <-> s = t.
Proof.
  revert t. induction s as [|c s IH]; intros [|d t]; cbn;
    try (split; [discriminate|discriminate]); [tauto|].
  rewrite andb_true_iff, Z.eqb_eq, IH. split.
  - intros [-> ->]. reflexivity.
  - intros [= -> ->]. split; reflexivity.
Qed.

Lemma generateSummary_length ws qs :
  (14 <= length (text (generateSummary ws qs)) <= 153)%nat.
Proof.
  unfold generateSummary. cbn [text].
  generalize (answers ws !! "layer1_purpose"%string) as purpose.
  generalize (answers ws !! "layer1_kpi"%string) as kpi.
  intros kpi purpose.
  assert (H2 : length (js " (") = 2%nat) by reflexivity.
  assert (H1 : length (js ")") = 1%nat) by reflexivity.
  assert (H14 : length (js "を目的とした業務改善システム") = 14%nat) by reflexivity.
  assert (H3 : length (js "...") = 3%nat) by reflexivity.
  pose proof (firstn_le_length 100 (String_opt purpose)) as P100.
  pose proof (firstn_le_length 100 (String_opt kpi)) as K100.
  pose proof (firstn_le_length 50 (String_opt kpi)) as K50.
  unfold slice0, nonempty.
  repeat match goal with
         | |- context [if ?c then _ else _] => destruct c eqn:?
         end;
    repeat match goal with
           | E : (_ <? _)%nat = true |- _ => apply Nat.ltb_lt in E
           | E : (_ <? _)%nat = false |- _ => apply Nat.ltb_ge in E
           end;
    rewrite ?length_app, ?H1, ?H2, ?H3, ?H14 in *; cbn [length app] in *;
    rewrite ?length_app, ?H1, ?H2, ?H3, ?H14 in *; lia.
Qed.

Lemma keyTerms_fold (p : jsstring -> bool) terms :
  forall acc,
    let result :=
      fold_left
        (fun keyTerms term =>
           if p term && negb (existsb (JsString.eqb term) keyTerms)
           then keyTerms ++ [term] else keyTerms)
        terms acc in
    (forall x, In x result -> In x acc \/ (In x terms /\ p x = true))
    /\ (forall x, In x acc -> In x result)
    /\ (forall x, In x terms -> p x = true -> In x result)
    /\ (NoDup acc -> NoDup result).
Proof.
  induction terms as [|t terms IH]; intros acc; cbv zeta; cbn [fold_left].
  - repeat split; try tauto. intros x [].
  - specialize (IH (if p t && negb (existsb (JsString.eqb t) acc)
                    then acc ++ [t] else acc)).
    cbv zeta in IH. destruct IH as (IH1 & IH2 & IH3 & IH4).
    destruct (p t) eqn:Hp; cbn [andb] in *.
    + destruct (existsb (JsString.eqb t) acc) eqn:Hex; cbn [negb] in *.
      * apply existsb_exists in Hex. destruct Hex as (y & Hy & Hty).
        apply eqb_eq in Hty. subst y.
        repeat split.
        -- intros x Hx. destruct (IH1 x Hx) as [|[? ?]]; [left; assumption|].
           right. split; [right; assumption|assumption].
        -- exact IH2.
        -- intros x [<-|Hx] Hpx; [apply IH2; exact Hy|apply IH3; assumption].
        -- exact IH4.
      * assert (Hnotin : ~ In t acc).
        { intros Hin. apply not_true_iff_false in Hex. apply Hex.
          apply existsb_exists. exists t. split; [exact Hin|].
          apply eqb_eq. reflexivity. }
        repeat split.
        -- intros x Hx. destruct (IH1 x Hx) as [Hx'|[? ?]].
           ++ apply in_app_or in Hx'. destruct Hx' as [|[<-|[]]];
                [left; assumption|right; split; [left; reflexivity|exact Hp]].
           ++ right. split; [right; assumption|assumption].
        -- intros x Hx. apply IH2. apply in_or_app. left. exact Hx.
        -- intros x [<-|Hx] Hpx; [|apply IH3; assumption].
           apply IH2. apply in_or_app. right. left. reflexivity.
        -- intros Hnd. apply IH4. apply NoDup_app. split; [exact Hnd|].
           split; [|apply NoDup_singleton].
           intros x Hx Hx'. apply list_elem_of_In in Hx, Hx'.
           destruct Hx' as [<-|[]]. contradiction.
    + repeat split.
      * intros x Hx. destruct (IH1 x Hx) as [|[? ?]]; [left; assumption|].
        right. split; [right; assumption|assumption].
      * exact IH2.
      * intros x [<-|Hx] Hpx; [congruence|apply IH3; assumption].
      * exact IH4.
Qed.

End SummaryFacts.

(** X23. The summary has between 14 and 153 code units: at most 100 of
    the purpose, at most 50 of the expected effect in brackets, and the
    closing phrase only under a summary shorter than 50. The branch
    that cuts a summary of more than 500 code units is never taken. *)
Theorem generateSummary_never_truncates (ws : WizardState)
    (qs : list QuestionDefinition) :
  (14 <= length (text (useOutputGeneration.generateSummary ws qs)) <= 153)%nat
  /\ (useOutputGeneration.truthy (answers ws !! "layer1_purpose"%string) = false ->
      useOutputGeneration.truthy (answers ws !! "layer1_kpi"%string) = false ->
      text (useOutputGeneration.generateSummary ws qs)
      = js "を目的とした業務改善システム")
  /\ (useOutputGeneration.truthy (answers ws !! "layer1_purpose"%string) = true ->
      exists rest,
        text (useOutputGeneration.generateSummary ws qs)
        = slice0 100 (useOutputGeneration.String_opt
                        (answers ws !! "layer1_purpose"%string)) ++ rest).
Proof.
  split; [apply generateSummary_length|]. split.
  - intros Hp Hk. unfold useOutputGeneration.generateSummary. cbn [text].
    rewrite Hp, Hk. reflexivity.
  - intros Hp. unfold useOutputGeneration.generateSummary. cbn [text].
    rewrite Hp. cbn [app].
    assert (H2 : length (js " (") = 2%nat) by reflexivity.
    assert (H1 : length (js ")") = 1%nat) by reflexivity.
    assert (H14 : length (js "を目的とした業務改善システム") = 14%nat) by reflexivity.
    pose proof (firstn_le_length 100
                  (useOutputGeneration.String_opt
                     (answers ws !! "layer1_purpose"%string))) as P100.
    pose proof (firstn_le_length 100
                  (useOutputGeneration.String_opt
                     (answers ws !! "layer1_kpi"%string))) as K100.
    pose proof (firstn_le_length 50
                  (useOutputGeneration.String_opt
                     (answers ws !! "layer1_kpi"%string))) as K50.
    unfold slice0, useOutputGeneration.nonempty in *.
    repeat match goal with
           | |- context [if ?c then _ else _] => destruct c eqn:?
           end;
      repeat match goal with
             | E : (_ <? _)%nat = true |- _ => apply Nat.ltb_lt in E
             | E : (_ <? _)%nat = false |- _ => apply Nat.ltb_ge in E
             end;
      first [ rewrite <- ?app_assoc; eexists; reflexivity
            | exists []; rewrite app_nil_r; reflexivity
            | exfalso; rewrite ?length_app, ?H1, ?H2, ?H14 in *;
              cbn [length app] in *;
              rewrite ?length_app, ?H1, ?H2, ?H14 in *; lia ].
Qed.

(** X24. The key terms of the summary are the common terms that occur
    in the answers on purpose, expected effect, actors and interface:
    each key term is such a term, every such term is a key term, and no
    term is listed twice. *)
Theorem keyTerms_spec (ws : WizardState) (qs : list QuestionDefinition) :
  let terms := keyTerms (useOutputGeneration.generateSummary ws qs) in
  (forall term, In term terms <->
     In term useOutputGeneration.commonTerms
     /\ includes term (summary_source ws) = true)
  /\ NoDup terms
  /\ (length terms <= 11)%nat.
Proof.
  cbv zeta. unfold useOutputGeneration.generateSummary. cbn [keyTerms].
  fold (summary_source ws).
  destruct (keyTerms_fold (fun term => includes term (summary_source ws))
              useOutputGeneration.commonTerms []) as (H1 & _ & H3 & H4).
  cbv beta zeta in H1, H3, H4.
  assert (Hiff : forall term,
            In term (fold_left
                       (fun keyTerms term =>
                          if includes term (summary_source ws)
                             && negb (existsb (JsString.eqb term) keyTerms)
                          then keyTerms ++ [term] else keyTerms)
                       useOutputGeneration.commonTerms [])
            <-> In term useOutputGeneration.commonTerms
                /\ includes term (summary_source ws) = true).
  { intros term. split.
    - intros Hin. destruct (H1 term Hin) as [[]|Hok]. exact Hok.
    - intros [Hin Hp]. apply H3; assumption. }
  split; [exact Hiff|]. split; [apply H4; constructor|].
  change 11%nat with (length useOutputGeneration.commonTerms).
  apply NoDup_incl_length.
  - apply NoDup_ListNoDup. apply H4. constructor.
  - intros term Hin. apply Hiff in Hin. tauto.
Qed.

(** X25. An output is returned only when the two clock readings are at
    most five seconds apart; with the structure check on it also needs
    a non-empty answer on the purpose, and its summary then has 50 to
    153 code units and its document at least 100 characters of text. *)
Theorem returned_output_facts (o : OutputGenerationOptions)
    (clock : GenerationClock) (ws : WizardState)
    (qs : list QuestionDefinition) (out : OutputSpecification) :
  output (useOutputGeneration.generateOutput o clock ws qs) = Some out ->
  endTime clock - startTime clock <= 5000
  /\ error (useOutputGeneration.generateOutput o clock ws qs) = None
  /\ summary out = useOutputGeneration.generateSummary ws qs
  /\ structuredData out = useOutputGeneration.generateStructuredData ws qs
  /\ (enableStructuredDataValidation o = true ->
        useOutputGeneration.truthy (answers ws !! "layer1_purpose"%string) = true
        /\ (50 <= length (text (summary out)) <= 153)%nat
        /\ (100 <= wordCount (markdownSpec out))%nat).
Proof.
  unfold useOutputGeneration.generateOutput.
  destruct (negb (isComplete ws)); [discriminate|].
  destruct (size (answers ws) <? 12)%nat; [discriminate|].
  destruct (enableStructuredDataValidation o && negb _) eqn:Hv; [discriminate|].
  destruct (negb (ConstitutionalValidator.validateOutputGenerationTime _ _))
    eqn:Ht; [discriminate|].
  cbn [output error]. intros [= <-]. cbn [summary structuredData markdownSpec].
  apply negb_false_iff in Ht.
  unfold ConstitutionalValidator.validateOutputGenerationTime in Ht.
  apply Z.leb_le in Ht.
  split; [exact Ht|]. split; [reflexivity|]. split; [reflexivity|].
  split; [reflexivity|].
  intros Hon. rewrite Hon in Hv. cbn [andb] in Hv. apply negb_false_iff in Hv.
  unfold useOutputGeneration.validateOutputStructure in Hv.
  cbn [summary structuredData markdownSpec] in Hv.
  destruct (negb (useOutputGeneration.nonempty _) || (_ <? 50)%nat
            || (500 <? _)%nat) eqn:Hw; [discriminate Hv|].
  destruct (negb (useOutputGeneration.nonempty
                    (purpose_primary _))) eqn:Hp; [discriminate Hv|].
  destruct (negb (useOutputGeneration.nonempty (content _))
            || (wordCount _ <? 100)%nat) eqn:Hc; [discriminate Hv|].
  apply orb_false_iff in Hw. destruct Hw as [Hw _].
  apply orb_false_iff in Hw. destruct Hw as [_ H50].
  apply orb_false_iff in Hc. destruct Hc as [_ H100].
  apply Nat.ltb_ge in H50, H100.
  pose proof (generateSummary_length ws qs) as Hlen.
  split; [|split; [lia|exact H100]].
  apply negb_false_iff in Hp.
  unfold useOutputGeneration.generateStructuredData in Hp. cbn [purpose_primary] in Hp.
  destruct (useOutputGeneration.truthy (answers ws !! "layer1_purpose"%string));
    [reflexivity|discriminate Hp].
Qed.

(** ** The debounced auto-save *)

Section DebounceFacts.

Import Debounce.
Context {A : Type}.
Variable delay : Z.

Lemma run_app (d : t A) events1 events2 :
  run delay d (events1 ++ events2)
  = match run delay d events1 with
    | Some d' => run delay d' events2
    | None => None
    end.
Proof.
  revert d. induction events1 as [|e events1 IH]; intros d; cbn [run app];
    [reflexivity|].
  destruct (step delay d e); [apply IH|reflexivity].
Qed.

Lemma run_timers_idle (d : t A) events :
  pending d = None -> Forall (fun e => is_timer e = true) events ->
  events <> [] -> run delay d events = None.
Proof.
  intros Hp Hall Hne. destruct events as [|e events]; [contradiction|].
  inversion Hall as [|? ? He _]; subst.
  destruct e as [now args|now]; [discriminate He|].
  cbn [run step]. rewrite Hp. reflexivity.
Qed.

End DebounceFacts.

(** X26. When the timer of the debounced function runs, it runs for the
    most recent call: no other timer has run since that call, at least
    [delay] has passed since it, and [func] receives the arguments of
    that call. A timer can run at any such time, and once it has run no
    timer runs again before the next call. *)
Theorem debounce_last_call_wins (A : Type) (delay start : Z)
    (before between : list (Debounce.Event A)) (called : Z) (args : A)
    (now : Z) (d : Debounce.t A) :
  Forall (fun e => Debounce.is_timer e = true) between ->
  Debounce.run delay (Debounce.initial start)
    (before ++ Debounce.Call called args :: between ++ [Debounce.Timer now])
  = Some d ->
  between = []
  /\ called + delay <= now
  /\ (exists earlier, Debounce.runs d = earlier ++ [(now, args)])
  /\ Debounce.pending d = None
  /\ (forall later, Debounce.run delay d [Debounce.Timer later] = None)
  /\ (forall now', now <= now' ->
        exists d', Debounce.run delay (Debounce.initial start)
                     (before ++ [Debounce.Call called args; Debounce.Timer now'])
                   = Some d').
Proof.
  intros Htimers Hrun.
  rewrite run_app in Hrun.
  destruct (Debounce.run delay (Debounce.initial start) before) as [d0|] eqn:H0;
    [|discriminate Hrun].
  cbn [Debounce.run Debounce.step] in Hrun.
  destruct (Debounce.clock d0 <=? called) eqn:Hclock; [|discriminate Hrun].
  assert (Hbetween : between = []).
  { destruct between as [|e between]; [reflexivity|]. exfalso.
    inversion Htimers as [|? ? He Hrest]; subst.
    destruct e as [t a|t]; [discriminate He|].
    cbn [app Debounce.run Debounce.step Debounce.pending Debounce.clock] in Hrun.
    destruct ((called <=? t) && (called + delay <=? t)); [|discriminate Hrun].
    rewrite run_timers_idle in Hrun; [discriminate Hrun|reflexivity| |].
    - apply Forall_app. split; [exact Hrest|]. repeat constructor.
    - destruct between; discriminate. }
  subst between.
  cbn [app Debounce.run Debounce.step Debounce.pending Debounce.clock] in Hrun.
  destruct ((called <=? now) && (called + delay <=? now)) eqn:Hdue;
    [|discriminate Hrun].
  injection Hrun as <-. apply andb_true_iff in Hdue. destruct Hdue as [Hc Hd].
  apply Z.leb_le in Hc, Hd.
  split; [reflexivity|]. split; [exact Hd|].
  cbn [Debounce.runs Debounce.pending].
  split; [eexists; reflexivity|]. split; [reflexivity|].
  split; [intros later; reflexivity|].
  intros now' Hnow'. rewrite run_app, H0.
  cbn [Debounce.run Debounce.step Debounce.pending Debounce.clock].
  rewrite Hclock.
  cbn [Debounce.run Debounce.step Debounce.pending Debounce.clock].
  replace ((called <=? now') && (called + delay <=? now')) with true
    by (symmetry; apply andb_true_iff; split; apply Z.leb_le; lia).
  eexists. reflexivity.
Qed.

(** ** User preferences *)

Section Preferences.

Import UserPreferencesSchema UserPreferencesManager.


Lemma parse_enum_member allowed d v s :
  member allowed d = true -> parse_enum allowed d v = Some s ->
  member allowed s = true.
Proof.
  intros Hd. destruct v as [[x| | |]|]; cbn; try discriminate.
  - destruct (member allowed x) eqn:E; [|discriminate]. intros [= <-]. exact E.
  - intros [= <-]. exact Hd.
Qed.

Lemma parse_valid raw p : parse raw = Some p -> valid p = true.
Proof.
  unfold parse.
  destruct (parse_enum languages "ja" (RawPreferences.language raw)) as [l|] eqn:Hl;
    [|discriminate].
  destruct (parse_enum themes "auto" (RawPreferences.theme raw)) as [t|] eqn:Ht;
    [|discriminate].
  destruct (parse_number _ _); [|discriminate].
  destruct (parse_boolean true _); [|discriminate].
  destruct (parse_boolean false _); [|discriminate].
  destruct (parse_boolean false _); [|discriminate].
  intros [= <-]. unfold valid. cbn [UserPreferences.language UserPreferences.theme].
  rewrite (parse_enum_member languages "ja" _ _ eq_refl Hl).
  rewrite (parse_enum_member themes "auto" _ _ eq_refl Ht). reflexivity.
Qed.

Context `{PreferencesJson}.

Lemma getPreferences_valid (st : Storage) : valid (getPreferences st) = true.
Proof.
  unfold getPreferences.
  destruct (LocalStorage.getItem _ st) as [stored|]; [|reflexivity].
  destruct (negb (truthy_text stored)); [reflexivity|].
  destruct stored as [d|text]; [reflexivity|].
  destruct (preferences_parse text) as [raw|]; [|reflexivity].
  destruct (parse raw) as [p|] eqn:Hp; [|reflexivity].
  eapply parse_valid. exact Hp.
Qed.


End Preferences.

(** X27. [getPreferences] always returns preferences that pass the
    schema. It returns the defaults when nothing is stored, after
    [resetPreferences], and when the stored object fails the schema:
    one field that is out of its enumeration discards every stored
    field, not only that one. *)
Theorem getPreferences_total `{PreferencesJson} (st : Storage) :
  UserPreferencesSchema.valid (UserPreferencesManager.getPreferences st) = true
  /\ (LocalStorage.getItem UserPreferencesManager.USER_PREFERENCES_KEY st = None ->
        UserPreferencesManager.getPreferences st = UserPreferencesSchema.defaults)
  /\ UserPreferencesManager.getPreferences
       (snd (UserPreferencesManager.resetPreferences st))
     = UserPreferencesSchema.defaults
  /\ (forall text raw,
        LocalStorage.getItem UserPreferencesManager.USER_PREFERENCES_KEY st
        = Some (Other text) ->
        preferences_parse text = Some raw ->
        UserPreferencesSchema.parse raw = None ->
        UserPreferencesManager.getPreferences st = UserPreferencesSchema.defaults)
  /\ (forall raw l,
        RawPreferences.language raw = Some (JString l) ->
        UserPreferencesSchema.member UserPreferencesSchema.languages l = false ->
        UserPreferencesSchema.parse raw = None).
Proof.
  split; [apply getPreferences_valid|]. split; [|split; [|split]].
  - intros Hnone. unfold UserPreferencesManager.getPreferences.
    rewrite Hnone. reflexivity.
  - unfold UserPreferencesManager.getPreferences,
      UserPreferencesManager.resetPreferences. cbn [snd].
    rewrite getItem_removeItem. reflexivity.
  - intros text raw Hget Hraw Hp. unfold UserPreferencesManager.getPreferences.
    rewrite Hget, Hraw, Hp. destruct (negb _); reflexivity.
  - intros raw l Hl Hm. unfold UserPreferencesSchema.parse.
    rewrite Hl. cbn [UserPreferencesSchema.parse_enum]. rewrite Hm. reflexivity.
Qed.





(** ** The errors of one answer *)

Section AnswerErrors.

Import QuestionValidator.

Lemma lengthErrors_shape q s :
  lengthErrors q s = []
  \/ lengthErrors q s
     = [err q (if truthy_num (minLength q) then "validation.minLength"
               else "validation.maxLength") "LENGTH"].
Proof.
  unfold lengthErrors.
  destruct (truthy_num (minLength q) || truthy_num (maxLength q));
    [|left; reflexivity].
  destruct (negb _); [right|left]; reflexivity.
Qed.

Lemma patternErrors_shape q v :
  patternErrors q v = [] \/ patternErrors q v = [err q "validation.pattern" "PATTERN"].
Proof.
  unfold patternErrors. destruct (pattern q); [|left; reflexivity].
  destruct v; try (left; reflexivity).
  destruct (negb _); [right|left]; reflexivity.
Qed.

Lemma typeErrors_shape q v :
  typeErrors q v = []
  \/ typeErrors q v = [err q "validation.numeric" "TYPE"]
  \/ typeErrors q v = [err q "validation.invalidChoice" "CHOICE"].
Proof.
  unfold typeErrors. destruct (type q); try (left; reflexivity).
  - destruct (options q); [|left; reflexivity].
    destruct (negb _); [right; right|left]; reflexivity.
  - destruct (options q); [|left; reflexivity].
    destruct (negb _); [right; right|left]; reflexivity.
  - destruct (negb _); [right; left|left]; reflexivity.
Qed.

Lemma dependencyErrors_shape q all :
  dependencyErrors q all = []
  \/ dependencyErrors q all = [err q "validation.dependencyNotMet" "DEPENDENCY"].
Proof.
  unfold dependencyErrors. destruct (dependsOn q); [|left; reflexivity].
  destruct all; [|left; reflexivity].
  destruct (0 <? _)%nat; [right|left]; reflexivity.
Qed.

End AnswerErrors.

(** X30. Every error of [validateAnswer] names the question; there are
    at most four, in the order length, pattern, type or choice,
    dependency; the REQUIRED error only comes alone. For a question
    with both bounds, an answer that is too long is reported under the
    message of the lower bound. *)
Theorem validateAnswer_shape (q : QuestionDefinition) (v : option AnswerValue)
    (all : option (gmap string AnswerValue)) :
  let errs := QuestionValidator.validateAnswer q v all in
  Forall (fun e => field e = id q) errs
  /\ (length errs <= 4)%nat
  /\ (forall e, In e errs -> code e = "REQUIRED"%string ->
        errs = [QuestionValidator.err q "validation.required" "REQUIRED"]
        /\ AnswerValidator.validateRequired v = false)
  /\ (AnswerValidator.validateRequired v = true ->
      QuestionValidator.hidden q all = false ->
      exists val,
        v = Some val
        /\ errs = QuestionValidator.lengthErrors q (String_of val)
                  ++ QuestionValidator.patternErrors q val
                  ++ QuestionValidator.typeErrors q val
                  ++ QuestionValidator.dependencyErrors q all)
  /\ (forall val lo hi,
        v = Some val -> AnswerValidator.validateRequired v = true ->
        QuestionValidator.hidden q all = false ->
        minLength q = Some lo -> lo <> 0 -> maxLength q = Some hi ->
        hi < Z.of_nat (length (trim (String_of val))) ->
        In (QuestionValidator.err q "validation.minLength" "LENGTH") errs
        /\ ~ In (QuestionValidator.err q "validation.maxLength" "LENGTH") errs).
Proof.
  cbv zeta. unfold QuestionValidator.validateAnswer.
  destruct (AnswerValidator.validateRequired v) eqn:Hreq; cbn [negb].
  2:{ rewrite andb_true_r.
      destruct (required q); cbn.
      - split; [repeat constructor|]. split; [lia|].
        split; [intros e _ _; split; reflexivity|].
        split; [discriminate|]. intros; discriminate.
      - split; [constructor|]. split; [lia|].
        split; [intros e []|]. split; [discriminate|]. intros; discriminate. }
  rewrite andb_false_r. cbn [app].
  destruct v as [val|]; [|discriminate Hreq].
  destruct (QuestionValidator.hidden q all) eqn:Hh.
  { split; [constructor|]. split; [cbn; lia|]. split; [intros e []|].
    split; [discriminate|]. intros; discriminate. }
  pose proof (lengthErrors_shape q (String_of val)) as HL.
  pose proof (patternErrors_shape q val) as HP.
  pose proof (typeErrors_shape q val) as HT.
  pose proof (dependencyErrors_shape q all) as HD.
  split; [|split; [|split; [|split]]].
  - rewrite !Forall_app.
    destruct HL as [-> | ->], HP as [-> | ->], HT as [-> | [-> | ->]],
      HD as [-> | ->]; repeat split; repeat constructor.
  - rewrite !length_app.
    destruct HL as [-> | ->], HP as [-> | ->], HT as [-> | [-> | ->]],
      HD as [-> | ->]; cbn; lia.
  - intros e Hin Hcode. exfalso.
    rewrite !in_app_iff in Hin.
    destruct HL as [HL | HL], HP as [HP | HP], HT as [HT | [HT | HT]],
      HD as [HD | HD]; rewrite HL, HP, HT, HD in Hin; cbn in Hin;
      repeat match goal with
             | H : _ \/ _ |- _ => destruct H
             | H : False |- _ => destruct H
             | H : _ = e |- _ => subst e; cbn in Hcode; discriminate Hcode
             end.
  - intros _ _. exists val. split; [reflexivity|].
    rewrite <- !app_assoc. reflexivity.
  - intros val' lo hi [= <-] _ _ Hlo Hne Hhi Hlong.
    assert (HLe : QuestionValidator.lengthErrors q (String_of val)
                  = [QuestionValidator.err q "validation.minLength" "LENGTH"]).
    { unfold QuestionValidator.lengthErrors, AnswerValidator.validateLength.
      rewrite Hlo, Hhi. cbn [truthy_num].
      replace (lo =? 0) with false by (symmetry; apply Z.eqb_neq; exact Hne).
      cbn [negb orb].
      replace (hi <? Z.of_nat (length (trim (String_of val)))) with true
        by (symmetry; apply Z.ltb_lt; exact Hlong).
      destruct (_ <? lo); reflexivity. }
    rewrite HLe. split; [left; reflexivity|].
    cbn [app]. intros [Habs|Hin]; [discriminate Habs|].
    rewrite !in_app_iff in Hin.
    destruct HP as [HP | HP], HT as [HT | [HT | HT]], HD as [HD | HD];
      rewrite HP, HT, HD in Hin; cbn in Hin;
      repeat match goal with
             | H : _ \/ _ |- _ => destruct H
             | H : False |- _ => destruct H
             | H : _ = _ |- _ => discriminate H
             end.
Qed.

(** ** The properties above on sample data *)


Lemma navigationState_facts_witness :
  consistent (wizardState Sample.first_render)
  /\ (7 <= StepNavigationState.progressPercentage
             (navigationState Sample.opts Sample.first_render) <= 100)%num
  /\ StepNavigationState.canGoPrevious
       (navigationState Sample.opts Sample.first_render)
     = fst (useWizardState.previousStep 10 Sample.first_render).
Proof.
  assert (Hc : consistent (wizardState Sample.first_render)).
  { split; [exists 1; split; [reflexivity|lia]|reflexivity]. }
  split; [exact Hc|].
  pose proof (navigationState_facts Sample.opts 10 Sample.first_render Hc) as Hf.
  cbv zeta in Hf. destruct Hf as (Hp & _ & _ & Hprev & _).
  split; [exact Hp|exact Hprev].
Defined.

Lemma refused_step_and_canGoNext_witness :
  useWizardState.currentQuestion Sample.opts (wizardState Sample.first_render)
  = Some Sample.purpose_question
  /\ errors_of (answers (wizardState Sample.first_render)) Sample.purpose_question
     <> []
  /\ exists h',
       useWizardState.nextStep Sample.opts 10 Sample.first_render = Ok (false, h')
       /\ StepNavigationState.canGoNext (navigationState Sample.opts h') = false.
Proof.
  assert (Hq : useWizardState.currentQuestion Sample.opts
                 (wizardState Sample.first_render)
               = Some Sample.purpose_question) by reflexivity.
  assert (He : errors_of (answers (wizardState Sample.first_render))
                 Sample.purpose_question <> []).
  { vm_compute. discriminate. }
  split; [exact Hq|]. split; [exact He|].
  destruct (refused_step_and_canGoNext Sample.opts 10 20 Sample.first_render
              Sample.purpose_question Hq He) as (h' & Hn & Hc & _).
  exists h'. split; [exact Hn|]. rewrite Hc. reflexivity.
Defined.

Lemma nextStep_then_previousStep_witness :
  consistent (wizardState Examples.purpose_answered)
  /\ useWizardState.nextStep Sample.opts 10 Examples.purpose_answered
     = Ok (true, Examples.second_step)
  /\ exists h'',
       useWizardState.previousStep 20 Examples.second_step = (true, h'')
       /\ currentStep (wizardState h'') = 1
       /\ answers (wizardState h'') = answers (wizardState Examples.purpose_answered).
Proof.
  assert (Hc : consistent (wizardState Examples.purpose_answered)).
  { split; [exists 1; split; [reflexivity|lia]|reflexivity]. }
  assert (Hn : useWizardState.nextStep Sample.opts 10 Examples.purpose_answered
               = Ok (true, Examples.second_step)).
  { vm_compute. reflexivity. }
  split; [exact Hc|]. split; [exact Hn|].
  destruct (nextStep_then_previousStep Sample.opts 10 20
              Examples.purpose_answered Examples.second_step Hc Hn)
    as (h'' & Hp & Hs & _ & Ha & _).
  exists h''. split; [exact Hp|]. split; [exact Hs|exact Ha].
Defined.

Lemma setAnswer_then_nextStep_witness :
  compliant Sample.opts
  /\ consistent (wizardState Sample.first_render)
  /\ useWizardState.currentQuestion Sample.opts (wizardState Sample.first_render)
     = Some Sample.purpose_question
  /\ (currentStep (wizardState Sample.first_render) < 15)%num
  /\ QuestionValidator.validateAnswer Sample.purpose_question
       (Some Examples.purpose)
       (Some (<[id Sample.purpose_question := Examples.purpose]>
                (answers (wizardState Sample.first_render)))) = []
  /\ exists h1 h2,
       useWizardState.setAnswer Sample.opts 5 (id Sample.purpose_question)
         Examples.purpose Sample.first_render = Ok h1
       /\ useWizardState.nextStep Sample.opts 10 h1 = Ok (true, h2)
       /\ currentStep (wizardState h2) = 2.
Proof.
  assert (Ho : compliant Sample.opts) by (right; reflexivity).
  assert (Hc : consistent (wizardState Sample.first_render)).
  { split; [exists 1; split; [reflexivity|lia]|reflexivity]. }
  assert (Hq : useWizardState.currentQuestion Sample.opts
                 (wizardState Sample.first_render)
               = Some Sample.purpose_question) by reflexivity.
  assert (Hlt : (currentStep (wizardState Sample.first_render) < 15)%num)
    by reflexivity.
  assert (Hv : QuestionValidator.validateAnswer Sample.purpose_question
                 (Some Examples.purpose)
                 (Some (<[id Sample.purpose_question := Examples.purpose]>
                          (answers (wizardState Sample.first_render)))) = []).
  { vm_compute. reflexivity. }
  split; [exact Ho|]. split; [exact Hc|]. split; [exact Hq|].
  split; [exact Hlt|]. split; [exact Hv|].
  destruct (setAnswer_then_nextStep Sample.opts 5 10 Sample.first_render
              Sample.purpose_question Examples.purpose Ho Hc Hq Hlt Hv)
    as (h1 & h2 & H1 & H2 & H3 & _).
  exists h1, h2. split; [exact H1|]. split; [exact H2|].
  rewrite H3. reflexivity.
Defined.


Lemma cleanup_then_listDrafts_witness :
  NoDup (map fst Sample.old_then_recent)
  /\ Forall (fun kv => expiry_is_date (snd kv) = true) Sample.old_then_recent
  /\ @cleanupExpiredDraftsSync Sample.toy_platform Sample.later
       Sample.old_then_recent
     = (1%nat, [("wizard-draft-b"%string, Sample.draft_at Sample.day "b")])
  /\ length (fst (@DraftStorageManager.listDrafts Sample.toy_platform Sample.later
                    (snd (@cleanupExpiredDraftsSync Sample.toy_platform
                            Sample.later Sample.old_then_recent))))
     = 1%nat.
Proof.
  assert (Hnd : NoDup (map fst Sample.old_then_recent)).
  { apply (bool_decide_unpack _). vm_compute. reflexivity. }
  assert (Hd : Forall (fun kv => expiry_is_date (snd kv) = true)
                 Sample.old_then_recent).
  { repeat constructor. }
  split; [exact Hnd|]. split; [exact Hd|].
  split; [vm_compute; reflexivity|].
  pose proof (@cleanup_then_listDrafts Sample.toy_platform Sample.later []
                Sample.old_then_recent Hnd Hd) as Hf.
  cbv zeta in Hf. destruct Hf as (_ & _ & Hlen & _).
  rewrite Hlen. vm_compute. reflexivity.
Defined.

Lemma saveDraft_keeps_other_entries_witness :
  NoDup (map fst Sample.old_then_recent)
  /\ "wizard-draft-b"%string <> draft_key "c"
  /\ LocalStorage.getItem "wizard-draft-b" Sample.old_then_recent
     = Some (Sample.draft_at Sample.day "b")
  /\ collected Sample.later
       ("wizard-draft-b"%string, Sample.draft_at Sample.day "b") = false
  /\ @DraftStorageManager.saveDraft Sample.toy_platform Sample.later "c"
       (useWizardState.fresh_state "c" Sample.later) Sample.old_then_recent
     = (Ok true, Examples.third_draft_saved)
  /\ LocalStorage.getItem "wizard-draft-b" Examples.third_draft_saved
     = Some (Sample.draft_at Sample.day "b").
Proof.
  assert (Hnd : NoDup (map fst Sample.old_then_recent)).
  { apply (bool_decide_unpack _). vm_compute. reflexivity. }
  assert (Hne : "wizard-draft-b"%string <> draft_key "c").
  { vm_compute. discriminate. }
  assert (Hg : LocalStorage.getItem "wizard-draft-b" Sample.old_then_recent
               = Some (Sample.draft_at Sample.day "b")) by reflexivity.
  assert (Hc : collected Sample.later
                 ("wizard-draft-b"%string, Sample.draft_at Sample.day "b")
               = false).
  { vm_compute. reflexivity. }
  assert (Hs : @DraftStorageManager.saveDraft Sample.toy_platform Sample.later "c"
                 (useWizardState.fresh_state "c" Sample.later)
                 Sample.old_then_recent
               = (Ok true, Examples.third_draft_saved)).
  { vm_compute. reflexivity. }
  split; [exact Hnd|]. split; [exact Hne|]. split; [exact Hg|].
  split; [exact Hc|]. split; [exact Hs|].
  exact (proj1 (@saveDraft_keeps_other_entries Sample.toy_platform Sample.later
                  "c" (useWizardState.fresh_state "c" Sample.later)
                  Sample.old_then_recent Examples.third_draft_saved
                  "wizard-draft-b" (Sample.draft_at Sample.day "b")
                  Hnd Hne Hg Hc Hs)).
Defined.

Lemma loadDraft_agrees_with_retention_witness :
  LocalStorage.getItem (draft_key "session-1") Sample.saved_at_step_7
  = Some (DraftJson (@DraftStorageManager.draft_of Sample.toy_platform 1000
                       "session-1" (wizardState (fst Sample.at_step_7))))
  /\ validateDraftRetention (Some 1000) 2000 = true
  /\ @DraftStorageManager.loadDraft Sample.toy_platform 2000 "session-1"
       Sample.saved_at_step_7
     = (Ok (Some (toJSON (wizardState (fst Sample.at_step_7)))),
        Sample.saved_at_step_7)
  /\ validateDraftRetention (Some 1000) (1000 + Sample.later) = false
  /\ @DraftStorageManager.loadDraft Sample.toy_platform (1000 + Sample.later)
       "session-1" Sample.saved_at_step_7
     = (Ok None, LocalStorage.removeItem (draft_key "session-1")
                   Sample.saved_at_step_7).
Proof.
  assert (Hg : LocalStorage.getItem (draft_key "session-1") Sample.saved_at_step_7
               = Some (DraftJson (@DraftStorageManager.draft_of Sample.toy_platform
                                    1000 "session-1"
                                    (wizardState (fst Sample.at_step_7)))))
    by reflexivity.
  assert (Hin : validateDraftRetention (Some 1000) 2000 = true)
    by (vm_compute; reflexivity).
  assert (Hout : validateDraftRetention (Some 1000) (1000 + Sample.later) = false)
    by (vm_compute; reflexivity).
  split; [exact Hg|]. split; [exact Hin|].
  split.
  - exact (proj1 (@loadDraft_agrees_with_retention Sample.toy_platform 1000 2000
                    "session-1" (wizardState (fst Sample.at_step_7))
                    Sample.saved_at_step_7 Hg) Hin).
  - split; [exact Hout|].
    exact (proj1 (proj2 (@loadDraft_agrees_with_retention Sample.toy_platform
                           1000 (1000 + Sample.later) "session-1"
                           (wizardState (fst Sample.at_step_7))
                           Sample.saved_at_step_7 Hg)) Hout).
Defined.

Lemma other_keys_untouched_witness :
  "wizard-draft-a"%string <> draft_key "b"
  /\ LocalStorage.getItem "wizard-draft-a"
       (snd (@DraftStorageManager.loadDraft Sample.toy_platform Sample.later "b"
               Sample.two_old_drafts))
     = LocalStorage.getItem "wizard-draft-a" Sample.two_old_drafts.
Proof.
  assert (Hne : "wizard-draft-a"%string <> draft_key "b").
  { vm_compute. discriminate. }
  split; [exact Hne|].
  exact (proj1 (@other_keys_untouched Sample.toy_platform Sample.later "b"
                  Sample.two_old_drafts "wizard-draft-a" Hne)).
Defined.


Lemma checkCompliance_retention_witness :
  Forall (fun kv => dated_by_saveDraft (snd kv) = true) Sample.old_then_recent
  /\ useStorageCompliance.expiredDrafts
       (useStorageCompliance.retentionStatus
          (fst (@useStorageCompliance.checkCompliance Sample.toy_platform
                  Sample.day Sample.old_then_recent))) = 0%nat
  /\ useStorageCompliance.totalDrafts
       (useStorageCompliance.retentionStatus
          (fst (@useStorageCompliance.checkCompliance Sample.toy_platform
                  Sample.day Sample.old_then_recent))) = 2%nat.
Proof.
  assert (Hd : Forall (fun kv => dated_by_saveDraft (snd kv) = true)
                 Sample.old_then_recent).
  { repeat constructor. }
  split; [exact Hd|].
  pose proof (@checkCompliance_retention Sample.toy_platform Sample.day
                Sample.old_then_recent Hd) as Hf.
  cbv zeta in Hf. destruct Hf as (He & _ & Ht & _).
  split; [exact He|]. rewrite Ht. vm_compute. reflexivity.
Defined.

Lemma returned_output_facts_witness :
  output (useOutputGeneration.generateOutput default_generation_options
            Sample.clock (wizardState Examples.completed) Sample.catalog)
  = Some Examples.specification
  /\ endTime Sample.clock - startTime Sample.clock <= 5000
  /\ useOutputGeneration.truthy
       (answers (wizardState Examples.completed) !! "layer1_purpose"%string)
     = true.
Proof.
  assert (Ho : output (useOutputGeneration.generateOutput
                         default_generation_options Sample.clock
                         (wizardState Examples.completed) Sample.catalog)
               = Some Examples.specification).
  { vm_compute. reflexivity. }
  split; [exact Ho|].
  destruct (returned_output_facts default_generation_options Sample.clock
              (wizardState Examples.completed) Sample.catalog
              Examples.specification Ho) as (Ht & _ & _ & _ & Hv).
  split; [exact Ht|]. apply Hv. reflexivity.
Defined.

Lemma debounce_last_call_wins_witness :
  Forall (fun e => Debounce.is_timer e = true) ([] : list (Debounce.Event nat))
  /\ Debounce.run 2000 (Debounce.initial 0)
       (Examples.burst ++ Debounce.Call 200 3%nat :: [] ++ [Debounce.Timer 2200])
     = Some Examples.after_burst
  /\ 200 + 2000 <= 2200
  /\ Debounce.run 2000 Examples.after_burst [Debounce.Timer 5000] = None.
Proof.
  assert (Hb : Forall (fun e => Debounce.is_timer e = true)
                 ([] : list (Debounce.Event nat))) by constructor.
  assert (Hr : Debounce.run 2000 (Debounce.initial 0)
                 (Examples.burst ++ Debounce.Call 200 3%nat
                    :: [] ++ [Debounce.Timer 2200])
               = Some Examples.after_burst).
  { vm_compute. reflexivity. }
  split; [exact Hb|]. split; [exact Hr|].
  destruct (debounce_last_call_wins nat 2000 0 Examples.burst [] 200 3%nat 2200
              Examples.after_burst Hb Hr) as (_ & Hd & _ & _ & Hn & _).
  split; [exact Hd|apply Hn].
Defined.



